(** * Shipment log extraction ([extract_logs.py]): model and properties

    The development embeds the extraction-and-triage pipeline of
    [extract_logs.py]: the four regular expressions of [Shipment], the
    method [Shipment.extract], the per-file loop of
    [Shipments.extract_information] together with its helpers, and
    [Shipments.export_dataframe].

    Modelling choices.
    - A Python [str] is a [string]; a character is a code point below 256.
      The classes [\d], [\s] and [\w] are the Unicode classes of [re]
      restricted to that range.
    - [re] is modelled by a small backtracking matcher for the constructs
      the four patterns use (literals, classes, greedy [+] on a class,
      concatenation, one capture group); [findall] scans left to right and
      yields the group of every non-overlapping match.
    - Exceptions are values of [Result]; code that logs, renames files or
      reads them runs in a state-and-exception monad over [World].  What the
      operating system answers (the listing of the source directory, the
      text of a file, the outcome of a rename, whether a CSV file can be
      written) is part of the [World] and is never chosen by the program.
    - A [pandas] data frame is the list of its rows, in index order;
      [DataFrame.append] is the method of pandas before 2.0, which returns
      the frame with the row added.  [print] is not modelled. *)

From Stdlib Require Import String Ascii List Bool Arith NArith Lia.
Import ListNotations.
Open Scope string_scope.
Open Scope list_scope.

Set Implicit Arguments.

(** ** Strings *)

(** [sub in s] on Python strings. *)
Fixpoint str_in (sub s : string) : bool :=
  if prefix sub s then true
  else match s with
       | EmptyString => false
       | String _ s' => str_in sub s'
       end.

(** [sub] occurs in [s] as a literal substring. *)
Definition Substring (sub s : string) : Prop :=
  exists pre post : string, s = (pre ++ sub ++ post)%string.

(** [s[n:]]. *)
Fixpoint drop (n : nat) (s : string) : string :=
  match n, s with
  | 0, _ => s
  | S _, EmptyString => EmptyString
  | S n', String _ s' => drop n' s'
  end.

(** [s.find(sub)]: the offset of the first occurrence of [sub] in [s]. *)
Fixpoint str_find (sub s : string) : option nat :=
  if prefix sub s then Some 0
  else match s with
       | EmptyString => None
       | String _ s' => option_map S (str_find sub s')
       end.

(** The first character of [s] is in the class [p]. *)
Definition starts_with (p : ascii -> bool) (s : string) : bool :=
  match s with
  | String c _ => p c
  | EmptyString => false
  end.

(** [s] without its prefix [l], when [s] starts with [l]. *)
Fixpoint strip_prefix (l s : string) : option string :=
  match l, s with
  | EmptyString, _ => Some s
  | String _ _, EmptyString => None
  | String a l', String b s' =>
      if Ascii.eqb a b then strip_prefix l' s' else None
  end.

(** ** Character classes of [re] on [str] patterns *)

Definition code (c : ascii) : N := N_of_ascii c.

Definition between (lo hi : N) (c : ascii) : bool :=
  (lo <=? code c)%N && (code c <=? hi)%N.

(** [\d]: decimal digits. *)
Definition py_digit (c : ascii) : bool := between 48 57 c.

(** [\s]: [str.isspace]. *)
Definition py_space (c : ascii) : bool :=
  between 9 13 c || between 28 32 c
  || (code c =? 133)%N || (code c =? 160)%N.

(** [str.isalnum], below code point 256. *)
Definition py_alnum (c : ascii) : bool :=
  between 48 57 c || between 65 90 c || between 97 122 c
  || (code c =? 170)%N || between 178 179 c || (code c =? 181)%N
  || between 185 186 c || between 188 190 c
  || between 192 214 c || between 216 246 c || between 248 255 c.

(** [\w]: alphanumeric or underscore. *)
Definition py_word (c : ascii) : bool :=
  py_alnum c || (code c =? 95)%N.

(** ** Regular expressions *)

Inductive regex : Type :=
| Lit (l : string)               (* literal text *)
| Cls (p : ascii -> bool)        (* one character of a class: [[\s]] *)
| Plus (p : ascii -> bool)       (* greedy repetition of a class: [[\w]+] *)
| Cat (r1 r2 : regex)            (* concatenation *)
| Group (r : regex).             (* capture group: [( ... )] *)

Infix "@@" := Cat (at level 60, right associativity).

(** A successful match: the text matched, the text of the group (if the
    group took part) and the text after the match. *)
Record Match : Type := mkMatch {
  group0 : string;
  group1 : option string;
  rest : string
}.

Section Matcher.
Variable A : Type.

(** Continuations receive the text consumed, the text left and the
    current capture. *)
Definition cont : Type := string -> string -> option string -> option A.

(** Zero or more characters of [p], as many as possible first, giving
    characters back one at a time when the continuation fails. *)
Fixpoint star (p : ascii -> bool) (s : string)
         (k : string -> string -> option A) : option A :=
  match s with
  | EmptyString => k "" ""
  | String c s' =>
      if p c then
        match star p s' (fun t r => k (String c t) r) with
        | Some a => Some a
        | None => k "" s
        end
      else k "" s
  end.

Fixpoint rmatch (r : regex) (s : string) (g : option string) (k : cont)
  : option A :=
  match r with
  | Lit l =>
      match strip_prefix l s with
      | Some s' => k l s' g
      | None => None
      end
  | Cls p =>
      match s with
      | String c s' => if p c then k (String c "") s' g else None
      | EmptyString => None
      end
  | Plus p =>
      match s with
      | String c s' =>
          if p c then star p s' (fun t r => k (String c t) r g) else None
      | EmptyString => None
      end
  | Cat r1 r2 =>
      rmatch r1 s g (fun t1 s1 g1 =>
        rmatch r2 s1 g1 (fun t2 s2 g2 => k (t1 ++ t2)%string s2 g2))
  | Group r' =>
      rmatch r' s g (fun t s' _ => k t s' (Some t))
  end.
End Matcher.

(** [pattern.match(s)]: a match that starts at the first character of [s]. *)
Definition match_at (r : regex) (s : string) : option Match :=
  rmatch r s None (fun t s' g => Some (mkMatch t g s')).

(** What [findall] reports for a match of a pattern with one group. *)
Definition reported (m : Match) : string :=
  match group1 m with
  | Some g => g
  | None => ""
  end.

(** [findall], scanning from the head of [s]; [skip] counts the characters
    still covered by the previous match. *)
Fixpoint findall_from (r : regex) (skip : nat) (s : string) : list string :=
  match skip, s with
  | S n, String _ s' => findall_from r n s'
  | S _, EmptyString => []
  | 0, EmptyString =>
      match match_at r "" with
      | Some m => [reported m]
      | None => []
      end
  | 0, String _ s' =>
      match match_at r s with
      | Some m => reported m :: findall_from r (String.length (group0 m) - 1) s'
      | None => findall_from r 0 s'
      end
  end.

(** [pattern.findall(s)]. *)
Definition findall (r : regex) (s : string) : list string :=
  findall_from r 0 s.
Arguments findall : simpl never.

(** [v] is the group of the leftmost match of [r] in [s]: the pattern
    matches at offset [n] and at no smaller offset. *)
Definition leftmost_match (r : regex) (s v : string) : Prop :=
  exists n m,
    n <= String.length s /\
    match_at r (drop n s) = Some m /\ reported m = v /\
    forall j, j < n -> match_at r (drop j s) = None.

(** Every character of [t] is in the class [p]. *)
Fixpoint all_chars (p : ascii -> bool) (t : string) : bool :=
  match t with
  | EmptyString => true
  | String c t' => p c && all_chars p t'
  end.

(** The texts a pattern matches, without regard to the order in which
    the matcher tries them. *)
Fixpoint in_lang (r : regex) (t : string) : Prop :=
  match r with
  | Lit l => t = l
  | Cls p => exists c, t = String c "" /\ p c = true
  | Plus p => t <> "" /\ all_chars p t = true
  | Cat r1 r2 =>
      exists t1 t2 : string,
        t = (t1 ++ t2)%string /\ in_lang r1 t1 /\ in_lang r2 t2
  | Group r' => in_lang r' t
  end.

(** The four patterns compiled by [Shipment.__init__]. *)

(** [_([\d]+)] *)
Definition reference_id_re : regex :=
  Lit "_" @@ Group (Plus py_digit).

(** [Shipment:[\s]+([\w]+)] *)
Definition job_number_re : regex :=
  Lit "Shipment:" @@ Plus py_space @@ Group (Plus py_word).

(** [Shipment:[\s]+[\w]+-([\w]+)] *)
Definition distribution_order_number_re : regex :=
  Lit "Shipment:" @@ Plus py_space @@ Plus py_word @@ Lit "-"
    @@ Group (Plus py_word).

(** [,[\s]([\w]+),] *)
Definition airwaybill_re : regex :=
  Lit "," @@ Cls py_space @@ Group (Plus py_word) @@ Lit ",".

(** ** Exceptions and effects *)

Inductive Exception : Type :=
| IndexError
| AttributeError
| PermissionError
| FileNotFoundError
| OtherError (cls : string).     (* any other exception class *)

Inductive Result (A : Type) : Type :=
| Ok (a : A)
| Raise (e : Exception).
Arguments Raise {A} e.

(** A computation over a mutable state [S] that returns or raises; what it
    did to the state before raising stays done. *)
Definition M (S A : Type) : Type := S -> Result A * S.

Definition ret {S A : Type} (a : A) : M S A := fun s => (Ok a, s).

Definition raise {S A : Type} (e : Exception) : M S A :=
  fun s => (Raise e, s).

Definition bind {S A B : Type} (m : M S A) (f : A -> M S B) : M S B :=
  fun s =>
    match m s with
    | (Ok a, s') => f a s'
    | (Raise e, s') => (Raise e, s')
    end.

(** [try: m except: h]; the handler sees the exception, as the clauses of
    an [except] chain do. *)
Definition try_except {S A : Type} (m : M S A) (h : Exception -> M S A)
  : M S A :=
  fun s =>
    match m s with
    | (Ok a, s') => (Ok a, s')
    | (Raise e, s') => h e s'
    end.

Definition get {S : Type} : M S S := fun s => (Ok s, s).
Definition put {S : Type} (s : S) : M S unit := fun _ => (Ok tt, s).

Definition lift {S A : Type} (r : Result A) : M S A := fun s => (r, s).

(** [obj.method()] from code that runs over another state: the method
    runs on the object, and the caller keeps the object it mutated. *)
Definition call {S W A : Type} (obj : S) (m : M S A) : M W S :=
  fun w =>
    match m obj with
    | (Ok _, obj') => (Ok obj', w)
    | (Raise e, _) => (Raise e, w)
    end.

Declare Scope monad_scope.
Delimit Scope monad_scope with monad.
Notation "x <- c1 ;; c2" := (bind c1 (fun x => c2))
  (at level 61, c1 at next level, right associativity) : monad_scope.
Notation "c1 ;; c2" := (bind c1 (fun _ => c2))
  (at level 61, right associativity) : monad_scope.
Open Scope monad_scope.

(** [for x in xs: body], threading the local variables of the loop. *)
Fixpoint for_each {S X L : Type} (xs : list X) (body : X -> L -> M S L)
         (l : L) : M S L :=
  match xs with
  | [] => ret l
  | x :: xs' => l' <- body x l ;; for_each xs' body l'
  end.

(** [l[0]]. *)
Definition index0 {A : Type} (l : list A) : Result A :=
  match l with
  | x :: _ => Ok x
  | [] => Raise IndexError
  end.

(** Reading an attribute that may not have been assigned yet. *)
Definition getattr {S A : Type} (a : option A) : M S A :=
  match a with
  | Some v => ret v
  | None => raise AttributeError
  end.

(** ** Paths *)

(** A [pathlib.Path] is the list of its components. *)
Definition Path : Type := list string.

(** [p.name]. *)
Definition name (p : Path) : string := last p "".

(** [p / child], for a [child] that is a file name. *)
Definition joinpath (p : Path) (child : string) : Path := p ++ [child].

(** ** Rows and data frames *)

Module Row.
(** The dictionary [new_shipment_data]: one row of the data frame. *)
Record t : Type := mk {
  reference_id : string;
  job_number : string;
  distribution_order_number : string;
  airwaybill : string;
  path : Path;
  unc_path : Path
}.
End Row.

Definition DataFrame : Type := list Row.t.

(** [df.append(row, ignore_index=True)]. *)
Definition df_append (df : DataFrame) (row : Row.t) : DataFrame :=
  df ++ [row].

(** The columns [drop_duplicates] compares in [export_dataframe]. *)
Definition subset (r : Row.t) : string * string :=
  (Row.distribution_order_number r, Row.airwaybill r).

Definition subset_eqb (a b : string * string) : bool :=
  String.eqb (fst a) (fst b) && String.eqb (snd a) (snd b).

(** [df.drop_duplicates(subset=..., inplace=False)] with the default
    [keep='first']: a row goes when an earlier row has the same values in
    the columns of [subset]. *)
Fixpoint drop_duplicates_seen (seen : list (string * string))
         (df : DataFrame) : DataFrame :=
  match df with
  | [] => []
  | r :: df' =>
      if existsb (subset_eqb (subset r)) seen
      then drop_duplicates_seen seen df'
      else r :: drop_duplicates_seen (subset r :: seen) df'
  end.

Definition drop_duplicates (df : DataFrame) : DataFrame :=
  drop_duplicates_seen [] df.

(** ** Logging and the world *)

Inductive Level : Type := DEBUG | INFO | WARNING | ERROR.

(** A value substituted into a message. *)
Inductive Arg : Type :=
| AStr (s : string)
| APath (p : Path)
| ANat (n : nat)
| ARow (r : Row.t)
| ADf (df : DataFrame).

(** A call to [logging.<level>]: the text of the message as the source
    writes it and the values that fill its placeholders, in order. *)
Record LogRecord : Type := mkLog {
  levelname : Level;
  template : string;
  args : list Arg
}.

Record World : Type := mkWorld {
  (* the environment: what the file system answers *)
  glob_txt : Path -> list Path;            (* [dir.glob('**/*.txt')] *)
  read_text : Path -> Result string;       (* [open(p, 'r').read()] *)
  rename_outcome : Path -> Path -> option Exception;
                                           (* [None]: the rename succeeds *)
  to_csv_outcome : Path -> option Exception;
                                           (* [None]: the file is written *)
  (* what the program did *)
  log : list LogRecord;                    (* calls to [logging], in order *)
  rename_calls : list (Path * Path);       (* calls to [os.rename] *)
  csv_files : list (Path * DataFrame)      (* files written by [to_csv] *)
}.

Definition set_log (w : World) (l : list LogRecord) : World :=
  mkWorld (glob_txt w) (read_text w) (rename_outcome w) (to_csv_outcome w)
          l (rename_calls w) (csv_files w).

Definition set_rename_calls (w : World) (c : list (Path * Path)) : World :=
  mkWorld (glob_txt w) (read_text w) (rename_outcome w) (to_csv_outcome w)
          (log w) c (csv_files w).

Definition set_csv_files (w : World) (c : list (Path * DataFrame)) : World :=
  mkWorld (glob_txt w) (read_text w) (rename_outcome w) (to_csv_outcome w)
          (log w) (rename_calls w) c.

Definition logging (lvl : Level) (msg : string) (a : list Arg)
  : M World unit :=
  fun w => (Ok tt, set_log w (log w ++ [mkLog lvl msg a])).

Definition logging_debug := logging DEBUG.
Definition logging_info := logging INFO.
Definition logging_warning := logging WARNING.
Definition logging_error := logging ERROR.

(** [with open(p, 'r') as text: text.read()]. *)
Definition open_read (p : Path) : M World string :=
  fun w => (read_text w p, w).

(** [os.rename(src, dst)]. *)
Definition os_rename (src dst : Path) : M World unit :=
  fun w =>
    let w' := set_rename_calls w (rename_calls w ++ [(src, dst)]) in
    match rename_outcome w src dst with
    | None => (Ok tt, w')
    | Some e => (Raise e, w')
    end.

(** [df.to_csv(filepath, index=False)]: the file is opened for writing,
    which raises when the operating system refuses (a directory of the
    path is missing, the file is locked or may not be written); nothing is
    written then. *)
Definition to_csv (df : DataFrame) (filepath : Path) : M World unit :=
  fun w =>
    match to_csv_outcome w filepath with
    | None => (Ok tt, set_csv_files w (csv_files w ++ [(filepath, df)]))
    | Some e => (Raise e, w)
    end.

(** The file [src] has been moved to [dst]: [os.rename] was called on the
    pair and the operating system carried it out. *)
Definition moved (w : World) (src dst : Path) : Prop :=
  In (src, dst) (rename_calls w) /\ rename_outcome w src dst = None.

(** ** class Shipment *)

Module Shipment.
Record t : Type := mk {
  filepath : Path;
  rawtext : string;
  filename : string;
  reference_id_pattern : regex;
  job_number_pattern : regex;
  distribution_order_number_p : regex;
  airwaybill_pattern : regex;
  (* assigned by [extract] *)
  reference_id : option string;
  job_number : option string;
  distribution_order_number : option string;
  airwaybill : option string
}.

(** [Shipment.__init__] *)
Definition init (filepath : Path) (rawtext : string) : t :=
  mk filepath rawtext (name filepath)
     reference_id_re job_number_re distribution_order_number_re
     airwaybill_re
     None None None None.

Definition set_reference_id (self : t) (v : string) : t :=
  mk (filepath self) (rawtext self) (filename self)
     (reference_id_pattern self) (job_number_pattern self)
     (distribution_order_number_p self) (airwaybill_pattern self)
     (Some v) (job_number self) (distribution_order_number self)
     (airwaybill self).

Definition set_job_number (self : t) (v : string) : t :=
  mk (filepath self) (rawtext self) (filename self)
     (reference_id_pattern self) (job_number_pattern self)
     (distribution_order_number_p self) (airwaybill_pattern self)
     (reference_id self) (Some v) (distribution_order_number self)
     (airwaybill self).

Definition set_distribution_order_number (self : t) (v : string) : t :=
  mk (filepath self) (rawtext self) (filename self)
     (reference_id_pattern self) (job_number_pattern self)
     (distribution_order_number_p self) (airwaybill_pattern self)
     (reference_id self) (job_number self) (Some v)
     (airwaybill self).

Definition set_airwaybill (self : t) (v : string) : t :=
  mk (filepath self) (rawtext self) (filename self)
     (reference_id_pattern self) (job_number_pattern self)
     (distribution_order_number_p self) (airwaybill_pattern self)
     (reference_id self) (job_number self)
     (distribution_order_number self) (Some v).

(** [self.attr = pattern.findall(text)[0]] *)
Definition assign_first (pattern : t -> regex) (text : t -> string)
           (set : t -> string -> t) : M t unit :=
  self <- get ;;
  v <- lift (index0 (findall (pattern self) (text self))) ;;
  put (set self v).

(** [Shipment.extract] *)
Definition extract : M t unit :=
  assign_first reference_id_pattern filename set_reference_id ;;
  assign_first job_number_pattern rawtext set_job_number ;;
  assign_first distribution_order_number_p rawtext
               set_distribution_order_number ;;
  assign_first airwaybill_pattern rawtext set_airwaybill.
End Shipment.

(** ** class Shipments *)

(** The local variables of the loop in [extract_information]. *)
Record Locals : Type := mkLocals {
  df : DataFrame;
  total_count : nat;
  processed_count : nat;
  skipped_count : nat;
  warnings_count : nat
}.

Module Shipments.
(** The attributes the pipeline reads, as [Settings.__init__] and
    [Shipments.__init__] resolve them from [settings.json], and the two
    data frames the methods assign. *)
Record t : Type := mk {
  parent : Path;
  source : Path;
  processed : Path;
  skipped : Path;
  warning : Path;
  outputfilename : string;
  UNC_processed : Path;
  process_criteria : string;
  move_processed : bool;
  move_skipped : bool;
  warn_if_more_than_1Detail : bool;
  move_undhandled_files_to_warning : bool;
  self_df : option DataFrame;
  unique_df : option DataFrame
}.

Definition set_self_df (self : t) (d : DataFrame) : t :=
  mk (parent self) (source self) (processed self) (skipped self)
     (warning self) (outputfilename self) (UNC_processed self)
     (process_criteria self) (move_processed self) (move_skipped self)
     (warn_if_more_than_1Detail self)
     (move_undhandled_files_to_warning self)
     (Some d) (unique_df self).

Definition set_unique_df (self : t) (d : DataFrame) : t :=
  mk (parent self) (source self) (processed self) (skipped self)
     (warning self) (outputfilename self) (UNC_processed self)
     (process_criteria self) (move_processed self) (move_skipped self)
     (warn_if_more_than_1Detail self)
     (move_undhandled_files_to_warning self)
     (self_df self) (Some d).

(** [Shipments._check_if_1Details] *)
Definition _check_if_1Details (self : t) (textfile : Path)
           (rawtext : string) : M World bool :=
  if warn_if_more_than_1Detail self then
    if negb (str_in "1Details" rawtext) then
      logging_warning
        "{} contains more than 1 Detail!!!!\n Please add manually"
        [AStr (name textfile)] ;;
      ret true
    else ret false
  else ret false.

(** [Shipments._move_file_safely]; the last handler builds its message
    and returns without logging it. *)
Definition _move_file_safely (self : t) (path destination : Path)
  : M World unit :=
  try_except
    (logging_debug "File is moved: {} -> {}"
                   [APath path; APath destination] ;;
     os_rename path destination)
    (fun e =>
       match e with
       | PermissionError =>
           logging_error "File in use. File could not be moved. File:{}"
                         [AStr (name path)]
       | FileNotFoundError =>
           logging_error "File was not found. {}" [AStr (name path)]
       | _ => ret tt
       end).

(** [Shipments._file_could_not_be_handled] *)
Definition _file_could_not_be_handled (self : t) (textfile : Path)
  : M World unit :=
  if move_undhandled_files_to_warning self then
    _move_file_safely self textfile
                      (joinpath (warning self) (name textfile))
  else ret tt.

(** [Shipments.extract_shipment_info] *)
Definition extract_shipment_info (self : t) (df : DataFrame)
           (textfile : Path) (rawtext : string)
  : M World (DataFrame * bool) :=
  logging_debug "extract_shipment_info_function - textfile:{textfile}"
                [APath textfile] ;;
  logging_debug "extract_shipment_info_function - textfile:{rawtext}"
                [AStr rawtext] ;;
  try_except
    (shipment <- call (Shipment.init textfile rawtext) Shipment.extract ;;
     reference_id <- getattr (Shipment.reference_id shipment) ;;
     job_number <- getattr (Shipment.job_number shipment) ;;
     distribution_order_number <-
       getattr (Shipment.distribution_order_number shipment) ;;
     airwaybill <- getattr (Shipment.airwaybill shipment) ;;
     let new_shipment_data :=
       Row.mk reference_id job_number distribution_order_number
              airwaybill (Shipment.filepath shipment)
              (joinpath (UNC_processed self)
                        (Shipment.filename shipment)) in
     logging_debug "Shipment attributes:\t{}" [ARow new_shipment_data] ;;
     let df := df_append df new_shipment_data in
     ret (df, true))
    (fun _ =>
       logging_warning
         "{textfile} did not match the regular expression patterns!!" [] ;;
       ret (df, false)).

(** One iteration of the loop of [extract_information]. *)
Definition loop_body (self : t) (textfile : Path) (l : Locals)
  : M World Locals :=
  let total_count := total_count l + 1 in
  rawtext <- open_read textfile ;;
  if str_in (process_criteria self) rawtext then
    issue <- _check_if_1Details self textfile rawtext ;;
    if issue then
      _file_could_not_be_handled self textfile ;;
      ret (mkLocals (df l) total_count (processed_count l)
                    (skipped_count l) (warnings_count l + 1))
    else
      r <- extract_shipment_info self (df l) textfile rawtext ;;
      let (df, patterns_found) := r in
      if patterns_found then
        (if move_processed self then
           _move_file_safely self textfile
                             (joinpath (processed self) (name textfile))
         else ret tt) ;;
        ret (mkLocals df total_count (processed_count l + 1)
                      (skipped_count l) (warnings_count l))
      else
        _file_could_not_be_handled self textfile ;;
        ret (mkLocals df total_count (processed_count l)
                      (skipped_count l) (warnings_count l + 1))
  else
    (if move_skipped self then
       _move_file_safely self textfile
                         (joinpath (skipped self) (name textfile))
     else ret tt) ;;
    ret (mkLocals (df l) total_count (processed_count l)
                  (skipped_count l + 1) (warnings_count l)).

(** The loop of [extract_information], from a clean data frame and
    counters at zero. *)
Definition batch_loop (self : t) : M World Locals :=
  w <- get ;;
  for_each (glob_txt w (source self)) (loop_body self)
           (mkLocals [] 0 0 0 0).

(** [Shipments.extract_information] *)
Definition extract_information (self : t) : M World (t * DataFrame) :=
  l <- batch_loop self ;;
  let self := set_self_df self (df l) in
  logging_info
    "Total files handled: {total_count} Processed files: {processed_count} Skipped files: {skipped_count} Warnings:{warnings_count}"
    [ANat (total_count l); ANat (processed_count l);
     ANat (skipped_count l); ANat (warnings_count l)] ;;
  logging_info "Script finished successfully" [] ;;
  ret (self, df l).

(** [Shipments.export_dataframe]; [now] is the formatted time stamp. *)
Definition export_dataframe (self : t) (now : string) : M World t :=
  let filename := (now ++ "_" ++ outputfilename self)%string in
  d <- getattr (self_df self) ;;
  logging_debug "{}" [ADf d] ;;
  let self := set_unique_df self (drop_duplicates d) in
  logging_debug "{}" [ADf (drop_duplicates d)] ;;
  let filepath := joinpath (parent self) filename in
  to_csv (drop_duplicates d) filepath ;;
  ret self.
End Shipments.

(** ** Dispositions *)

Inductive Disposition : Type := Processed | Skipped | Warning.

(** The disposition of a file is the counter its iteration increments. *)
Definition disposition (before after : Locals) : option Disposition :=
  let same (f : Locals -> nat) := Nat.eqb (f after) (f before) in
  let incr (f : Locals -> nat) := Nat.eqb (f after) (f before + 1) in
  if incr processed_count && same skipped_count && same warnings_count
  then Some Processed
  else if same processed_count && incr skipped_count && same warnings_count
  then Some Skipped
  else if same processed_count && same skipped_count && incr warnings_count
  then Some Warning
  else None.

(** Nothing the program does changes what the file system answers. *)
Definition same_env (w w' : World) : Prop :=
  glob_txt w' = glob_txt w /\
  read_text w' = read_text w /\
  rename_outcome w' = rename_outcome w /\
  to_csv_outcome w' = to_csv_outcome w.

(** [w'] is [w] after the calls [calls] to [os.rename] and the log
    records [new], and nothing else. *)
Definition extends (w w' : World) (calls : list (Path * Path))
           (new : list LogRecord) : Prop :=
  same_env w w' /\
  rename_calls w' = rename_calls w ++ calls /\
  csv_files w' = csv_files w /\
  log w' = log w ++ new.

(** The record was written by [extract_shipment_info]. *)
Definition logged_by_extract_shipment_info (r : LogRecord) : bool :=
  existsb (String.eqb (template r))
    ["extract_shipment_info_function - textfile:{textfile}";
     "extract_shipment_info_function - textfile:{rawtext}";
     "Shipment attributes:\t{}";
     "{textfile} did not match the regular expression patterns!!"].

(** The record was written by [_move_file_safely]. *)
Definition logged_by_move_file_safely (r : LogRecord) : bool :=
  existsb (String.eqb (template r))
    ["File is moved: {} -> {}";
     "File in use. File could not be moved. File:{}";
     "File was not found. {}"].

(** The row [extract_shipment_info] builds from the four values. *)
Definition shipment_row (self : Shipments.t) (p : Path)
           (a b c d : string) : Row.t :=
  Row.mk a b c d p (joinpath (Shipments.UNC_processed self) (name p)).

(** The file is in scope and simple when the marker is present and
    [_check_if_1Details] reports no issue. *)
Definition in_scope_and_simple (self : Shipments.t) (rawtext : string)
  : Prop :=
  str_in (Shipments.process_criteria self) rawtext = true /\
  (Shipments.warn_if_more_than_1Detail self = false \/
   str_in "1Details" rawtext = true).

(** Some pattern of [Shipment] has no match. *)
Definition some_pattern_unmatched (p : Path) (rawtext : string) : Prop :=
  findall reference_id_re (name p) = [] \/
  findall job_number_re rawtext = [] \/
  findall distribution_order_number_re rawtext = [] \/
  findall airwaybill_re rawtext = [].

(** What one iteration of the loop does to the local variables, for a
    file [p] whose text is [rawtext], and the disposition it amounts to. *)
Inductive iteration (self : Shipments.t) (p : Path) (rawtext : string)
          (l : Locals) : Locals -> Disposition -> Prop :=
| it_skipped :
    str_in (Shipments.process_criteria self) rawtext = false ->
    iteration self p rawtext l
      (mkLocals (df l) (total_count l + 1) (processed_count l)
                (skipped_count l + 1) (warnings_count l))
      Skipped
| it_more_than_1Detail :
    str_in (Shipments.process_criteria self) rawtext = true ->
    Shipments.warn_if_more_than_1Detail self = true ->
    str_in "1Details" rawtext = false ->
    iteration self p rawtext l
      (mkLocals (df l) (total_count l + 1) (processed_count l)
                (skipped_count l) (warnings_count l + 1))
      Warning
| it_unmatched :
    in_scope_and_simple self rawtext ->
    some_pattern_unmatched p rawtext ->
    iteration self p rawtext l
      (mkLocals (df l) (total_count l + 1) (processed_count l)
                (skipped_count l) (warnings_count l + 1))
      Warning
| it_processed a la b lb c lc d ld :
    in_scope_and_simple self rawtext ->
    findall reference_id_re (name p) = a :: la ->
    findall job_number_re rawtext = b :: lb ->
    findall distribution_order_number_re rawtext = c :: lc ->
    findall airwaybill_re rawtext = d :: ld ->
    iteration self p rawtext l
      (mkLocals (df l ++ [shipment_row self p a b c d])
                (total_count l + 1) (processed_count l + 1)
                (skipped_count l) (warnings_count l))
      Processed.

(** Where a row of the report comes from: a listed file in scope and
    simple, whose four first matches are the fields of the row. *)
Definition row_of_file (self : Shipments.t) (w : World) (row : Row.t)
  : Prop :=
  exists p rawtext a la b lb c lc d ld,
    In p (glob_txt w (Shipments.source self)) /\
    read_text w p = Ok rawtext /\
    in_scope_and_simple self rawtext /\
    findall reference_id_re (name p) = a :: la /\
    findall job_number_re rawtext = b :: lb /\
    findall distribution_order_number_re rawtext = c :: lc /\
    findall airwaybill_re rawtext = d :: ld /\
    row = shipment_row self p a b c d.

(** Two rows with the same distribution order number and the same
    airwaybill. *)
Definition same_pair (x r : Row.t) : Prop :=
  Row.distribution_order_number x = Row.distribution_order_number r /\
  Row.airwaybill x = Row.airwaybill r.

(** [r] is the first row of [d], in arrival order, with its pair
    (distribution order number, airwaybill). *)
Definition first_occurrence (d : DataFrame) (r : Row.t) : Prop :=
  exists pre post,
    d = pre ++ r :: post /\
    forall x, In x pre -> ~ same_pair x r.

(** [InScope] and [IsSimple] of the classifier, on literal substrings. *)
Definition InScope (self : Shipments.t) (rawtext : string) : Prop :=
  Substring (Shipments.process_criteria self) rawtext.

Definition IsSimple (self : Shipments.t) (rawtext : string) : Prop :=
  Shipments.warn_if_more_than_1Detail self = false \/
  Substring "1Details" rawtext.

(** The data frame [extract_information] returns, when it returns. *)
Definition report (self : Shipments.t) (w : World) : option DataFrame :=
  match fst (Shipments.extract_information self w) with
  | Ok (_, d) => Some d
  | Raise _ => None
  end.

(** Two [Shipment] objects built for the same file name and text. *)
Definition same_input (s1 s2 : Shipment.t) : Prop :=
  Shipment.filename s1 = Shipment.filename s2 /\
  Shipment.rawtext s1 = Shipment.rawtext s2 /\
  Shipment.reference_id_pattern s1 = Shipment.reference_id_pattern s2 /\
  Shipment.job_number_pattern s1 = Shipment.job_number_pattern s2 /\
  Shipment.distribution_order_number_p s1
  = Shipment.distribution_order_number_p s2 /\
  Shipment.airwaybill_pattern s1 = Shipment.airwaybill_pattern s2.

(** The attribute [field], once assigned, holds the leftmost match of [r]
    in [text]: the first element of [findall], also when there are more. *)
Definition first_match (r : regex) (text : string) (field : option string)
  : Prop :=
  forall v, field = Some v ->
    leftmost_match r text v /\
    forall m1 m2 ms, findall r text = m1 :: m2 :: ms -> v = m1.

(** ** Example inputs *)

(** The attributes with the defaults of the source, for a
    [settings.json] that sets no key. *)
Definition default_settings : Shipments.t :=
  Shipments.mk ["/"; "data"] ["source"] ["processed"] ["skipped"]
               ["warning"] "extracted_data.csv" ["UNC_processed"]
               "ZRH" false false true true None None.

(** The same with every move enabled. *)
Definition moving_settings : Shipments.t :=
  Shipments.mk ["/"; "data"] ["source"] ["processed"] ["skipped"]
               ["warning"] "extracted_data.csv" ["UNC_processed"]
               "ZRH" true true true true None None.

(** The defaults with [warn_if_more_than_1Detail] switched off. *)
Definition lenient_settings : Shipments.t :=
  Shipments.mk ["/"; "data"] ["source"] ["processed"] ["skipped"]
               ["warning"] "extracted_data.csv" ["UNC_processed"]
               "ZRH" false false false true None None.

Fixpoint path_eqb (p q : Path) : bool :=
  match p, q with
  | [], [] => true
  | a :: p', b :: q' => String.eqb a b && path_eqb p' q'
  | _, _ => false
  end.

(** A world with the given files under [source], nothing logged and
    nothing renamed yet; every CSV file can be written. *)
Definition world_of (files : list (Path * Result string))
           (outcome : Path -> Path -> option Exception) : World :=
  mkWorld (fun _ => map fst files)
          (fun p =>
             match find (fun f => path_eqb (fst f) p) files with
             | Some f => snd f
             | None => Raise FileNotFoundError
             end)
          outcome (fun _ => None) [] [] [].

Definition log_00123 : Path := ["source"; "log_00123.txt"].
Definition log_00124 : Path := ["source"; "log_00124.txt"].
Definition log_00125 : Path := ["source"; "log_00125.txt"].
Definition log_00126 : Path := ["source"; "sub"; "log_00126.txt"].
Definition log_00127 : Path := ["source"; "log_00127_2.txt"].

(** Every pattern matches once. *)
Definition text_00123 : string :=
  "ZRH 1Details Shipment: JOB456-DO789 , AWB001,".
(** No scope marker. *)
Definition text_00124 : string :=
  "GVA 1Details Shipment: JOB457-DO790 , AWB002,".
(** No single-detail marker. *)
Definition text_00125 : string :=
  "ZRH 2Details Shipment: JOB458-DO791 , AWB003,".
(** No distribution order number. *)
Definition text_00126 : string :=
  "ZRH 1Details Shipment: JOB459 , AWB004,".
(** Every pattern matches twice. *)
Definition text_00127 : string :=
  "ZRH 1Details Shipment: JOB460-DO792 , AWB005, Shipment: JOB461-DO793 , AWB006,".

Definition example_outcome (src dst : Path) : option Exception :=
  if path_eqb src log_00125 then Some PermissionError
  else if path_eqb src log_00126 then Some (OtherError "OSError")
  else None.

Definition example_world : World :=
  world_of [(log_00123, Ok text_00123); (log_00124, Ok text_00124);
            (log_00125, Ok text_00125); (log_00126, Ok text_00126);
            (log_00127, Ok text_00127)]
           example_outcome.

(** The local variables after the loop over [example_world], with every
    move enabled. *)
Definition example_locals : Locals :=
  mkLocals [Row.mk "00123" "JOB456" "DO789" "AWB001" log_00123
                   ["UNC_processed"; "log_00123.txt"];
            Row.mk "00127" "JOB460" "DO792" "AWB005" log_00127
                   ["UNC_processed"; "log_00127_2.txt"]]
           5 2 1 2.

(** The first file listed cannot be decoded. *)
Definition unreadable_world : World :=
  world_of [(log_00124, Raise (OtherError "UnicodeDecodeError"));
            (log_00123, Ok text_00123)]
           (fun _ _ => None).

(** Two rows with the same distribution order number and airwaybill. *)
Definition row_first : Row.t :=
  Row.mk "00123" "JOB456" "DO789" "AWB001" log_00123
         ["UNC_processed"; "log_00123.txt"].
Definition row_again : Row.t :=
  Row.mk "00999" "JOB456" "DO789" "AWB001" log_00127
         ["UNC_processed"; "log_00127_2.txt"].
(** The distribution order number of [row_first] with another
    airwaybill, and a row that shares neither. *)
Definition row_half : Row.t :=
  Row.mk "00555" "JOB456" "DO789" "AWB009" log_00125
         ["UNC_processed"; "log_00125.txt"].
Definition row_other : Row.t :=
  Row.mk "00124" "JOB457" "DO790" "AWB002" log_00124
         ["UNC_processed"; "log_00124.txt"].

(** The pieces of the example in another order: the airwaybill first,
    the markers last. *)
Definition text_reordered : string :=
  ", AWB001, Shipment: JOB456-DO789; ZRH; 1Details".

Definition reordered_world : World :=
  world_of [(log_00123, Ok text_reordered)] (fun _ _ => None).

(** The text of the example with commas between its pieces. *)
Definition text_commas : string :=
  "ZRH, 1Details, Shipment: JOB456-DO789, AWB001,".

Definition commas_world : World :=
  world_of [(log_00123, Ok text_commas)] (fun _ _ => None).

(** A world in which no CSV file can be written: the directory of the
    output file is missing. *)
Definition set_to_csv_outcome (w : World)
           (o : Path -> option Exception) : World :=
  mkWorld (glob_txt w) (read_text w) (rename_outcome w) o
          (log w) (rename_calls w) (csv_files w).

Definition no_csv_world : World :=
  set_to_csv_outcome example_world (fun _ => Some FileNotFoundError).

Unset Implicit Arguments.

(** ** The pipeline as functions of the listing

    What the loop of [extract_information] does to a file depends on the
    file alone.  The definitions below say, file by file, what the loop is
    expected to do; the theorems prove the loop does it. *)

(** Every pattern of [Shipment] has a match. *)
Definition all_patterns_match (p : Path) (rawtext : string) : bool :=
  match findall reference_id_re (name p),
        findall job_number_re rawtext,
        findall distribution_order_number_re rawtext,
        findall airwaybill_re rawtext with
  | _ :: _, _ :: _, _ :: _, _ :: _ => true
  | _, _, _, _ => false
  end.

(** The disposition of a file from its path and text. *)
Definition triage (self : Shipments.t) (p : Path) (rawtext : string)
  : Disposition :=
  if str_in (Shipments.process_criteria self) rawtext then
    if Shipments.warn_if_more_than_1Detail self
       && negb (str_in "1Details" rawtext)
    then Warning
    else if all_patterns_match p rawtext then Processed else Warning
  else Skipped.

(** The rows a file contributes to the data frame. *)
Definition rows_for (self : Shipments.t) (p : Path) (rawtext : string)
  : list Row.t :=
  match triage self p rawtext with
  | Processed =>
      [shipment_row self p
         (hd "" (findall reference_id_re (name p)))
         (hd "" (findall job_number_re rawtext))
         (hd "" (findall distribution_order_number_re rawtext))
         (hd "" (findall airwaybill_re rawtext))]
  | _ => []
  end.

(** The calls to [os.rename] a file gives rise to. *)
Definition calls_for (self : Shipments.t) (p : Path) (rawtext : string)
  : list (Path * Path) :=
  match triage self p rawtext with
  | Processed =>
      if Shipments.move_processed self
      then [(p, joinpath (Shipments.processed self) (name p))] else []
  | Skipped =>
      if Shipments.move_skipped self
      then [(p, joinpath (Shipments.skipped self) (name p))] else []
  | Warning =>
      if Shipments.move_undhandled_files_to_warning self
      then [(p, joinpath (Shipments.warning self) (name p))] else []
  end.

(** [f] over the files of a listing that can be read, in order. *)
Definition over_listing {A : Type} (read : Path -> Result string)
           (f : Path -> string -> list A) (files : list Path) : list A :=
  flat_map (fun p => match read p with
                     | Ok rawtext => f p rawtext
                     | Raise _ => []
                     end) files.

Definition disposition_eqb (a b : Disposition) : bool :=
  match a, b with
  | Processed, Processed | Skipped, Skipped | Warning, Warning => true
  | _, _ => false
  end.

(** The number of listed files with disposition [d]. *)
Definition count_disposition (self : Shipments.t)
           (read : Path -> Result string) (d : Disposition)
           (files : list Path) : nat :=
  length (over_listing read
            (fun p rawtext =>
               if disposition_eqb (triage self p rawtext) d
               then [p] else [])
            files).

(** The number of records of a level in a log. *)
Definition count_level (lvl : Level) (records : list LogRecord) : nat :=
  length (filter (fun r => match levelname r, lvl with
                           | DEBUG, DEBUG | INFO, INFO
                           | WARNING, WARNING | ERROR, ERROR => true
                           | _, _ => false
                           end) records).

(** [u] keeps some of the rows of [d], in the order of [d]. *)
Inductive subsequence {A : Type} : list A -> list A -> Prop :=
| sub_nil : subsequence [] []
| sub_keep x u d : subsequence u d -> subsequence (x :: u) (x :: d)
| sub_drop x u d : subsequence u d -> subsequence u (x :: d).

(** The pattern assigns its group whenever it matches. *)
Fixpoint sets_group (r : regex) : bool :=
  match r with
  | Group _ => true
  | Cat r1 r2 => sets_group r1 || sets_group r2
  | _ => false
  end.

(** [g] is a text the group of [r] can hold when [r] matches [t]. *)
Fixpoint captures (r : regex) (t g : string) : Prop :=
  match r with
  | Group r' => in_lang r' t /\ g = t
  | Cat r1 r2 =>
      exists t1 t2 : string,
        t = (t1 ++ t2)%string /\
        ((captures r1 t1 g /\ in_lang r2 t2) \/
         (in_lang r1 t1 /\ captures r2 t2 g))
  | _ => False
  end.

(** [findall] found a match. *)
Definition found (l : list string) : bool :=
  match l with
  | [] => false
  | _ :: _ => true
  end.

(** What an attribute holds after [extract]: the first element its
    pattern finds when every earlier pattern ([prior]) and its own had a
    match, and what it held before otherwise. *)
Definition assigned (prior : bool) (l : list string)
           (before : option string) : option string :=
  if prior then
    match l with
    | v :: _ => Some v
    | [] => before
    end
  else before.

(** A non-empty run of characters of the class [p]. *)
Definition run_of (p : ascii -> bool) (t : string) : Prop :=
  t <> "" /\ all_chars p t = true.

(** [run], from a [setup] that is already built and without the banner,
    the sleep and the exit: the extraction, then the export. *)
Definition run_pipeline (setup : Shipments.t) (now : string)
  : M World Shipments.t :=
  r <- Shipments.extract_information setup ;;
  Shipments.export_dataframe (fst r) now.

(** ** [settings.json] and the construction of [Shipments]

    The settings are modelled for files whose values have the types the
    code expects (booleans for toggles, strings for names and paths,
    dictionaries for the three sections); any key may be missing.  What
    [pathlib], [json] and the file system answer is part of the
    [Machine]. *)

Module Json.
Record log_config_t : Type := mk_log_config {
  DEBUG : option bool;
  LOGGING : option bool;
  log_file : option string
}.

Record filepaths_t : Type := mk_filepaths {
  parent : option string;
  source : option string;
  processed : option string;
  skipped : option string;
  warning : option string;
  outputfile : option string;
  UNC_processed : option string
}.

Record commands_t : Type := mk_commands {
  process_criteria : option string;
  move_processed : option bool;
  move_skipped : option bool;
  warn_if_more_than_1Detail : option bool;
  move_undhandled_files_to_warning : option bool
}.

Record t : Type := mk {
  log_config : option log_config_t;
  filepaths : option filepaths_t;
  commands : option commands_t
}.

(** The empty dictionary [{}], at each of the three sections. *)
Definition no_log_config : log_config_t := mk_log_config None None None.
Definition no_filepaths : filepaths_t :=
  mk_filepaths None None None None None None None.
Definition no_commands : commands_t :=
  mk_commands None None None None None.
End Json.

(** [d.get(key, default)] *)
Definition dict_get {A : Type} (v : option A) (default : A) : A :=
  match v with
  | Some x => x
  | None => default
  end.

Record Machine : Type := mkMachine {
  (* the platform and the file system: what they answer *)
  load_json : string -> Result Json.t;     (* [open] and [json.load] *)
  parse_path : string -> Path;             (* [Path(s)] *)
  absolute : Path -> Path;                 (* [p.absolute()] *)
  str_of_filepaths : Json.filepaths_t -> string;   (* [str(d)] *)
  is_dir : Path -> bool;                   (* [p.is_dir()] *)
  mkdir_outcome : Path -> option Exception;
                                           (* [None]: [os.mkdir] succeeds *)
  open_log_outcome : string -> option Exception;
                                           (* opening the log file *)
  (* the state *)
  existing : Path -> bool;                 (* [os.path.exists], on paths
                                              as the program spells them *)
  basic_config : option (Level * string);  (* level and file of the root
                                              logger, once configured *)
  world : World
}.

Definition set_existing (m : Machine) (e : Path -> bool) : Machine :=
  mkMachine (load_json m) (parse_path m) (absolute m) (str_of_filepaths m)
            (is_dir m) (mkdir_outcome m) (open_log_outcome m)
            e (basic_config m) (world m).

Definition set_basic_config (m : Machine) (c : option (Level * string))
  : Machine :=
  mkMachine (load_json m) (parse_path m) (absolute m) (str_of_filepaths m)
            (is_dir m) (mkdir_outcome m) (open_log_outcome m)
            (existing m) c (world m).

Definition set_world (m : Machine) (w : World) : Machine :=
  mkMachine (load_json m) (parse_path m) (absolute m) (str_of_filepaths m)
            (is_dir m) (mkdir_outcome m) (open_log_outcome m)
            (existing m) (basic_config m) w.

(** Code of the pipeline, run on the machine. *)
Definition in_world {A : Type} (c : M World A) : M Machine A :=
  fun m => let (r, w') := c (world m) in (r, set_world m w').

(** [logging.basicConfig(level=..., filename=..., filemode='a', ...)]:
    nothing when the root logger is configured already; otherwise the
    log file is opened for appending, which creates it when it does not
    exist, and the level is set. *)
Definition basicConfig (level : Level) (filename : string)
  : M Machine unit :=
  fun m =>
    match basic_config m with
    | Some _ => (Ok tt, m)
    | None =>
        match open_log_outcome m filename with
        | Some e => (Raise e, m)
        | None =>
            let p := parse_path m filename in
            (Ok tt,
             set_basic_config
               (set_existing m (fun q => path_eqb q p || existing m q))
               (Some (level, filename)))
        end
    end.

Definition logging_DEBUG : Level := DEBUG.
Definition logging_INFO : Level := INFO.
Definition logging_WARNING : Level := WARNING.

(** [os.path.exists(p)] *)
Definition os_path_exists (p : Path) : M Machine bool :=
  fun m => (Ok (existing m p), m).

(** [os.mkdir(p)] *)
Definition os_mkdir (p : Path) : M Machine unit :=
  fun m =>
    match mkdir_outcome m p with
    | Some e => (Raise e, m)
    | None =>
        (Ok tt, set_existing m (fun q => path_eqb q p || existing m q))
    end.

(** The numeric order of the levels: a record is handled when its level
    is not below the level of the logger. *)
Definition levelno (l : Level) : nat :=
  match l with
  | DEBUG => 10
  | INFO => 20
  | WARNING => 30
  | ERROR => 40
  end.

Definition is_enabled_for (logger record : Level) : bool :=
  Nat.leb (levelno logger) (levelno record).

Module Settings.
(** [Settings._format_logging] *)
Definition _format_logging (LOGGING DEBUG : bool) (filename : string)
  : M Machine unit :=
  if LOGGING && DEBUG then basicConfig logging_DEBUG filename
  else if LOGGING then basicConfig logging_INFO filename
  else basicConfig logging_WARNING filename.

(** [Settings.get_settings] *)
Definition get_settings (settingspath : string) : M Machine Json.t :=
  try_except
    (m <- get ;; lift (load_json m settingspath))
    (fun _ =>
       (* activate logging and debug to log the error *)
       _format_logging true true "Error.txt" ;;
       in_world (logging_error "{settingspath} has not been found"
                               [AStr settingspath]) ;;
       raise (OtherError "Exception")).

(** [Settings._check_parent_dir_is_dir] *)
Definition _check_parent_dir_is_dir (parent : Path) : M Machine unit :=
  m <- get ;;
  if negb (is_dir m parent) then
    in_world (logging_error "Parent is not a directory or not defined" []) ;;
    raise (OtherError "Exception")
  else ret tt.

(** [Settings._safe_create_dir] *)
Definition _safe_create_dir (directory : Path) : M Machine Path :=
  present <- os_path_exists directory ;;
  (if negb present then
     os_mkdir directory ;;
     in_world (logging_warning "New Directory created \n{}"
                               [APath directory])
   else ret tt) ;;
  ret directory.

(** The attributes [Settings.__init__] assigns. *)
Record t : Type := mk {
  settings : Json.t;
  log_config : Json.log_config_t;
  DEBUG : bool;
  LOGGING : bool;
  log_file : string;
  filepaths : Json.filepaths_t;
  parent : Path;
  source : Path;
  processed : Path;
  skipped : Path;
  warning : Path;
  outputfilename : string;
  UNC_processed : Path
}.

(** [Settings.__init__] *)
Definition init (settingsfile : string) : M Machine t :=
  settings <- get_settings settingsfile ;;
  let log_config := dict_get (Json.log_config settings) Json.no_log_config in
  let DEBUG := dict_get (Json.DEBUG log_config) true in
  let LOGGING := dict_get (Json.LOGGING log_config) true in
  let log_file := dict_get (Json.log_file log_config) "Log.txt" in
  _format_logging LOGGING DEBUG log_file ;;
  let filepaths := dict_get (Json.filepaths settings) Json.no_filepaths in
  m <- get ;;
  let parent :=
    absolute m (parse_path m (dict_get (Json.parent filepaths) ".")) in
  _check_parent_dir_is_dir parent ;;
  let source := parse_path m (dict_get (Json.source filepaths) "source") in
  _safe_create_dir source ;;
  let processed :=
    parse_path m (dict_get (Json.processed filepaths) "processed") in
  _safe_create_dir processed ;;
  let skipped :=
    parse_path m (dict_get (Json.skipped filepaths) "skipped") in
  _safe_create_dir skipped ;;
  let warning :=
    parse_path m (dict_get (Json.warning filepaths) "warning") in
  _safe_create_dir warning ;;
  let outputfilename :=
    dict_get (Json.outputfile filepaths) "extracted_data.csv" in
  let UNC_processed :=
    parse_path m
      (dict_get (Json.UNC_processed filepaths) "UNC_processed") in
  in_world
    (logging_info "Script started, Settings ready" [] ;;
     logging_debug "Filepaths:\t{str(self.filepaths)}"
                   [AStr (str_of_filepaths m filepaths)] ;;
     logging_debug "Parent:\t{str(self.parent)}" [APath parent] ;;
     logging_debug "Source:\t{str(self.source)}" [APath source] ;;
     logging_debug "Processed:\t{str(self.processed)}" [APath processed] ;;
     logging_debug "Skipped:\t{str(self.skipped)}" [APath skipped] ;;
     logging_debug "Warning:\t{str(self.warning)}" [APath warning] ;;
     logging_debug "Output Filename:\t{str(self.outputfilename)}"
                   [AStr outputfilename]) ;;
  ret (mk settings log_config DEBUG LOGGING log_file filepaths parent
          source processed skipped warning outputfilename UNC_processed).
End Settings.

(** [Shipments.__init__]: the attributes of [Settings] and the commands;
    [df] and [unique_df] are not assigned yet. *)
Definition Shipments_init (settingsfile : string)
  : M Machine Shipments.t :=
  s <- Settings.init settingsfile ;;
  let commands :=
    dict_get (Json.commands (Settings.settings s)) Json.no_commands in
  ret (Shipments.mk
         (Settings.parent s) (Settings.source s) (Settings.processed s)
         (Settings.skipped s) (Settings.warning s)
         (Settings.outputfilename s) (Settings.UNC_processed s)
         (dict_get (Json.process_criteria commands) "ZRH")
         (dict_get (Json.move_processed commands) false)
         (dict_get (Json.move_skipped commands) false)
         (dict_get (Json.warn_if_more_than_1Detail commands) true)
         (dict_get (Json.move_undhandled_files_to_warning commands) true)
         None None).

(** [run], up to the export; the banner, the sleep and the exit are
    left out. *)
Definition run (now : string) : M Machine Shipments.t :=
  setup <- Shipments_init "settings.json" ;;
  in_world (run_pipeline setup now).

(** The four directories [Settings.__init__] creates when missing. *)
Definition work_dirs (s : Settings.t) : list Path :=
  [Settings.source s; Settings.processed s; Settings.skipped s;
   Settings.warning s].

(** A new process on the same machine: the logger is not configured. *)
Definition restart (m : Machine) : Machine := set_basic_config m None.

(** A machine for the examples: POSIX paths below [/data], the given
    settings in [settings.json], nothing on the disk but [source]; every
    file and directory can be created. *)
Fixpoint split_slash (acc s : string) : list string :=
  match s with
  | EmptyString => match acc with EmptyString => [] | _ => [acc] end
  | String c s' =>
      if Ascii.eqb c "/"%char
      then match acc with
           | EmptyString => split_slash "" s'
           | _ => acc :: split_slash "" s'
           end
      else split_slash (acc ++ String c "") s'
  end.

Definition example_machine (settings : Result Json.t) (parent_ok : bool)
  : Machine :=
  mkMachine
    (fun f => if String.eqb f "settings.json" then settings
              else Raise FileNotFoundError)
    (fun s => filter (fun c => negb (String.eqb c ".")) (split_slash "" s))
    (fun p => "/" :: "data" :: p)
    (fun _ => "{...}")
    (fun _ => parent_ok)
    (fun _ => None)
    (fun _ => None)
    (fun p => path_eqb p ["source"])
    None
    example_world.

(** The same machine on a disk where no file can be opened for
    writing. *)
Definition read_only_machine (settings : Result Json.t) : Machine :=
  mkMachine
    (load_json (example_machine settings true))
    (parse_path (example_machine settings true))
    (absolute (example_machine settings true))
    (str_of_filepaths (example_machine settings true))
    (is_dir (example_machine settings true))
    (fun _ => Some PermissionError)
    (fun _ => Some PermissionError)
    (existing (example_machine settings true))
    None
    no_csv_world.

(** The example machine on a disk where the output file cannot be
    written. *)
Definition no_csv_machine (settings : Result Json.t) : Machine :=
  set_world (example_machine settings true) no_csv_world.

(** A [settings.json] that moves processed files and names the output. *)
Definition example_json : Json.t :=
  Json.mk (Some (Json.mk_log_config (Some false) None None))
          (Some (Json.mk_filepaths None None None None None
                                   (Some "report.csv") None))
          (Some (Json.mk_commands None (Some true) None None None)).

(** The platform answers the same. *)
Definition same_platform (m m' : Machine) : Prop :=
  load_json m' = load_json m /\
  parse_path m' = parse_path m /\
  absolute m' = absolute m /\
  str_of_filepaths m' = str_of_filepaths m /\
  is_dir m' = is_dir m /\
  mkdir_outcome m' = mkdir_outcome m /\
  open_log_outcome m' = open_log_outcome m.

(** [m'] is [m] with the paths [created] added to the disk and the
    records [new] logged; no file was renamed and no CSV file written. *)
Definition setup_step (m m' : Machine) (created : list Path)
           (new : list LogRecord) : Prop :=
  same_platform m m' /\
  (forall q, existing m' q = existsb (path_eqb q) created || existing m q) /\
  extends (world m) (world m') [] new.

(** The level [_format_logging] asks for. *)
Definition level_for (LOGGING DEBUG : bool) : Level :=
  if LOGGING && DEBUG then logging_DEBUG
  else if LOGGING then logging_INFO
  else logging_WARNING.

(** The file [basicConfig] opens, and creates when it is missing: the
    log file, unless the root logger is configured already. *)
Definition opened_log (m : Machine) (filename : string) : list Path :=
  match basic_config m with
  | None => [parse_path m filename]
  | Some _ => []
  end.

(** The attributes of [Settings] as a function of the settings loaded. *)
Definition attrs (m : Machine) (settings : Json.t) : Settings.t :=
  let log_config := dict_get (Json.log_config settings) Json.no_log_config in
  let filepaths := dict_get (Json.filepaths settings) Json.no_filepaths in
  Settings.mk settings log_config
    (dict_get (Json.DEBUG log_config) true)
    (dict_get (Json.LOGGING log_config) true)
    (dict_get (Json.log_file log_config) "Log.txt")
    filepaths
    (absolute m (parse_path m (dict_get (Json.parent filepaths) ".")))
    (parse_path m (dict_get (Json.source filepaths) "source"))
    (parse_path m (dict_get (Json.processed filepaths) "processed"))
    (parse_path m (dict_get (Json.skipped filepaths) "skipped"))
    (parse_path m (dict_get (Json.warning filepaths) "warning"))
    (dict_get (Json.outputfile filepaths) "extracted_data.csv")
    (parse_path m (dict_get (Json.UNC_processed filepaths) "UNC_processed")).

(** A [setup_step] that leaves the logger alone, logs one warning per
    directory created and no error, and creates only directories that
    were missing. *)
Definition creation (m m' : Machine) (created : list Path)
           (new : list LogRecord) : Prop :=
  setup_step m m' created new /\
  basic_config m' = basic_config m /\
  count_level WARNING new = length created /\
  count_level ERROR new = 0 /\
  forall d, In d created ->
            existing m d = false /\ mkdir_outcome m d = None.

(** The defaults with every move toggle off. *)
Definition quiet_settings : Shipments.t :=
  Shipments.mk ["/"; "data"] ["source"] ["processed"] ["skipped"]
               ["warning"] "extracted_data.csv" ["UNC_processed"]
               "ZRH" false false true false None None.

(** The defaults with an empty [process_criteria]. *)
Definition unfiltered_settings : Shipments.t :=
  Shipments.mk ["/"; "data"] ["source"] ["processed"] ["skipped"]
               ["warning"] "extracted_data.csv" ["UNC_processed"]
               "" false false true true None None.

(** The second file listed cannot be opened. *)
Definition late_fault_world : World :=
  world_of [(log_00123, Ok text_00123);
            (log_00124, Raise PermissionError);
            (log_00127, Ok text_00127)]
           (fun _ _ => None).

(** * Properties *)

(** ** Strings *)

Lemma str_in_eq (sub s : string) :
  str_in sub s =
  if prefix sub s then true
  else match s with
       | EmptyString => false
       | String _ s' => str_in sub s'
       end.
Proof. destruct s; reflexivity. Qed.

Lemma prefix_append (sub s : string) :
  prefix sub s = true <-> exists post : string, s = (sub ++ post)%string.
Proof.
  revert s; induction sub as [|a sub IH]; intros s; simpl.
  - split; [intros _; exists s; reflexivity | intros _; destruct s; reflexivity].
  - destruct s as [|b s].
    + split; [discriminate | intros [post H]; discriminate].
    + simpl. destruct (ascii_dec a b) as [->|Hne].
      * rewrite IH. split; intros [post H]; exists post.
        -- now rewrite H.
        -- now inversion H.
      * split; [discriminate|].
        intros [post H]. inversion H. congruence.
Qed.

(** [str_in] decides the literal-substring relation. *)
Lemma str_in_Substring (sub s : string) :
  str_in sub s = true <-> Substring sub s.
Proof.
  split.
  - induction s as [|c s IH]; rewrite str_in_eq;
      destruct (prefix sub _) eqn:Hp; intros H.
    + apply prefix_append in Hp as [post Hp]. now exists "", post.
    + discriminate.
    + apply prefix_append in Hp as [post Hp]. now exists "", post.
    + destruct (IH H) as (pre & post & ->). now exists (String c pre), post.
  - intros (pre & post & ->).
    induction pre as [|c pre IH]; rewrite str_in_eq.
    + replace (prefix sub ("" ++ sub ++ post)) with true; [reflexivity|].
      symmetry. apply prefix_append. now exists post.
    + destruct (prefix sub _); [reflexivity | exact IH].
Qed.

Lemma str_in_false (sub s : string) :
  str_in sub s = false <-> ~ Substring sub s.
Proof.
  rewrite <- str_in_Substring. destruct (str_in sub s); split; intros H;
    try reflexivity; try discriminate; try congruence.
Qed.

(** ** [findall] and the leftmost match *)

Lemma findall_cons_leftmost (r : regex) (s v : string) (vs : list string) :
  findall r s = v :: vs -> leftmost_match r s v.
Proof.
  unfold findall. revert v vs.
  induction s as [|c s IH]; intros v vs H; simpl in H.
  - destruct (match_at r "") as [m|] eqn:Hm; [|discriminate].
    inversion H; subst. exists 0, m. simpl.
    repeat split; auto; intros; lia.
  - destruct (match_at r (String c s)) as [m|] eqn:Hm.
    + inversion H; subst. exists 0, m. simpl.
      repeat split; auto; intros; lia.
    + destruct (IH _ _ H) as (n & m & Hn & Hmatch & Hrep & Hleft).
      exists (S n), m. simpl. repeat split; auto; try lia.
      intros [|j] Hj; simpl; [exact Hm | apply Hleft; lia].
Qed.

Lemma leftmost_findall_cons (r : regex) (s v : string) :
  leftmost_match r s v -> exists vs, findall r s = v :: vs.
Proof.
  unfold findall. intros (n & m & Hn & Hmatch & Hrep & Hleft).
  revert s Hn Hmatch Hleft.
  induction n as [|n IH]; intros s Hn Hmatch Hleft.
  - simpl in Hmatch. destruct s; simpl; rewrite Hmatch, Hrep; eauto.
  - destruct s as [|c s]; simpl in Hn; [lia|].
    pose proof (Hleft 0 (Nat.lt_0_succ n)) as H0. simpl in H0.
    simpl. rewrite H0.
    apply IH; [lia | exact Hmatch |].
    intros j Hj. apply (Hleft (S j)). lia.
Qed.

(** The leftmost match is unique. *)
Lemma leftmost_match_unique (r : regex) (s v v' : string) :
  leftmost_match r s v -> leftmost_match r s v' -> v = v'.
Proof.
  intros H H'.
  apply leftmost_findall_cons in H as [vs H].
  apply leftmost_findall_cons in H' as [vs' H'].
  congruence.
Qed.


(** ** The four patterns on small inputs *)

Example findall_reference_id :
  findall reference_id_re "log_00123_45.txt" = ["00123"; "45"].
Proof. reflexivity. Qed.

Example findall_job_number :
  findall job_number_re "Shipment: JOB456-DO789 Shipment:JOB1 Shipment:  X_1"
  = ["JOB456"; "X_1"].
Proof. reflexivity. Qed.

Example findall_distribution_order_number :
  findall distribution_order_number_re
          "Shipment: JOB456-DO789 Shipment: JOB457 Shipment: a-b-c"
  = ["DO789"; "b"].
Proof. reflexivity. Qed.

(** A match consumes its closing comma: [B2] is not reported. *)
Example findall_airwaybill :
  findall airwaybill_re ", AWB001, B2, C3,, D4," = ["AWB001"; "C3"; "D4"].
Proof. reflexivity. Qed.

(** A greedy repetition gives characters back when what follows needs
    them. *)
Example plus_backtracks :
  match_at (Plus py_word @@ Lit "a") "bbaaac"
  = Some (mkMatch "bbaaa" None "c").
Proof. reflexivity. Qed.

(** The fields are first matches, so what precedes a piece of the text
    decides the field: with commas around ["1Details"] the first
    comma-delimited token is not the airwaybill number. *)
Remark airwaybill_is_first_comma_token :
  findall airwaybill_re "ZRH, 1Details, Shipment: JOB456-DO789, AWB001,"
  = ["1Details"; "AWB001"].
Proof. reflexivity. Qed.

(** ** The matcher and the texts of a pattern *)

Lemma append_assoc (a b c : string) :
  ((a ++ b) ++ c)%string = (a ++ b ++ c)%string.
Proof. induction a as [|x a IH]; cbn; [reflexivity | now rewrite IH]. Qed.

Lemma strip_prefix_spec (l s s' : string) :
  strip_prefix l s = Some s' <-> s = (l ++ s')%string.
Proof.
  revert s; induction l as [|a l IH]; intros s; cbn.
  - split; [intros H; now inversion H | now intros ->].
  - destruct s as [|b s]; [split; discriminate|].
    destruct (Ascii.eqb_spec a b) as [->|Hne].
    + rewrite IH. split; [now intros -> | intros H; now inversion H].
    + split; [discriminate | intros H; inversion H; congruence].
Qed.

Section MatcherFacts.
Variable A : Type.

Lemma star_sound (p : ascii -> bool) (s : string) :
  forall (k : string -> string -> option A) (a : A),
    star p s k = Some a ->
    exists t s' : string,
      s = (t ++ s')%string /\ all_chars p t = true /\ k t s' = Some a.
Proof.
  induction s as [|c s IH]; intros k a H; cbn in H.
  - now exists "", "".
  - destruct (p c) eqn:Hp; [|now exists "", (String c s)].
    destruct (star p s (fun t r => k (String c t) r)) as [a'|] eqn:E.
    + inversion H; subst a'.
      destruct (IH _ _ E) as (t & s' & -> & Ht & Hk).
      exists (String c t), s'. cbn. now rewrite Hp, Ht.
    + now exists "", (String c s).
Qed.


(** What the matcher hands to its continuation is a text of the
    pattern, cut from the head of the input. *)
Lemma rmatch_sound (r : regex) :
  forall (s : string) (g : option string) (k : cont A) (a : A),
    rmatch r s g k = Some a ->
    exists (t s' : string) (g' : option string),
      s = (t ++ s')%string /\ in_lang r t /\ k t s' g' = Some a.
Proof.
  induction r as [l|p|p|r1 IH1 r2 IH2|r IH]; intros s g k a H; cbn in H.
  - destruct (strip_prefix l s) as [s'|] eqn:E; [|discriminate].
    apply strip_prefix_spec in E. now exists l, s', g.
  - destruct s as [|c s]; [discriminate|].
    destruct (p c) eqn:Hp; [|discriminate].
    exists (String c ""), s, g. cbn. eauto.
  - destruct s as [|c s]; [discriminate|].
    destruct (p c) eqn:Hp; [|discriminate].
    apply star_sound in H as (t & s' & -> & Ht & Hk).
    exists (String c t), s', g. cbn. rewrite Hp, Ht.
    repeat split; [discriminate | exact Hk].
  - apply IH1 in H as (t1 & s1 & g1 & -> & L1 & H).
    apply IH2 in H as (t2 & s2 & g2 & -> & L2 & H).
    exists (t1 ++ t2)%string, s2, g2. rewrite append_assoc.
    split; [reflexivity|]. split; [|exact H]. now exists t1, t2.
  - apply IH in H as (t & s' & g' & -> & L & H).
    now exists t, s', (Some t).
Qed.

End MatcherFacts.

(** A match is a text of the pattern at the head of the input. *)
Lemma match_at_sound (r : regex) (s : string) (m : Match) :
  match_at r s = Some m ->
  s = (group0 m ++ rest m)%string /\ in_lang r (group0 m).
Proof.
  intros H. apply rmatch_sound in H as (t & s' & g' & -> & L & H).
  inversion H; subst m. now split.
Qed.



Lemma drop_split (n : nat) (s : string) :
  n <= String.length s ->
  exists pre : string,
    s = (pre ++ drop n s)%string /\ String.length pre = n.
Proof.
  revert s; induction n as [|n IH]; intros s Hn.
  - now exists "".
  - destruct s as [|c s]; cbn in Hn; [lia|].
    destruct (IH s) as (pre & Hs & Hl); [lia|].
    exists (String c pre). cbn. now rewrite <- Hs, Hl.
Qed.



(** ** The helpers of the pipeline *)

Ltac unfold_monad :=
  unfold bind, ret, raise, get, put, lift, call, try_except, getattr,
    logging_debug, logging_info, logging_warning, logging_error, logging,
    open_read, os_rename, to_csv in *.

Lemma same_env_refl (w : World) : same_env w w.
Proof. repeat split. Qed.

Lemma same_env_trans (w1 w2 w3 : World) :
  same_env w1 w2 -> same_env w2 w3 -> same_env w1 w3.
Proof.
  intros (A1 & A2 & A3 & A4) (B1 & B2 & B3 & B4).
  repeat split; congruence.
Qed.

Lemma extends_refl (w : World) : extends w w [] [].
Proof.
  repeat split; now rewrite app_nil_r.
Qed.

Lemma extends_trans (w1 w2 w3 : World) c1 c2 n1 n2 :
  extends w1 w2 c1 n1 -> extends w2 w3 c2 n2 ->
  extends w1 w3 (c1 ++ c2) (n1 ++ n2).
Proof.
  intros (E1 & R1 & C1 & L1) (E2 & R2 & C2 & L2).
  split; [eapply same_env_trans; eassumption|].
  rewrite R2, R1, C2, C1, L2, L1, !app_assoc. auto.
Qed.

Lemma extends_log (w : World) (new : list LogRecord) :
  extends w (set_log w (log w ++ new)) [] new.
Proof.
  repeat split; simpl. now rewrite app_nil_r.
Qed.

(** [Shipment.extract] written out: the attributes are assigned in
    order, and the first pattern without a match raises [IndexError]. *)
Lemma extract_unfold (self : Shipment.t) :
  Shipment.extract self =
  match findall (Shipment.reference_id_pattern self)
                (Shipment.filename self) with
  | [] => (Raise IndexError, self)
  | a :: _ =>
    let s1 := Shipment.set_reference_id self a in
    match findall (Shipment.job_number_pattern self)
                  (Shipment.rawtext self) with
    | [] => (Raise IndexError, s1)
    | b :: _ =>
      let s2 := Shipment.set_job_number s1 b in
      match findall (Shipment.distribution_order_number_p self)
                    (Shipment.rawtext self) with
      | [] => (Raise IndexError, s2)
      | c :: _ =>
        let s3 := Shipment.set_distribution_order_number s2 c in
        match findall (Shipment.airwaybill_pattern self)
                      (Shipment.rawtext self) with
        | [] => (Raise IndexError, s3)
        | d :: _ => (Ok tt, Shipment.set_airwaybill s3 d)
        end
      end
    end
  end.
Proof.
  unfold Shipment.extract, Shipment.assign_first. unfold_monad.
  destruct self; cbn.
  repeat match goal with
         | |- context [findall ?r ?s] => destruct (findall r s); cbn
         end; reflexivity.
Qed.

(** [_move_file_safely] returns normally whatever [os.rename] does. *)
Lemma move_file_safely_returns (self : Shipments.t) (p d : Path)
      (w : World) :
  exists w',
    Shipments._move_file_safely self p d w = (Ok tt, w') /\
    extends w w' [(p, d)]
      (mkLog DEBUG "File is moved: {} -> {}" [APath p; APath d]
       :: match rename_outcome w p d with
          | Some PermissionError =>
              [mkLog ERROR "File in use. File could not be moved. File:{}"
                     [AStr (name p)]]
          | Some FileNotFoundError =>
              [mkLog ERROR "File was not found. {}" [AStr (name p)]]
          | _ => []
          end).
Proof.
  unfold Shipments._move_file_safely. unfold_monad. cbn.
  destruct (rename_outcome w p d) as [[| | | |cls]|]; cbn;
    eexists; (split; [reflexivity|]);
    repeat split; cbn; rewrite <- ?app_assoc; reflexivity.
Qed.

(** A move under a toggle: one call to [os.rename] when the toggle is on,
    none otherwise, and only records of [_move_file_safely] in the log. *)
Lemma guarded_move_returns (b : bool) (self : Shipments.t) (p d : Path)
      (w : World) :
  exists w' new,
    (if b then Shipments._move_file_safely self p d else ret tt) w
    = (Ok tt, w') /\
    extends w w' (if b then [(p, d)] else []) new /\
    Forall (fun r => logged_by_move_file_safely r = true) new.
Proof.
  destruct b.
  - destruct (move_file_safely_returns self p d w) as (w' & E & X).
    exists w'. eexists. split; [exact E|]. split; [exact X|].
    constructor; [reflexivity|].
    destruct (rename_outcome w p d) as [[| | | |cls]|];
      repeat constructor.
  - exists w, []. split; [reflexivity|]. split; [apply extends_refl|].
    constructor.
Qed.

Lemma file_could_not_be_handled_returns (self : Shipments.t) (p : Path)
      (w : World) :
  exists w' new,
    Shipments._file_could_not_be_handled self p w = (Ok tt, w') /\
    extends w w'
      (if Shipments.move_undhandled_files_to_warning self
       then [(p, joinpath (Shipments.warning self) (name p))] else [])
      new /\
    Forall (fun r => logged_by_move_file_safely r = true) new.
Proof.
  unfold Shipments._file_could_not_be_handled.
  apply guarded_move_returns.
Qed.

(** [_check_if_1Details]: the answer and the warning it logs. *)
Lemma check_if_1Details_unfold (self : Shipments.t) (p : Path)
      (rawtext : string) (w : World) :
  Shipments._check_if_1Details self p rawtext w =
  if Shipments.warn_if_more_than_1Detail self
     && negb (str_in "1Details" rawtext)
  then (Ok true,
        set_log w (log w ++
          [mkLog WARNING
             "{} contains more than 1 Detail!!!!\n Please add manually"
             [AStr (name p)]]))
  else (Ok false, w).
Proof.
  unfold Shipments._check_if_1Details. unfold_monad.
  destruct (Shipments.warn_if_more_than_1Detail self); cbn;
    [destruct (str_in "1Details" rawtext); reflexivity | reflexivity].
Qed.

Lemma extract_shipment_info_found (self : Shipments.t) (df0 : DataFrame)
      (p : Path) (rawtext : string) (w : World) a la b lb c lc d ld :
  findall reference_id_re (name p) = a :: la ->
  findall job_number_re rawtext = b :: lb ->
  findall distribution_order_number_re rawtext = c :: lc ->
  findall airwaybill_re rawtext = d :: ld ->
  Shipments.extract_shipment_info self df0 p rawtext w =
  (Ok (df0 ++ [shipment_row self p a b c d], true),
   set_log w (log w ++
     [mkLog DEBUG "extract_shipment_info_function - textfile:{textfile}"
            [APath p];
      mkLog DEBUG "extract_shipment_info_function - textfile:{rawtext}"
            [AStr rawtext];
      mkLog DEBUG "Shipment attributes:\t{}"
            [ARow (shipment_row self p a b c d)]])).
Proof.
  intros Ha Hb Hc Hd.
  unfold Shipments.extract_shipment_info.
  unfold bind at 1 2 3. unfold call, try_except.
  rewrite extract_unfold. cbn.
  rewrite Ha, Hb, Hc, Hd. cbn.
  unfold df_append, shipment_row. rewrite <- !app_assoc. reflexivity.
Qed.

Lemma extract_shipment_info_not_found (self : Shipments.t)
      (df0 : DataFrame) (p : Path) (rawtext : string) (w : World) :
  findall reference_id_re (name p) = [] \/
  findall job_number_re rawtext = [] \/
  findall distribution_order_number_re rawtext = [] \/
  findall airwaybill_re rawtext = [] ->
  Shipments.extract_shipment_info self df0 p rawtext w =
  (Ok (df0, false),
   set_log w (log w ++
     [mkLog DEBUG "extract_shipment_info_function - textfile:{textfile}"
            [APath p];
      mkLog DEBUG "extract_shipment_info_function - textfile:{rawtext}"
            [AStr rawtext];
      mkLog WARNING
            "{textfile} did not match the regular expression patterns!!"
            []])).
Proof.
  intros H.
  unfold Shipments.extract_shipment_info.
  unfold bind at 1 2 3. unfold call, try_except.
  rewrite extract_unfold. cbn.
  destruct (findall reference_id_re (name p));
    [|destruct (findall job_number_re rawtext);
      [|destruct (findall distribution_order_number_re rawtext);
        [|destruct (findall airwaybill_re rawtext)]]];
    cbn; rewrite <- ?app_assoc; try reflexivity.
  exfalso. destruct H as [H|[H|[H|H]]]; discriminate.
Qed.

(** ** One iteration of the loop *)

(** The file cannot be read: the exception leaves the iteration. *)
Lemma loop_body_unreadable (self : Shipments.t) (p : Path) (l : Locals)
      (w : World) (e : Exception) :
  read_text w p = Raise e ->
  Shipments.loop_body self p l w = (Raise e, w).
Proof.
  intros H. unfold Shipments.loop_body, bind at 1, open_read.
  now rewrite H.
Qed.

(** The scope marker is absent. *)
Lemma loop_body_skipped (self : Shipments.t) (p : Path) (l : Locals)
      (w : World) (rawtext : string) :
  read_text w p = Ok rawtext ->
  str_in (Shipments.process_criteria self) rawtext = false ->
  exists w' new,
    Shipments.loop_body self p l w =
    (Ok (mkLocals (df l) (total_count l + 1) (processed_count l)
                  (skipped_count l + 1) (warnings_count l)), w') /\
    extends w w'
      (if Shipments.move_skipped self
       then [(p, joinpath (Shipments.skipped self) (name p))] else [])
      new /\
    Forall (fun r => logged_by_move_file_safely r = true) new.
Proof.
  intros Hr Hs. unfold Shipments.loop_body, bind at 1, open_read.
  rewrite Hr, Hs. unfold bind.
  destruct (guarded_move_returns (Shipments.move_skipped self) self p
              (joinpath (Shipments.skipped self) (name p)) w)
    as (w' & new & E & X & F).
  rewrite E. now exists w', new.
Qed.

(** The marker is present, the toggle is on and ["1Details"] is absent. *)
Lemma loop_body_more_than_1Detail (self : Shipments.t) (p : Path)
      (l : Locals) (w : World) (rawtext : string) :
  read_text w p = Ok rawtext ->
  str_in (Shipments.process_criteria self) rawtext = true ->
  Shipments.warn_if_more_than_1Detail self = true ->
  str_in "1Details" rawtext = false ->
  exists w' new,
    Shipments.loop_body self p l w =
    (Ok (mkLocals (df l) (total_count l + 1) (processed_count l)
                  (skipped_count l) (warnings_count l + 1)), w') /\
    extends w w'
      (if Shipments.move_undhandled_files_to_warning self
       then [(p, joinpath (Shipments.warning self) (name p))] else [])
      (mkLog WARNING
         "{} contains more than 1 Detail!!!!\n Please add manually"
         [AStr (name p)] :: new) /\
    Forall (fun r => logged_by_move_file_safely r = true) new.
Proof.
  intros Hr Hs Ht Hd. unfold Shipments.loop_body, bind at 1, open_read.
  rewrite Hr, Hs. unfold bind at 1.
  rewrite check_if_1Details_unfold, Ht, Hd. cbn [andb negb].
  unfold bind.
  match goal with
  | |- context [Shipments._file_could_not_be_handled self p ?w1] =>
      destruct (file_could_not_be_handled_returns self p w1)
        as (w' & new & E & X & F)
  end.
  rewrite E. exists w', new. split; [reflexivity|]. split; [|exact F].
  apply (extends_trans _ _ _ _ _ _ _ (extends_log w _) X).
Qed.

Lemma check_if_1Details_simple (self : Shipments.t) (p : Path)
      (rawtext : string) (w : World) :
  Shipments.warn_if_more_than_1Detail self = false \/
  str_in "1Details" rawtext = true ->
  Shipments._check_if_1Details self p rawtext w = (Ok false, w).
Proof.
  intros H. rewrite check_if_1Details_unfold.
  destruct H as [-> | ->]; [reflexivity|].
  now rewrite andb_false_r.
Qed.

(** In scope, simple, and every pattern matches. *)
Lemma loop_body_processed (self : Shipments.t) (p : Path) (l : Locals)
      (w : World) (rawtext : string) a la b lb c lc d ld :
  read_text w p = Ok rawtext ->
  in_scope_and_simple self rawtext ->
  findall reference_id_re (name p) = a :: la ->
  findall job_number_re rawtext = b :: lb ->
  findall distribution_order_number_re rawtext = c :: lc ->
  findall airwaybill_re rawtext = d :: ld ->
  exists w' new,
    Shipments.loop_body self p l w =
    (Ok (mkLocals (df l ++ [shipment_row self p a b c d])
                  (total_count l + 1) (processed_count l + 1)
                  (skipped_count l) (warnings_count l)), w') /\
    extends w w'
      (if Shipments.move_processed self
       then [(p, joinpath (Shipments.processed self) (name p))] else [])
      ([mkLog DEBUG "extract_shipment_info_function - textfile:{textfile}"
              [APath p];
        mkLog DEBUG "extract_shipment_info_function - textfile:{rawtext}"
              [AStr rawtext];
        mkLog DEBUG "Shipment attributes:\t{}"
              [ARow (shipment_row self p a b c d)]] ++ new) /\
    Forall (fun r => logged_by_move_file_safely r = true) new.
Proof.
  intros Hr [Hs Hsimple] Ha Hb Hc Hd.
  unfold Shipments.loop_body, bind at 1, open_read.
  rewrite Hr, Hs. unfold bind at 1.
  rewrite (check_if_1Details_simple self p rawtext w Hsimple).
  unfold bind at 1.
  rewrite (extract_shipment_info_found self (df l) p rawtext w
             a la b lb c lc d ld Ha Hb Hc Hd).
  unfold bind.
  match goal with
  | |- context [(if ?t then Shipments._move_file_safely self p ?q
                 else ret tt) ?w1] =>
      destruct (guarded_move_returns t self p q w1)
        as (w' & new & E & X & F)
  end.
  rewrite E. exists w', new. split; [reflexivity|]. split; [|exact F].
  apply (extends_trans _ _ _ _ _ _ _ (extends_log w _) X).
Qed.

(** In scope, simple, and some pattern has no match. *)
Lemma loop_body_unmatched (self : Shipments.t) (p : Path) (l : Locals)
      (w : World) (rawtext : string) :
  read_text w p = Ok rawtext ->
  in_scope_and_simple self rawtext ->
  some_pattern_unmatched p rawtext ->
  exists w' new,
    Shipments.loop_body self p l w =
    (Ok (mkLocals (df l) (total_count l + 1) (processed_count l)
                  (skipped_count l) (warnings_count l + 1)), w') /\
    extends w w'
      (if Shipments.move_undhandled_files_to_warning self
       then [(p, joinpath (Shipments.warning self) (name p))] else [])
      ([mkLog DEBUG "extract_shipment_info_function - textfile:{textfile}"
              [APath p];
        mkLog DEBUG "extract_shipment_info_function - textfile:{rawtext}"
              [AStr rawtext];
        mkLog WARNING
              "{textfile} did not match the regular expression patterns!!"
              []] ++ new) /\
    Forall (fun r => logged_by_move_file_safely r = true) new.
Proof.
  intros Hr [Hs Hsimple] Hnone.
  unfold Shipments.loop_body, bind at 1, open_read.
  rewrite Hr, Hs. unfold bind at 1.
  rewrite (check_if_1Details_simple self p rawtext w Hsimple).
  unfold bind at 1.
  rewrite (extract_shipment_info_not_found self (df l) p rawtext w Hnone).
  unfold bind.
  match goal with
  | |- context [Shipments._file_could_not_be_handled self p ?w1] =>
      destruct (file_could_not_be_handled_returns self p w1)
        as (w' & new & E & X & F)
  end.
  rewrite E. exists w', new. split; [reflexivity|]. split; [|exact F].
  apply (extends_trans _ _ _ _ _ _ _ (extends_log w _) X).
Qed.

(** Every iteration on a readable file returns, and does what
    [iteration] says. *)
Lemma loop_body_returns (self : Shipments.t) (p : Path) (l : Locals)
      (w : World) (rawtext : string) :
  read_text w p = Ok rawtext ->
  exists l' w' calls new disp,
    Shipments.loop_body self p l w = (Ok l', w') /\
    extends w w' calls new /\
    iteration self p rawtext l l' disp.
Proof.
  intros Hr.
  destruct (str_in (Shipments.process_criteria self) rawtext) eqn:Hs.
  - destruct (Shipments.warn_if_more_than_1Detail self) eqn:Ht;
      [destruct (str_in "1Details" rawtext) eqn:Hd|].
    1, 3: assert (Hsimple : in_scope_and_simple self rawtext)
        by (split; auto).
    3: { destruct (loop_body_more_than_1Detail self p l w rawtext
                     Hr Hs Ht Hd) as (w' & new & E & X & _).
         do 5 eexists. split; [exact E|]. split; [exact X|].
         now apply it_more_than_1Detail. }
    all: destruct (findall reference_id_re (name p)) as [|a la] eqn:Ha;
      [|destruct (findall job_number_re rawtext) as [|b lb] eqn:Hb;
        [|destruct (findall distribution_order_number_re rawtext)
            as [|c lc] eqn:Hc;
          [|destruct (findall airwaybill_re rawtext) as [|d ld] eqn:Hd']]].
    all: try (destruct (loop_body_processed self p l w rawtext
                          a la b lb c lc d ld Hr Hsimple Ha Hb Hc Hd')
               as (w' & new & E & X & _);
              do 5 eexists; split; [exact E|]; split; [exact X|];
              eapply it_processed; eassumption).
    all: assert (Hnone : some_pattern_unmatched p rawtext)
        by (unfold some_pattern_unmatched; tauto).
    all: destruct (loop_body_unmatched self p l w rawtext Hr Hsimple Hnone)
        as (w' & new & E & X & _);
      do 5 eexists; (split; [exact E|]); (split; [exact X|]);
      now apply it_unmatched.
  - destruct (loop_body_skipped self p l w rawtext Hr Hs)
      as (w' & new & E & X & _).
    do 5 eexists. split; [exact E|]. split; [exact X|].
    now apply it_skipped.
Qed.

(** The disposition read off the counters is the one of [iteration]. *)
Lemma iteration_disposition (self : Shipments.t) (p : Path)
      (rawtext : string) (l l' : Locals) (d : Disposition) :
  iteration self p rawtext l l' d -> disposition l l' = Some d.
Proof.
  intros H. destruct H; unfold disposition; cbn;
    repeat match goal with
           | |- context [Nat.eqb ?a ?b] =>
               let E := fresh in
               destruct (Nat.eqb_spec a b) as [E|E]; try lia
           end; reflexivity.
Qed.

(** An iteration counts the file once, under one disposition. *)
Lemma iteration_counts (self : Shipments.t) (p : Path)
      (rawtext : string) (l l' : Locals) (d : Disposition) :
  iteration self p rawtext l l' d ->
  total_count l' = total_count l + 1 /\
  processed_count l' + skipped_count l' + warnings_count l'
  = processed_count l + skipped_count l + warnings_count l + 1.
Proof.
  intros H. destruct H; cbn; lia.
Qed.

(** An iteration keeps the rows and adds at most the row of its file. *)
Lemma iteration_rows (self : Shipments.t) (p : Path)
      (rawtext : string) (l l' : Locals) (d : Disposition) (row : Row.t) :
  iteration self p rawtext l l' d ->
  In row (df l') ->
  In row (df l) \/
  (d = Processed /\
   exists a la b lb c lc d' ld,
     in_scope_and_simple self rawtext /\
     findall reference_id_re (name p) = a :: la /\
     findall job_number_re rawtext = b :: lb /\
     findall distribution_order_number_re rawtext = c :: lc /\
     findall airwaybill_re rawtext = d' :: ld /\
     row = shipment_row self p a b c d').
Proof.
  intros H Hin. destruct H; cbn in Hin; auto.
  apply in_app_or in Hin as [Hin|[<-|[]]]; [now left|].
  right. split; [reflexivity|]. do 8 eexists.
  repeat (split; [eassumption|]). reflexivity.
Qed.

(** ** The loop over the listed files *)

Lemma for_each_cons {S X L : Type} (x : X) (xs : list X)
      (body : X -> L -> M S L) (l : L) (s : S) :
  for_each (x :: xs) body l s =
  match body x l s with
  | (Ok l', s') => for_each xs body l' s'
  | (Raise e, s') => (Raise e, s')
  end.
Proof. reflexivity. Qed.

(** A loop that ends normally read every file, counted every file once
    under one disposition, and holds only rows of files it extracted. *)
Lemma loop_invariant (self : Shipments.t) (xs : list Path) :
  forall (l : Locals) (w : World) (l' : Locals) (w' : World),
    for_each xs (Shipments.loop_body self) l w = (Ok l', w') ->
    same_env w w' /\
    (forall p, In p xs -> exists rawtext, read_text w p = Ok rawtext) /\
    total_count l' = total_count l + length xs /\
    processed_count l' + skipped_count l' + warnings_count l'
    = processed_count l + skipped_count l + warnings_count l + length xs /\
    (forall row, In row (df l') ->
       In row (df l) \/
       exists p rawtext a la b lb c lc d ld,
         In p xs /\
         read_text w p = Ok rawtext /\
         in_scope_and_simple self rawtext /\
         findall reference_id_re (name p) = a :: la /\
         findall job_number_re rawtext = b :: lb /\
         findall distribution_order_number_re rawtext = c :: lc /\
         findall airwaybill_re rawtext = d :: ld /\
         row = shipment_row self p a b c d).
Proof.
  induction xs as [|x xs IH]; intros l w l' w' H.
  - inversion H; subst. cbn.
    split; [apply same_env_refl|]. split; [intros p []|].
    repeat split; try lia. auto.
  - rewrite for_each_cons in H.
    destruct (read_text w x) as [rawtext|e] eqn:Hr.
    2: { rewrite (loop_body_unreadable self x l w e Hr) in H.
         discriminate. }
    destruct (loop_body_returns self x l w rawtext Hr)
      as (l1 & w1 & calls & new & disp & E & X & It).
    rewrite E in H.
    destruct (IH l1 w1 l' w' H) as (Env & Rd & Tot & Sum & Rows).
    destruct X as (Env1 & _).
    pose proof (iteration_counts self x rawtext l l1 disp It) as [T1 S1].
    split; [eapply same_env_trans; eassumption|].
    destruct Env1 as (_ & Hread & _).
    split; [|split; [|split]].
    + intros p [<-|Hp]; [eauto|].
      destruct (Rd p Hp) as [t Ht]. exists t. now rewrite <- Hread.
    + cbn [length]. lia.
    + cbn [length]. lia.
    + intros row Hin.
      destruct (Rows row Hin) as [Hin1|Hex].
      * destruct (iteration_rows self x rawtext l l1 disp row It Hin1)
          as [?|[_ (a & la & b & lb & c & lc & d & ld & Hex)]];
          [now left|].
        right. exists x, rawtext, a, la, b, lb, c, lc, d, ld.
        split; [now left|]. split; [exact Hr|]. exact Hex.
      * right.
        destruct Hex as (p & t & a & la & b & lb & c & lc & d & ld
                         & Hp & Ht & Hex).
        exists p, t, a, la, b, lb, c, lc, d, ld.
        split; [now right|]. split; [now rewrite <- Hread|]. exact Hex.
Qed.

(** When every listed file can be read, the loop ends normally. *)
Lemma loop_returns (self : Shipments.t) (xs : list Path) :
  forall (l : Locals) (w : World),
    (forall p, In p xs -> exists rawtext, read_text w p = Ok rawtext) ->
    exists l' w',
      for_each xs (Shipments.loop_body self) l w = (Ok l', w').
Proof.
  induction xs as [|x xs IH]; intros l w Hread.
  - now exists l, w.
  - rewrite for_each_cons.
    destruct (Hread x (or_introl eq_refl)) as [rawtext Hr].
    destruct (loop_body_returns self x l w rawtext Hr)
      as (l1 & w1 & calls & new & disp & E & X & It).
    rewrite E. apply IH.
    intros p Hp. destruct (Hread p (or_intror Hp)) as [t Ht].
    exists t. destruct X as ((_ & Hsame & _) & _). now rewrite Hsame.
Qed.

(** The first file that cannot be read ends the loop with its
    exception; the files after it are not looked at. *)
Lemma loop_aborts (self : Shipments.t) (pre : list Path) :
  forall (p : Path) (post : list Path) (l : Locals) (w : World)
         (e : Exception),
    (forall q, In q pre -> exists rawtext, read_text w q = Ok rawtext) ->
    read_text w p = Raise e ->
    exists w',
      for_each (pre ++ p :: post) (Shipments.loop_body self) l w
      = (Raise e, w').
Proof.
  induction pre as [|x pre IH]; intros p post l w e Hread Hp.
  - cbn [app]. rewrite for_each_cons.
    rewrite (loop_body_unreadable self p l w e Hp). now exists w.
  - cbn [app]. rewrite for_each_cons.
    destruct (Hread x (or_introl eq_refl)) as [rawtext Hr].
    destruct (loop_body_returns self x l w rawtext Hr)
      as (l1 & w1 & calls & new & disp & E & X & It).
    rewrite E. destruct X as ((_ & Hsame & _) & _).
    apply IH.
    + intros q Hq. destruct (Hread q (or_intror Hq)) as [t Ht].
      exists t. now rewrite Hsame.
    + now rewrite Hsame.
Qed.

(** [extract_information] written out over the loop. *)
Lemma extract_information_unfold (self : Shipments.t) (w : World) :
  Shipments.extract_information self w =
  match for_each (glob_txt w (Shipments.source self))
                 (Shipments.loop_body self) (mkLocals [] 0 0 0 0) w with
  | (Ok l, w') =>
      (Ok (Shipments.set_self_df self (df l), df l),
       set_log w' (log w' ++
         [mkLog INFO
            "Total files handled: {total_count} Processed files: {processed_count} Skipped files: {skipped_count} Warnings:{warnings_count}"
            [ANat (total_count l); ANat (processed_count l);
             ANat (skipped_count l); ANat (warnings_count l)];
          mkLog INFO "Script finished successfully" []]))
  | (Raise e, w') => (Raise e, w')
  end.
Proof.
  unfold Shipments.extract_information, Shipments.batch_loop.
  unfold bind at 1 2. unfold get at 1.
  destruct (for_each _ _ _ w) as [[l|e] w']; [|reflexivity].
  unfold_monad. cbn. rewrite <- app_assoc. reflexivity.
Qed.

(** Every row of the data frame [extract_information] returns is the row
    of a listed file that is in scope and simple and matched by all four
    patterns. *)
Lemma report_rows (self : Shipments.t) (w w' : World)
      (self' : Shipments.t) (d : DataFrame) :
  Shipments.extract_information self w = (Ok (self', d), w') ->
  forall row, In row d -> row_of_file self w row.
Proof.
  rewrite extract_information_unfold.
  destruct (for_each _ _ _ w) as [[l|e] w1] eqn:E; [|discriminate].
  intros H row Hin. inversion H; subst.
  destruct (loop_invariant self _ _ _ _ _ E) as (_ & _ & _ & _ & Rows).
  destruct (Rows row Hin) as [[]|Hex]. exact Hex.
Qed.

(** A path whose file is not extracted has no row in the report. *)
Lemma not_in_report (self : Shipments.t) (w w' : World)
      (self' : Shipments.t) (d : DataFrame) (p : Path) :
  Shipments.extract_information self w = (Ok (self', d), w') ->
  (forall rawtext,
      read_text w p = Ok rawtext ->
      ~ in_scope_and_simple self rawtext \/
      some_pattern_unmatched p rawtext) ->
  forall row, In row d -> Row.path row <> p.
Proof.
  intros H Hp row Hin Heq.
  destruct (report_rows self w w' self' d H row Hin)
    as (q & t & a & la & b & lb & c & lc & d' & ld
        & _ & Ht & Hsimple & Ha & Hb & Hc & Hd & ->).
  cbn in Heq. subst q.
  destruct (Hp t Ht) as [Hn|[Hn|[Hn|[Hn|Hn]]]];
    [now apply Hn | congruence ..].
Qed.

(** ** Dropping duplicates *)

Lemma subset_eqb_eq (a b : string * string) :
  subset_eqb a b = true <-> a = b.
Proof.
  destruct a as [a1 a2], b as [b1 b2]. unfold subset_eqb. cbn.
  rewrite andb_true_iff, !String.eqb_eq.
  split; [intros [-> ->]; reflexivity | intros H; inversion H; auto].
Qed.

Lemma seen_In (k : string * string) (seen : list (string * string)) :
  existsb (subset_eqb k) seen = true <-> In k seen.
Proof.
  rewrite existsb_exists. split.
  - intros (x & Hx & E). apply subset_eqb_eq in E. now subst.
  - intros H. exists k. split; [exact H | now apply subset_eqb_eq].
Qed.

Lemma subset_dec (a b : string * string) : {a = b} + {a <> b}.
Proof.
  destruct (subset_eqb a b) eqn:E.
  - left. now apply subset_eqb_eq.
  - right. intros H. apply subset_eqb_eq in H. congruence.
Qed.

(** The columns of [subset] are the distribution order number and the
    airwaybill. *)
Lemma subset_same_pair (x r : Row.t) :
  subset x = subset r <-> same_pair x r.
Proof.
  unfold subset, same_pair. split.
  - intros H. now inversion H.
  - intros [H1 H2]. now rewrite H1, H2.
Qed.

(** The rows that survive are the first occurrences of the pairs not
    seen before. *)
Lemma drop_duplicates_seen_In (d : DataFrame) :
  forall (seen : list (string * string)) (r : Row.t),
    In r (drop_duplicates_seen seen d) <->
    (~ In (subset r) seen /\ first_occurrence d r).
Proof.
  induction d as [|r0 d IH]; intros seen r; cbn.
  - split; [intros [] | intros (_ & pre & post & H & _)].
    now destruct pre.
  - destruct (existsb (subset_eqb (subset r0)) seen) eqn:E.
    + apply seen_In in E. rewrite IH. split.
      * intros (Hn & pre & post & -> & Hpre). split; [exact Hn|].
        exists (r0 :: pre), post. split; [reflexivity|].
        intros x [<-|Hx]; [|now apply Hpre].
        intros S. apply subset_same_pair in S. congruence.
      * intros (Hn & pre & post & H & Hpre). split; [exact Hn|].
        destruct pre as [|x pre]; cbn in H; inversion H; subst.
        -- contradiction.
        -- exists pre, post. split; [reflexivity|].
           intros y Hy. apply Hpre. now right.
    + assert (Hn0 : ~ In (subset r0) seen).
      { intros H. apply seen_In in H. congruence. }
      cbn. rewrite IH. split.
      * intros [<-|(Hn & pre & post & -> & Hpre)].
        -- split; [exact Hn0|]. exists [], d. split; [reflexivity|].
           intros x [].
        -- split; [intros H; apply Hn; now right|].
           exists (r0 :: pre), post. split; [reflexivity|].
           intros x [<-|Hx]; [|now apply Hpre].
           intros S. apply subset_same_pair in S. apply Hn. now left.
      * intros (Hn & pre & post & H & Hpre).
        destruct pre as [|x pre]; cbn in H; inversion H; subst.
        -- now left.
        -- right. split.
           ++ intros [Hk|Hk]; [|contradiction].
              apply (Hpre x); [now left | now apply subset_same_pair].
           ++ exists pre, post. split; [reflexivity|].
              intros y Hy. apply Hpre. now right.
Qed.

Lemma drop_duplicates_seen_NoDup (d : DataFrame) :
  forall seen, NoDup (map subset (drop_duplicates_seen seen d)).
Proof.
  induction d as [|r0 d IH]; intros seen; cbn; [constructor|].
  destruct (existsb (subset_eqb (subset r0)) seen); [apply IH|].
  cbn. constructor; [|apply IH].
  intros H. apply in_map_iff in H as (x & Hk & Hx).
  apply drop_duplicates_seen_In in Hx as [Hn _].
  apply Hn. now left.
Qed.

(** Every row has a first occurrence of its pair. *)
Lemma first_occurrence_exists (d : DataFrame) (r : Row.t) :
  In r d ->
  exists r', first_occurrence d r' /\ same_pair r' r.
Proof.
  induction d as [|x d IH]; intros Hin; [destruct Hin|].
  destruct (subset_dec (subset x) (subset r)) as [E|N].
  - exists x. split; [|now apply subset_same_pair].
    exists [], d. split; [reflexivity | intros y []].
  - destruct Hin as [->|Hin]; [congruence|].
    destruct (IH Hin) as (r' & (pre & post & -> & Hpre) & E).
    exists r'. split; [|exact E].
    exists (x :: pre), post. split; [reflexivity|].
    intros y [<-|Hy]; [|now apply Hpre].
    intros S. apply subset_same_pair in S, E. congruence.
Qed.

(** [export_dataframe] written out: the data frame and the table are
    logged, then the table is written when the file can be written. *)
Lemma export_dataframe_unfold (self : Shipments.t) (now : string)
      (w : World) (d : DataFrame) :
  Shipments.self_df self = Some d ->
  Shipments.export_dataframe self now w =
  match to_csv_outcome w
          (joinpath (Shipments.parent self)
                    (now ++ "_" ++ Shipments.outputfilename self)) with
  | None =>
      (Ok (Shipments.set_unique_df self (drop_duplicates d)),
       set_csv_files
         (set_log w (log w ++ [mkLog DEBUG "{}" [ADf d];
                               mkLog DEBUG "{}" [ADf (drop_duplicates d)]]))
         (csv_files w ++
            [(joinpath (Shipments.parent self)
                       (now ++ "_" ++ Shipments.outputfilename self),
              drop_duplicates d)]))
  | Some e =>
      (Raise e,
       set_log w (log w ++ [mkLog DEBUG "{}" [ADf d];
                            mkLog DEBUG "{}" [ADf (drop_duplicates d)]]))
  end.
Proof.
  intros H. unfold Shipments.export_dataframe. rewrite H.
  unfold_monad. cbn.
  destruct (to_csv_outcome w _); unfold set_csv_files, set_log; cbn;
    rewrite <- app_assoc; reflexivity.
Qed.

(** ** The classifier on literal substrings *)

Lemma in_scope_and_simple_intro (self : Shipments.t) (rawtext : string) :
  InScope self rawtext -> IsSimple self rawtext ->
  in_scope_and_simple self rawtext.
Proof.
  intros Hs [Ht|Hd]; split; try (now apply str_in_Substring); auto.
  right. now apply str_in_Substring.
Qed.

Lemma name_joinpath (dir : Path) (child : string) :
  name (joinpath dir child) = child.
Proof. unfold name, joinpath. apply last_last. Qed.

(** A record of [_move_file_safely] is not one of
    [extract_shipment_info]. *)
Lemma move_record_not_extract (r : LogRecord) :
  logged_by_move_file_safely r = true ->
  logged_by_extract_shipment_info r = false.
Proof.
  unfold logged_by_move_file_safely, logged_by_extract_shipment_info.
  cbn [existsb]. rewrite !orb_false_r, !orb_true_iff, !String.eqb_eq.
  intros [-> | [-> | ->]]; reflexivity.
Qed.

(** ** The first occurrence of a literal *)

Lemma str_find_eq (sub s : string) :
  str_find sub s =
  if prefix sub s then Some 0
  else match s with
       | EmptyString => None
       | String _ s' => option_map S (str_find sub s')
       end.
Proof. destruct s; reflexivity. Qed.

(** [str_find] gives the smallest offset at which the literal starts. *)
Lemma str_find_spec (sub s : string) :
  forall n,
    str_find sub s = Some n ->
    n <= String.length s /\
    prefix sub (drop n s) = true /\
    forall j, j < n -> prefix sub (drop j s) = false.
Proof.
  induction s as [|c s IH]; intros n H; rewrite str_find_eq in H;
    destruct (prefix sub _) eqn:Hp.
  - inversion H; subst.
    split; [cbn; lia|]. split; [exact Hp | intros; lia].
  - discriminate.
  - inversion H; subst. cbn [drop].
    split; [lia|]. split; [exact Hp | intros; lia].
  - destruct (str_find sub s) as [n'|]; [|discriminate].
    inversion H; subst.
    destruct (IH n' eq_refl) as (Hn & Hat & Hbefore).
    split; [cbn; lia|]. split; [exact Hat|].
    intros [|j] Hj; [exact Hp | apply Hbefore; lia].
Qed.

(** A pattern that begins with a literal matches only where the literal
    starts. *)
Lemma match_at_literal (l : string) (r : regex) (s : string) :
  prefix l s = false -> match_at (Lit l @@ r) s = None.
Proof.
  intros Hp. unfold match_at. cbn.
  destruct (strip_prefix l s) as [s'|] eqn:E; [|reflexivity].
  apply strip_prefix_spec in E.
  assert (Ht : prefix l s = true) by (apply prefix_append; eauto).
  congruence.
Qed.

(** Where the literal first occurs and the pattern matches there, that
    match is the first [findall] reports. *)
Lemma first_literal_match (l : string) (r : regex) (s : string)
      (n : nat) (m : Match) :
  str_find l s = Some n ->
  match_at (Lit l @@ r) (drop n s) = Some m ->
  exists vs, findall (Lit l @@ r) s = reported m :: vs.
Proof.
  intros Hfind Hm.
  destruct (str_find_spec l s n Hfind) as (Hn & _ & Hbefore).
  apply leftmost_findall_cons. exists n, m.
  split; [exact Hn|]. split; [exact Hm|]. split; [reflexivity|].
  intros j Hj. apply match_at_literal. now apply Hbefore.
Qed.

(** A greedy repetition stops where the class stops. *)
Lemma star_stop {A : Type} (p : ascii -> bool) (s : string)
      (k : string -> string -> option A) :
  starts_with p s = false -> star p s k = k "" s.
Proof.
  destruct s as [|c s]; cbn; [reflexivity | intros ->; reflexivity].
Qed.

(** The three patterns of the text on the pieces of the example. *)
Lemma job_number_on_example (rest : string) :
  match_at job_number_re ("Shipment: JOB456-DO789" ++ rest)
  = Some (mkMatch "Shipment: JOB456" (Some "JOB456") ("-DO789" ++ rest)).
Proof. reflexivity. Qed.

Lemma distribution_order_number_on_example (rest : string) :
  starts_with py_word rest = false ->
  match_at distribution_order_number_re ("Shipment: JOB456-DO789" ++ rest)
  = Some (mkMatch "Shipment: JOB456-DO789" (Some "DO789") rest).
Proof.
  intros H. unfold match_at, distribution_order_number_re.
  cbn -[star py_word].
  change (py_word "J") with true. cbn -[star py_word].
  repeat (cbn [star]; match goal with
                      | |- context [py_word ?c] =>
                          let b := eval vm_compute in (py_word c) in
                          change (py_word c) with b
                      end; cbn -[star py_word]).
  rewrite ?(star_stop py_word rest) by exact H.
  reflexivity.
Qed.

Lemma airwaybill_on_example (post : string) :
  match_at airwaybill_re (", AWB001," ++ post)
  = Some (mkMatch ", AWB001," (Some "AWB001") post).
Proof. reflexivity. Qed.

(** ** The claims *)

(** C1, as the claim states its example, fails.  The text
    ["ZRH, 1Details, Shipment: JOB456-DO789, AWB001,"] contains the four
    pieces of the example and the file is named [log_00123.txt]; the
    file is processed, and the record holds the airwaybill ["1Details"],
    the first token between commas, not ["AWB001"]. *)
Lemma first_comma_token_is_the_airwaybill :
  Substring "ZRH" text_commas /\
  Substring "1Details" text_commas /\
  Substring "Shipment: JOB456-DO789" text_commas /\
  Substring ", AWB001," text_commas /\
  name log_00123 = "log_00123.txt" /\
  read_text commas_world log_00123 = Ok text_commas /\
  fst (Shipments.loop_body default_settings log_00123
                           (mkLocals [] 0 0 0 0) commas_world)
  = Ok (mkLocals [Row.mk "00123" "JOB456" "DO789" "1Details" log_00123
                         ["UNC_processed"; "log_00123.txt"]]
                 1 1 0 0).
Proof.
  repeat (split; [apply str_in_Substring; reflexivity|]).
  repeat split.
Qed.

(** C1, amended. For every file in scope and simple on which all four
    patterns match, the iteration appends exactly one row, whose fields
    are the first (leftmost) match of each pattern, and the disposition
    is Processed.  A file named [log_00123.txt] whose text contains
    ["ZRH"] and ["1Details"] gives the row 00123, JOB456, DO789, AWB001
    when the first ["Shipment:"] of the text starts
    ["Shipment: JOB456-DO789"] with no word character after it, and the
    first comma of the text starts [", AWB001,"]. *)
Theorem matching_file_is_processed :
  (forall (self : Shipments.t) (p : Path) (l : Locals) (w : World)
          (rawtext : string) a la b lb c lc d ld,
      read_text w p = Ok rawtext ->
      InScope self rawtext ->
      IsSimple self rawtext ->
      findall reference_id_re (name p) = a :: la ->
      findall job_number_re rawtext = b :: lb ->
      findall distribution_order_number_re rawtext = c :: lc ->
      findall airwaybill_re rawtext = d :: ld ->
      exists l' w',
        Shipments.loop_body self p l w = (Ok l', w') /\
        df l' = df l ++
                [Row.mk a b c d p
                        (joinpath (Shipments.UNC_processed self) (name p))] /\
        disposition l l' = Some Processed /\
        leftmost_match reference_id_re (name p) a /\
        leftmost_match job_number_re rawtext b /\
        leftmost_match distribution_order_number_re rawtext c /\
        leftmost_match airwaybill_re rawtext d) /\
  (forall (self : Shipments.t) (dir : Path) (l : Locals) (w : World)
          (rawtext : string) (n k : nat) (rest post : string),
      Shipments.process_criteria self = "ZRH" ->
      read_text w (joinpath dir "log_00123.txt") = Ok rawtext ->
      Substring "ZRH" rawtext ->
      Substring "1Details" rawtext ->
      str_find "Shipment:" rawtext = Some n ->
      drop n rawtext = ("Shipment: JOB456-DO789" ++ rest)%string ->
      starts_with py_word rest = false ->
      str_find "," rawtext = Some k ->
      drop k rawtext = (", AWB001," ++ post)%string ->
      exists l' w',
        Shipments.loop_body self (joinpath dir "log_00123.txt") l w
        = (Ok l', w') /\
        df l' = df l ++
                [Row.mk "00123" "JOB456" "DO789" "AWB001"
                        (joinpath dir "log_00123.txt")
                        (joinpath (Shipments.UNC_processed self)
                                  "log_00123.txt")] /\
        disposition l l' = Some Processed).
Proof.
  assert (General :
    forall (self : Shipments.t) (p : Path) (l : Locals) (w : World)
           (rawtext : string) a la b lb c lc d ld,
      read_text w p = Ok rawtext ->
      InScope self rawtext ->
      IsSimple self rawtext ->
      findall reference_id_re (name p) = a :: la ->
      findall job_number_re rawtext = b :: lb ->
      findall distribution_order_number_re rawtext = c :: lc ->
      findall airwaybill_re rawtext = d :: ld ->
      exists l' w',
        Shipments.loop_body self p l w = (Ok l', w') /\
        df l' = df l ++ [shipment_row self p a b c d] /\
        disposition l l' = Some Processed).
  { intros self p l w rawtext a la b lb c lc d ld Hr Hs Hsimple Ha Hb Hc Hd.
    pose proof (in_scope_and_simple_intro self rawtext Hs Hsimple) as Hss.
    destruct (loop_body_processed self p l w rawtext a la b lb c lc d ld
                Hr Hss Ha Hb Hc Hd) as (w' & new & E & _).
    eexists. exists w'. split; [exact E|]. split; [reflexivity|].
    apply (iteration_disposition self p rawtext).
    eapply it_processed; eassumption. }
  split.
  - intros self p l w rawtext a la b lb c lc d ld Hr Hs Hsimple Ha Hb Hc Hd.
    destruct (General self p l w rawtext a la b lb c lc d ld
                Hr Hs Hsimple Ha Hb Hc Hd) as (l' & w' & E & Hdf & Hdisp).
    exists l', w'. repeat split; try assumption;
      eapply findall_cons_leftmost; eassumption.
  - intros self dir l w rawtext n k rest post Hcrit Hr Hzrh H1 Hn Hdn Hrest
           Hk Hdk.
    destruct (first_literal_match "Shipment:" _ rawtext n _ Hn
                (eq_trans (f_equal (match_at job_number_re) Hdn)
                          (job_number_on_example rest)))
      as (lb & Hb).
    destruct (first_literal_match "Shipment:" _ rawtext n _ Hn
                (eq_trans
                   (f_equal (match_at distribution_order_number_re) Hdn)
                   (distribution_order_number_on_example rest Hrest)))
      as (lc & Hc).
    destruct (first_literal_match "," _ rawtext k _ Hk
                (eq_trans (f_equal (match_at airwaybill_re) Hdk)
                          (airwaybill_on_example post)))
      as (ld & Hd).
    destruct (General self (joinpath dir "log_00123.txt") l w rawtext
                "00123" [] "JOB456" lb "DO789" lc "AWB001" ld)
      as (l' & w' & E & Hdf & Hdisp);
      try (rewrite name_joinpath); try reflexivity;
      try assumption.
    + unfold InScope. now rewrite Hcrit.
    + right. exact H1.
    + exists l', w'. split; [exact E|]. split; [|exact Hdisp].
      rewrite Hdf. unfold shipment_row. now rewrite name_joinpath.
Qed.

Lemma matching_file_is_processed_witness :
  (exists l' w',
      Shipments.loop_body default_settings log_00127
                          (mkLocals [] 0 0 0 0) example_world
      = (Ok l', w') /\
      df l' = [] ++
              [Row.mk "00127" "JOB460" "DO792" "AWB005" log_00127
                      ["UNC_processed"; "log_00127_2.txt"]] /\
      disposition (mkLocals [] 0 0 0 0) l' = Some Processed /\
      leftmost_match reference_id_re "log_00127_2.txt" "00127" /\
      leftmost_match job_number_re text_00127 "JOB460" /\
      leftmost_match distribution_order_number_re text_00127 "DO792" /\
      leftmost_match airwaybill_re text_00127 "AWB005") /\
  (exists l' w',
      Shipments.loop_body default_settings log_00123
                          (mkLocals [] 0 0 0 0) example_world
      = (Ok l', w') /\
      df l' = [] ++ [row_first] /\
      disposition (mkLocals [] 0 0 0 0) l' = Some Processed) /\
  (exists l' w',
      Shipments.loop_body default_settings log_00123
                          (mkLocals [] 0 0 0 0) reordered_world
      = (Ok l', w') /\
      df l' = [] ++ [row_first] /\
      disposition (mkLocals [] 0 0 0 0) l' = Some Processed).
Proof.
  split; [|split].
  - apply (proj1 matching_file_is_processed default_settings log_00127
                 (mkLocals [] 0 0 0 0) example_world text_00127
                 "00127" ["2"] "JOB460" ["JOB461"] "DO792" ["DO793"]
                 "AWB005" ["AWB006"]).
    + reflexivity.
    + apply str_in_Substring. reflexivity.
    + right. apply str_in_Substring. reflexivity.
    + reflexivity.
    + reflexivity.
    + reflexivity.
    + reflexivity.
  - apply (proj2 matching_file_is_processed default_settings ["source"]
                 (mkLocals [] 0 0 0 0) example_world text_00123
                 13 36 " , AWB001," "").
    + reflexivity.
    + reflexivity.
    + apply str_in_Substring. reflexivity.
    + apply str_in_Substring. reflexivity.
    + reflexivity.
    + reflexivity.
    + reflexivity.
    + reflexivity.
    + reflexivity.
  - apply (proj2 matching_file_is_processed default_settings ["source"]
                 (mkLocals [] 0 0 0 0) reordered_world text_reordered
                 10 0 "; ZRH; 1Details"
                 " Shipment: JOB456-DO789; ZRH; 1Details").
    + reflexivity.
    + reflexivity.
    + apply str_in_Substring. reflexivity.
    + apply str_in_Substring. reflexivity.
    + reflexivity.
    + reflexivity.
    + reflexivity.
    + reflexivity.
    + reflexivity.
Defined.

(** C2. For every file in scope and simple on which at least one of the
    four patterns has no match, extraction fails as a whole: [extract]
    raises, [extract_shipment_info] returns the data frame it was given,
    no row is appended, the disposition is Warning, and no row of that
    file is in the report. *)
Theorem unmatched_file_is_warning :
  forall (self : Shipments.t) (p : Path) (w : World) (rawtext : string),
    read_text w p = Ok rawtext ->
    InScope self rawtext ->
    IsSimple self rawtext ->
    findall reference_id_re (name p) = [] \/
    findall job_number_re rawtext = [] \/
    findall distribution_order_number_re rawtext = [] \/
    findall airwaybill_re rawtext = [] ->
    (exists sh,
        Shipment.extract (Shipment.init p rawtext) = (Raise IndexError, sh)) /\
    (forall (l : Locals),
        fst (Shipments.extract_shipment_info self (df l) p rawtext w)
        = Ok (df l, false) /\
        exists l' w',
          Shipments.loop_body self p l w = (Ok l', w') /\
          df l' = df l /\
          disposition l l' = Some Warning) /\
    (forall d, report self w = Some d ->
               forall row, In row d -> Row.path row <> p).
Proof.
  intros self p w rawtext Hr Hs Hsimple Hnone.
  pose proof (in_scope_and_simple_intro self rawtext Hs Hsimple) as Hss.
  split; [|split].
  - rewrite extract_unfold. cbn.
    destruct (findall reference_id_re (name p)); [eauto|].
    destruct (findall job_number_re rawtext); [eauto|].
    destruct (findall distribution_order_number_re rawtext); [eauto|].
    destruct (findall airwaybill_re rawtext); [eauto|].
    exfalso. destruct Hnone as [H|[H|[H|H]]]; discriminate.
  - intros l. split.
    + now rewrite (extract_shipment_info_not_found self (df l) p rawtext w
                     Hnone).
    + destruct (loop_body_unmatched self p l w rawtext Hr Hss Hnone)
        as (w' & new & E & _).
      eexists. exists w'. split; [exact E|]. split; [reflexivity|].
      apply (iteration_disposition self p rawtext).
      now apply it_unmatched.
  - intros d Hrep row Hin. unfold report in Hrep.
    destruct (Shipments.extract_information self w) as [[[self' d']|e] w']
      eqn:E; cbn in Hrep; [|discriminate].
    inversion Hrep; subst d'.
    apply (not_in_report self w w' self' d p E); [|exact Hin].
    intros t Ht. right. rewrite Hr in Ht. inversion Ht; subst t.
    exact Hnone.
Qed.

Lemma unmatched_file_is_warning_witness :
  (exists sh,
      Shipment.extract (Shipment.init log_00126 text_00126)
      = (Raise IndexError, sh)) /\
  (forall (l : Locals),
      fst (Shipments.extract_shipment_info default_settings (df l)
             log_00126 text_00126 example_world)
      = Ok (df l, false) /\
      exists l' w',
        Shipments.loop_body default_settings log_00126 l example_world
        = (Ok l', w') /\
        df l' = df l /\
        disposition l l' = Some Warning) /\
  (forall d, report default_settings example_world = Some d ->
             forall row, In row d -> Row.path row <> log_00126).
Proof.
  apply (unmatched_file_is_warning default_settings log_00126
           example_world text_00126).
  - reflexivity.
  - apply str_in_Substring. reflexivity.
  - right. apply str_in_Substring. reflexivity.
  - right. right. left. reflexivity.
Defined.

(** C3. Whatever [extract] assigns to an attribute is the first
    (leftmost) match of the attribute's pattern in the file name or in the
    text, also when the pattern matches more than once. *)
Theorem first_match_wins :
  forall (filepath : Path) (rawtext : string) (res : Result unit)
         (sh : Shipment.t),
    Shipment.extract (Shipment.init filepath rawtext) = (res, sh) ->
    first_match reference_id_re (name filepath)
                (Shipment.reference_id sh) /\
    first_match job_number_re rawtext (Shipment.job_number sh) /\
    first_match distribution_order_number_re rawtext
                (Shipment.distribution_order_number sh) /\
    first_match airwaybill_re rawtext (Shipment.airwaybill sh).
Proof.
  intros filepath rawtext res sh H.
  rewrite extract_unfold in H. cbn in H.
  destruct (findall reference_id_re (name filepath)) as [|a la] eqn:Ha;
    [|destruct (findall job_number_re rawtext) as [|b lb] eqn:Hb;
      [|destruct (findall distribution_order_number_re rawtext)
          as [|c lc] eqn:Hc;
        [|destruct (findall airwaybill_re rawtext) as [|d ld] eqn:Hd]]];
    inversion H; subst; cbn; repeat split;
    try discriminate;
    try (match goal with
         | E : Some _ = Some _ |- _ => inversion E; subst
         end);
    try (eapply findall_cons_leftmost; eassumption);
    intros; congruence.
Qed.

Lemma first_match_wins_witness :
  first_match reference_id_re "log_00127_2.txt" (Some "00127") /\
  first_match job_number_re text_00127 (Some "JOB460") /\
  first_match distribution_order_number_re text_00127 (Some "DO792") /\
  first_match airwaybill_re text_00127 (Some "AWB005").
Proof.
  apply (first_match_wins log_00127 text_00127 (Ok tt)
           (Shipment.mk log_00127 text_00127 "log_00127_2.txt"
              reference_id_re job_number_re distribution_order_number_re
              airwaybill_re
              (Some "00127") (Some "JOB460") (Some "DO792")
              (Some "AWB005"))).
  reflexivity.
Defined.

(** C9. When extraction succeeds on a file name and a text, running it
    again yields the same four fields: on the same object, on any other
    object built for the same input, and from [extract_shipment_info]
    whatever the data frame and the log it starts from. *)
Theorem extract_twice_same_record :
  forall (filepath : Path) (rawtext : string) (sh1 : Shipment.t),
    Shipment.extract (Shipment.init filepath rawtext) = (Ok tt, sh1) ->
    Shipment.extract sh1 = (Ok tt, sh1) /\
    (forall sh0,
        same_input sh0 (Shipment.init filepath rawtext) ->
        exists sh2,
          Shipment.extract sh0 = (Ok tt, sh2) /\
          Shipment.reference_id sh2 = Shipment.reference_id sh1 /\
          Shipment.job_number sh2 = Shipment.job_number sh1 /\
          Shipment.distribution_order_number sh2
          = Shipment.distribution_order_number sh1 /\
          Shipment.airwaybill sh2 = Shipment.airwaybill sh1) /\
    (forall (self : Shipments.t) (df1 df2 : DataFrame) (w1 w2 : World),
        exists row,
          fst (Shipments.extract_shipment_info self df1 filepath rawtext w1)
          = Ok (df1 ++ [row], true) /\
          fst (Shipments.extract_shipment_info self df2 filepath rawtext w2)
          = Ok (df2 ++ [row], true) /\
          Some (Row.reference_id row) = Shipment.reference_id sh1 /\
          Some (Row.job_number row) = Shipment.job_number sh1 /\
          Some (Row.distribution_order_number row)
          = Shipment.distribution_order_number sh1 /\
          Some (Row.airwaybill row) = Shipment.airwaybill sh1).
Proof.
  intros filepath rawtext sh1 H.
  rewrite extract_unfold in H. cbn in H.
  destruct (findall reference_id_re (name filepath)) as [|a la] eqn:Ha;
    [discriminate|].
  destruct (findall job_number_re rawtext) as [|b lb] eqn:Hb;
    [discriminate|].
  destruct (findall distribution_order_number_re rawtext)
    as [|c lc] eqn:Hc; [discriminate|].
  destruct (findall airwaybill_re rawtext) as [|d ld] eqn:Hd;
    [discriminate|].
  inversion H; subst sh1; clear H.
  split; [|split].
  - rewrite extract_unfold. cbn. rewrite Ha, Hb, Hc, Hd. reflexivity.
  - intros sh0 (Hf & Ht & H1 & H2 & H3 & H4).
    rewrite extract_unfold. cbn in Hf, Ht, H1, H2, H3, H4.
    rewrite Hf, Ht, H1, H2, H3, H4, Ha, Hb, Hc, Hd.
    eexists. split; [reflexivity|]. cbn. auto.
  - intros self df1 df2 w1 w2.
    exists (shipment_row self filepath a b c d).
    rewrite (extract_shipment_info_found self df1 filepath rawtext w1
               a la b lb c lc d ld Ha Hb Hc Hd).
    rewrite (extract_shipment_info_found self df2 filepath rawtext w2
               a la b lb c lc d ld Ha Hb Hc Hd).
    cbn. auto 10.
Qed.

Lemma extract_twice_same_record_witness :
  exists sh1,
    Shipment.extract (Shipment.init log_00123 text_00123) = (Ok tt, sh1) /\
    Shipment.extract sh1 = (Ok tt, sh1) /\
    Shipment.reference_id sh1 = Some "00123" /\
    Shipment.job_number sh1 = Some "JOB456" /\
    Shipment.distribution_order_number sh1 = Some "DO789" /\
    Shipment.airwaybill sh1 = Some "AWB001".
Proof.
  eexists. split; [reflexivity|].
  split; [|repeat split].
  apply (proj1 (extract_twice_same_record log_00123 text_00123 _ eq_refl)).
Defined.

Lemma report_excludes (self : Shipments.t) (w : World) (p : Path)
      (rawtext : string) :
  read_text w p = Ok rawtext ->
  ~ in_scope_and_simple self rawtext ->
  forall d, report self w = Some d ->
            forall row, In row d -> Row.path row <> p.
Proof.
  intros Hr Hn d Hrep row Hin. unfold report in Hrep.
  destruct (Shipments.extract_information self w) as [[[self' d']|e] w']
    eqn:E; cbn in Hrep; [|discriminate].
  inversion Hrep; subst d'.
  apply (not_in_report self w w' self' d p E); [|exact Hin].
  intros t Ht. left. rewrite Hr in Ht. inversion Ht; subst t. exact Hn.
Qed.

(** C4. For every listed file whose text does not contain the scope
    marker as a literal substring, the disposition is Skipped, the
    iteration appends no row, no row of the file is in the report, and
    [os.rename] to the skipped directory is called exactly when
    [move_skipped] is on; when the operating system carries the rename
    out, the file is moved exactly when the toggle is on. *)
Theorem file_without_marker_is_skipped :
  forall (self : Shipments.t) (p : Path) (w : World) (rawtext : string),
    read_text w p = Ok rawtext ->
    ~ InScope self rawtext ->
    (forall (l : Locals),
        exists l' w',
          Shipments.loop_body self p l w = (Ok l', w') /\
          disposition l l' = Some Skipped /\
          df l' = df l /\
          rename_calls w' =
          rename_calls w ++
            (if Shipments.move_skipped self
             then [(p, joinpath (Shipments.skipped self) (name p))]
             else []) /\
          (rename_outcome w p (joinpath (Shipments.skipped self) (name p))
           = None ->
           ~ In (p, joinpath (Shipments.skipped self) (name p))
                (rename_calls w) ->
           (moved w' p (joinpath (Shipments.skipped self) (name p)) <->
            Shipments.move_skipped self = true))) /\
    (forall d, report self w = Some d ->
               forall row, In row d -> Row.path row <> p).
Proof.
  intros self p w rawtext Hr Hn.
  assert (Hs : str_in (Shipments.process_criteria self) rawtext = false)
    by now apply str_in_false.
  split.
  - intros l.
    destruct (loop_body_skipped self p l w rawtext Hr Hs)
      as (w' & new & E & (Env & Hcalls & _) & _).
    eexists. exists w'. split; [exact E|].
    split; [apply (iteration_disposition self p rawtext);
            now apply it_skipped|].
    split; [reflexivity|]. split; [exact Hcalls|].
    intros Hout Hfresh. unfold moved. rewrite Hcalls.
    destruct Env as (_ & _ & -> & _).
    destruct (Shipments.move_skipped self); split.
    + reflexivity.
    + intros _. split; [|exact Hout]. apply in_or_app. right. now left.
    + rewrite app_nil_r. intros [Hin _]. contradiction.
    + discriminate.
  - apply (report_excludes self w p rawtext Hr).
    intros [Hin _]. congruence.
Qed.

Lemma file_without_marker_is_skipped_witness :
  (forall (l : Locals),
      exists l' w',
        Shipments.loop_body moving_settings log_00124 l example_world
        = (Ok l', w') /\
        disposition l l' = Some Skipped /\
        df l' = df l /\
        rename_calls w' = [] ++ [(log_00124, ["skipped"; "log_00124.txt"])] /\
        (example_outcome log_00124 ["skipped"; "log_00124.txt"] = None ->
         ~ In (log_00124, ["skipped"; "log_00124.txt"]) [] ->
         (moved w' log_00124 ["skipped"; "log_00124.txt"] <-> true = true))) /\
  (forall d, report moving_settings example_world = Some d ->
             forall row, In row d -> Row.path row <> log_00124).
Proof.
  apply (file_without_marker_is_skipped moving_settings log_00124
           example_world text_00124).
  - reflexivity.
  - apply str_in_false. reflexivity.
Defined.

(** C5. For every listed file in scope, when
    [warn_if_more_than_1Detail] is on and ["1Details"] is not a substring
    of the text, the disposition is Warning, no row is appended, no row of
    the file is in the report, and [extract_shipment_info] is not entered
    (it writes no log record), whatever the patterns would match.  When
    the toggle is off, [_check_if_1Details] reports no issue for any text,
    and a file in scope goes through extraction: Processed, or Warning
    because some pattern has no match. *)
Theorem more_than_1Detail_is_warning :
  (forall (self : Shipments.t) (p : Path) (w : World) (rawtext : string),
      read_text w p = Ok rawtext ->
      InScope self rawtext ->
      Shipments.warn_if_more_than_1Detail self = true ->
      ~ Substring "1Details" rawtext ->
      (forall (l : Locals),
          exists l' w' new,
            Shipments.loop_body self p l w = (Ok l', w') /\
            disposition l l' = Some Warning /\
            df l' = df l /\
            log w' = log w ++ new /\
            Forall (fun r => logged_by_extract_shipment_info r = false)
                   new) /\
      (forall d, report self w = Some d ->
                 forall row, In row d -> Row.path row <> p)) /\
  (forall (self : Shipments.t) (p : Path) (w : World) (rawtext : string),
      Shipments.warn_if_more_than_1Detail self = false ->
      Shipments._check_if_1Details self p rawtext w = (Ok false, w) /\
      IsSimple self rawtext /\
      (read_text w p = Ok rawtext ->
       InScope self rawtext ->
       forall (l : Locals),
         exists l' w' d,
           Shipments.loop_body self p l w = (Ok l', w') /\
           disposition l l' = Some d /\
           (d = Processed \/
            d = Warning /\ some_pattern_unmatched p rawtext))).
Proof.
  split.
  - intros self p w rawtext Hr Hs Ht Hn.
    assert (Hs' : str_in (Shipments.process_criteria self) rawtext = true)
      by now apply str_in_Substring.
    assert (Hd : str_in "1Details" rawtext = false)
      by now apply str_in_false.
    split.
    + intros l.
      destruct (loop_body_more_than_1Detail self p l w rawtext
                  Hr Hs' Ht Hd)
        as (w' & new & E & (_ & _ & _ & Hlog) & Hnew).
      eexists. exists w'. eexists.
      split; [exact E|].
      split; [apply (iteration_disposition self p rawtext);
              now apply it_more_than_1Detail|].
      split; [reflexivity|]. split; [exact Hlog|].
      constructor; [reflexivity|].
      eapply Forall_impl; [|exact Hnew].
      intros r. apply move_record_not_extract.
    + apply (report_excludes self w p rawtext Hr).
      intros [_ [H|H]]; congruence.
  - intros self p w rawtext Ht.
    split; [apply check_if_1Details_simple; now left|].
    split; [now left|].
    intros Hr Hs l.
    assert (Hs' : str_in (Shipments.process_criteria self) rawtext = true)
      by now apply str_in_Substring.
    destruct (loop_body_returns self p l w rawtext Hr)
      as (l' & w' & calls & new & d & E & _ & It).
    exists l', w', d. split; [exact E|].
    split; [exact (iteration_disposition self p rawtext l l' d It)|].
    destruct It; try congruence; [right | left]; auto.
Qed.

Lemma more_than_1Detail_is_warning_witness :
  ((forall (l : Locals),
       exists l' w' new,
         Shipments.loop_body default_settings log_00125 l example_world
         = (Ok l', w') /\
         disposition l l' = Some Warning /\
         df l' = df l /\
         log w' = [] ++ new /\
         Forall (fun r => logged_by_extract_shipment_info r = false) new) /\
   (forall d, report default_settings example_world = Some d ->
              forall row, In row d -> Row.path row <> log_00125)) /\
  (Shipments._check_if_1Details lenient_settings log_00125 text_00125
                                example_world
   = (Ok false, example_world) /\
   IsSimple lenient_settings text_00125 /\
   (read_text example_world log_00125 = Ok text_00125 ->
    InScope lenient_settings text_00125 ->
    forall (l : Locals),
      exists l' w' d,
        Shipments.loop_body lenient_settings log_00125 l example_world
        = (Ok l', w') /\
        disposition l l' = Some d /\
        (d = Processed \/
         d = Warning /\ some_pattern_unmatched log_00125 text_00125))).
Proof.
  split.
  - apply (proj1 more_than_1Detail_is_warning default_settings log_00125
                 example_world text_00125).
    + reflexivity.
    + apply str_in_Substring. reflexivity.
    + reflexivity.
    + apply str_in_false. reflexivity.
  - apply (proj2 more_than_1Detail_is_warning lenient_settings log_00125
                 example_world text_00125).
    reflexivity.
Defined.

(** C6. The table [export_dataframe] computes and writes holds, for
    each pair (distribution order number, airwaybill), exactly the first
    row in arrival order with that pair: a row is in the table exactly
    when no earlier row of the data frame has both its distribution order
    number and its airwaybill; no pair is in the table twice; every pair
    of the data frame is in the table; of two rows the second goes
    exactly when it has the pair of the first, whatever its other fields.
    The table is written when the file can be written; when it cannot,
    the export raises what [to_csv] raises and no file is written. *)
Theorem export_keeps_first_record :
  forall (self : Shipments.t) (now : string) (w : World) (d : DataFrame),
    Shipments.self_df self = Some d ->
    exists u,
      (forall r, In r u <-> first_occurrence d r) /\
      NoDup (map (fun r => (Row.distribution_order_number r,
                            Row.airwaybill r)) u) /\
      (forall r, In r d -> exists r', In r' u /\ same_pair r' r) /\
      (forall r1 r2, d = [r1; r2] -> same_pair r1 r2 -> u = [r1]) /\
      (forall r1 r2, d = [r1; r2] -> ~ same_pair r1 r2 -> u = [r1; r2]) /\
      (to_csv_outcome w
         (joinpath (Shipments.parent self)
                   (now ++ "_" ++ Shipments.outputfilename self)) = None ->
       exists self' w',
         Shipments.export_dataframe self now w = (Ok self', w') /\
         Shipments.unique_df self' = Some u /\
         csv_files w' =
         csv_files w ++
           [(joinpath (Shipments.parent self)
                      (now ++ "_" ++ Shipments.outputfilename self), u)]) /\
      (forall e,
          to_csv_outcome w
            (joinpath (Shipments.parent self)
                      (now ++ "_" ++ Shipments.outputfilename self))
          = Some e ->
          exists w',
            Shipments.export_dataframe self now w = (Raise e, w') /\
            csv_files w' = csv_files w).
Proof.
  intros self now w d Hd.
  exists (drop_duplicates d).
  assert (Hin : forall r, In r (drop_duplicates d) <-> first_occurrence d r).
  { intros r. unfold drop_duplicates. rewrite drop_duplicates_seen_In.
    split; [intros [_ H]; exact H | intros H; split; [intros []|exact H]]. }
  split; [exact Hin|].
  split; [exact (drop_duplicates_seen_NoDup d [])|].
  split; [|split; [|split; [|split]]].
  - intros r Hr. destruct (first_occurrence_exists d r Hr) as (r' & Hf & E).
    exists r'. split; [now apply Hin | exact E].
  - intros r1 r2 -> E. unfold drop_duplicates. cbn.
    replace (subset_eqb (subset r2) (subset r1)) with true; [reflexivity|].
    symmetry. apply subset_eqb_eq. symmetry. now apply subset_same_pair.
  - intros r1 r2 -> N. unfold drop_duplicates. cbn.
    destruct (subset_eqb (subset r2) (subset r1)) eqn:E; [|reflexivity].
    apply subset_eqb_eq in E. exfalso. apply N.
    apply subset_same_pair. now symmetry.
  - intros Hout. rewrite (export_dataframe_unfold self now w d Hd), Hout.
    do 2 eexists. split; [reflexivity|]. cbn. split; reflexivity.
  - intros e Hout. rewrite (export_dataframe_unfold self now w d Hd), Hout.
    eexists. split; reflexivity.
Qed.

Lemma export_keeps_first_record_witness :
  exists u,
    u = [row_first; row_half; row_other] /\
    (forall r, In r u <->
               first_occurrence [row_first; row_half; row_again; row_other]
                                r) /\
    NoDup (map (fun r => (Row.distribution_order_number r,
                          Row.airwaybill r)) u) /\
    (forall r, In r [row_first; row_half; row_again; row_other] ->
               exists r', In r' u /\ same_pair r' r) /\
    (exists self' w',
        Shipments.export_dataframe
          (Shipments.set_self_df default_settings
             [row_first; row_half; row_again; row_other])
          "2026_Nov_03_10_15" example_world
        = (Ok self', w') /\
        Shipments.unique_df self' = Some u /\
        csv_files w' =
        [] ++ [(["/"; "data"; "2026_Nov_03_10_15_extracted_data.csv"], u)]) /\
    (exists w',
        Shipments.export_dataframe
          (Shipments.set_self_df default_settings
             [row_first; row_half; row_again; row_other])
          "2026_Nov_03_10_15" no_csv_world
        = (Raise FileNotFoundError, w') /\
        csv_files w' = csv_files no_csv_world).
Proof.
  destruct (export_keeps_first_record
              (Shipments.set_self_df default_settings
                 [row_first; row_half; row_again; row_other])
              "2026_Nov_03_10_15" example_world
              [row_first; row_half; row_again; row_other] eq_refl)
    as (u & Hin & Hnd & Hall & _ & _ & Hok & _).
  destruct (export_keeps_first_record
              (Shipments.set_self_df default_settings
                 [row_first; row_half; row_again; row_other])
              "2026_Nov_03_10_15" no_csv_world
              [row_first; row_half; row_again; row_other] eq_refl)
    as (_ & _ & _ & _ & _ & _ & _ & Hfail).
  exists u.
  split; [|split; [exact Hin|split; [exact Hnd|split; [exact Hall|split;
    [exact (Hok eq_refl) | exact (Hfail FileNotFoundError eq_refl)]]]]].
  destruct (Hok eq_refl) as (self' & w' & E & Hu & _).
  vm_compute in E. injection E as E _. rewrite <- E in Hu.
  cbn in Hu. injection Hu as Hu. symmetry. exact Hu.
Defined.

(** C7, as the claim states it, fails: a file that cannot be read raises
    inside [extract_information]; the exception leaves the loop, nothing
    is logged for the file, and the files after it are not processed. *)
Lemma read_fault_aborts_batch :
  Shipments.extract_information default_settings unreadable_world
  = (Raise (OtherError "UnicodeDecodeError"), unreadable_world).
Proof. reflexivity. Qed.

(** C7, amended. For every listed file whose text can be read, the
    faults that arise while classifying, extracting and moving are caught
    inside the iteration, which ends with a disposition: a failed
    extraction gives Warning and a warning record in the log; a move that
    fails with [PermissionError] or [FileNotFoundError] leaves an error
    record and [_move_file_safely] returns whatever [os.rename] raises;
    when every listed file can be read, no exception leaves
    [extract_information].  A fault while reading the text of a file is
    not caught: it leaves the iteration and ends the batch. *)
Theorem faults_after_reading_are_caught :
  (forall (self : Shipments.t) (p : Path) (l : Locals) (w : World)
          (rawtext : string),
      read_text w p = Ok rawtext ->
      exists l' w' d new,
        Shipments.loop_body self p l w = (Ok l', w') /\
        disposition l l' = Some d /\
        log w' = log w ++ new /\
        (InScope self rawtext -> IsSimple self rawtext ->
         some_pattern_unmatched p rawtext ->
         d = Warning /\
         In (mkLog WARNING
               "{textfile} did not match the regular expression patterns!!"
               []) new)) /\
  (forall (self : Shipments.t) (p dst : Path) (w : World),
      exists w',
        Shipments._move_file_safely self p dst w = (Ok tt, w') /\
        (rename_outcome w p dst = Some PermissionError ->
         In (mkLog ERROR "File in use. File could not be moved. File:{}"
                   [AStr (name p)]) (log w')) /\
        (rename_outcome w p dst = Some FileNotFoundError ->
         In (mkLog ERROR "File was not found. {}" [AStr (name p)])
            (log w'))) /\
  (forall (self : Shipments.t) (w : World),
      (forall p, In p (glob_txt w (Shipments.source self)) ->
                 exists rawtext, read_text w p = Ok rawtext) ->
      exists r w', Shipments.extract_information self w = (Ok r, w')) /\
  (forall (self : Shipments.t) (w : World) (pre : list Path) (p : Path)
          (post : list Path) (e : Exception),
      glob_txt w (Shipments.source self) = pre ++ p :: post ->
      (forall q, In q pre -> exists rawtext, read_text w q = Ok rawtext) ->
      read_text w p = Raise e ->
      exists w', Shipments.extract_information self w = (Raise e, w')).
Proof.
  split; [|split; [|split]].
  - intros self p l w rawtext Hr.
    destruct (loop_body_returns self p l w rawtext Hr)
      as (l' & w' & calls & new & d & E & (_ & _ & _ & Hlog) & It).
    exists l', w', d, new. split; [exact E|].
    split; [exact (iteration_disposition self p rawtext l l' d It)|].
    split; [exact Hlog|].
    intros Hs Hsimple Hnone.
    pose proof (in_scope_and_simple_intro self rawtext Hs Hsimple) as Hss.
    destruct (loop_body_unmatched self p l w rawtext Hr Hss Hnone)
      as (w2 & new2 & E2 & (_ & _ & _ & Hlog2) & _).
    rewrite E in E2. inversion E2; subst l' w2.
    rewrite Hlog in Hlog2. apply app_inv_head in Hlog2. subst new.
    split.
    + pose proof (iteration_disposition _ _ _ _ _ _ It) as D1.
      pose proof (iteration_disposition self p rawtext l _ Warning
                    (@it_unmatched self p rawtext l Hss Hnone)) as D2.
      congruence.
    + cbn. auto.
  - intros self p dst w.
    destruct (move_file_safely_returns self p dst w)
      as (w' & E & (_ & _ & _ & Hlog)).
    exists w'. split; [exact E|].
    split; intros Ho; rewrite Ho in Hlog; rewrite Hlog;
      apply in_or_app; right; cbn; auto.
  - intros self w Hread.
    rewrite extract_information_unfold.
    destruct (loop_returns self _ (mkLocals [] 0 0 0 0) w Hread)
      as (l' & w' & E).
    rewrite E. eauto.
  - intros self w pre p post e Hglob Hread Hp.
    rewrite extract_information_unfold, Hglob.
    destruct (loop_aborts self pre p post (mkLocals [] 0 0 0 0) w e
                Hread Hp) as (w' & E).
    rewrite E. eauto.
Qed.

Lemma faults_after_reading_are_caught_witness :
  (exists l' w' d new,
      Shipments.loop_body default_settings log_00126
                          (mkLocals [] 0 0 0 0) example_world
      = (Ok l', w') /\
      disposition (mkLocals [] 0 0 0 0) l' = Some d /\
      log w' = [] ++ new /\
      (InScope default_settings text_00126 ->
       IsSimple default_settings text_00126 ->
       some_pattern_unmatched log_00126 text_00126 ->
       d = Warning /\
       In (mkLog WARNING
             "{textfile} did not match the regular expression patterns!!"
             []) new)) /\
  (exists r w',
      Shipments.extract_information default_settings example_world
      = (Ok r, w')) /\
  (exists w',
      Shipments.extract_information default_settings unreadable_world
      = (Raise (OtherError "UnicodeDecodeError"), w')).
Proof.
  split; [|split].
  - apply (proj1 faults_after_reading_are_caught default_settings
                 log_00126 (mkLocals [] 0 0 0 0) example_world text_00126).
    reflexivity.
  - apply (proj1 (proj2 (proj2 faults_after_reading_are_caught))
                 default_settings example_world).
    intros p Hp. cbn in Hp.
    repeat (destruct Hp as [<-|Hp]; [eexists; reflexivity|]).
    destruct Hp.
  - apply (proj2 (proj2 (proj2 faults_after_reading_are_caught))
                 default_settings unreadable_world [] log_00124
                 [log_00123] (OtherError "UnicodeDecodeError")).
    + reflexivity.
    + intros q [].
    + reflexivity.
Defined.

(** A move that fails with any other exception returns normally and
    leaves only the debug record of the attempt. *)
Lemma move_other_failure_log (self : Shipments.t) (p dst : Path)
      (w : World) (cls : string) :
  rename_outcome w p dst = Some (OtherError cls) ->
  exists w',
    Shipments._move_file_safely self p dst w = (Ok tt, w') /\
    log w' = log w ++
             [mkLog DEBUG "File is moved: {} -> {}" [APath p; APath dst]].
Proof.
  intros Ho.
  destruct (move_file_safely_returns self p dst w)
    as (w' & E & (_ & _ & _ & Hlog)).
  exists w'. split; [exact E|]. now rewrite Ho in Hlog.
Qed.

(** C8, at a failing input.  Moving [log_00126.txt] to the warning
    directory fails with an [OSError] that is neither [PermissionError]
    nor [FileNotFoundError]: [_move_file_safely] returns normally, and
    the log holds the debug record of the attempt and no record of the
    failure. *)
Theorem other_move_failure_is_not_logged :
  rename_outcome example_world log_00126 ["warning"; "log_00126.txt"]
  = Some (OtherError "OSError") /\
  exists w',
    Shipments._move_file_safely default_settings log_00126
                                ["warning"; "log_00126.txt"] example_world
    = (Ok tt, w') /\
    rename_calls w' = [(log_00126, ["warning"; "log_00126.txt"])] /\
    log w' = [mkLog DEBUG "File is moved: {} -> {}"
                    [APath log_00126;
                     APath ["warning"; "log_00126.txt"]]] /\
    Forall (fun r => levelname r <> ERROR) (log w').
Proof.
  split; [reflexivity|].
  eexists. split; [reflexivity|]. cbn.
  split; [reflexivity|]. split; [reflexivity|].
  repeat constructor. discriminate.
Qed.

(** C10. When the loop ends, the total equals processed plus skipped
    plus warnings, and equals the number of files listed; every iteration
    that returns adds one to the total and one to exactly one of the other
    three counters; the summary [extract_information] logs carries these
    counts. *)
Theorem counters_partition_files :
  (forall (self : Shipments.t) (w : World) (l : Locals) (w' : World),
      Shipments.batch_loop self w = (Ok l, w') ->
      total_count l
      = processed_count l + skipped_count l + warnings_count l /\
      total_count l = length (glob_txt w (Shipments.source self))) /\
  (forall (self : Shipments.t) (p : Path) (l : Locals) (w : World)
          (l' : Locals) (w' : World),
      Shipments.loop_body self p l w = (Ok l', w') ->
      total_count l' = total_count l + 1 /\
      exists d, disposition l l' = Some d) /\
  (forall (self : Shipments.t) (w : World) (r : Shipments.t * DataFrame)
          (w' : World),
      Shipments.extract_information self w = (Ok r, w') ->
      exists t pr sk wa,
        In (mkLog INFO
              "Total files handled: {total_count} Processed files: {processed_count} Skipped files: {skipped_count} Warnings:{warnings_count}"
              [ANat t; ANat pr; ANat sk; ANat wa]) (log w') /\
        t = pr + sk + wa /\
        t = length (glob_txt w (Shipments.source self))).
Proof.
  assert (Loop :
    forall (self : Shipments.t) (w : World) (l : Locals) (w' : World),
      for_each (glob_txt w (Shipments.source self))
               (Shipments.loop_body self) (mkLocals [] 0 0 0 0) w
      = (Ok l, w') ->
      total_count l
      = processed_count l + skipped_count l + warnings_count l /\
      total_count l = length (glob_txt w (Shipments.source self))).
  { intros self w l w' H.
    destruct (loop_invariant self _ _ _ _ _ H) as (_ & _ & T & S & _).
    cbn in T, S. lia. }
  split; [|split].
  - intros self w l w' H. exact (Loop self w l w' H).
  - intros self p l w l' w' H.
    destruct (read_text w p) as [rawtext|e] eqn:Hr.
    + destruct (loop_body_returns self p l w rawtext Hr)
        as (l1 & w1 & calls & new & d & E & _ & It).
      rewrite E in H. inversion H; subst l1 w1.
      split; [apply (iteration_counts self p rawtext l l' d It)|].
      exists d. exact (iteration_disposition self p rawtext l l' d It).
    + rewrite (loop_body_unreadable self p l w e Hr) in H. discriminate.
  - intros self w r w' H.
    rewrite extract_information_unfold in H.
    destruct (for_each _ _ _ w) as [[l|e] w1] eqn:E; [|discriminate].
    inversion H; subst.
    destruct (Loop self w l w1 E) as [Hsum Hlen].
    exists (total_count l), (processed_count l), (skipped_count l),
      (warnings_count l).
    split; [|split; assumption].
    cbn. apply in_or_app. right. now left.
Qed.

Lemma counters_partition_files_witness :
  total_count example_locals
  = processed_count example_locals + skipped_count example_locals
    + warnings_count example_locals /\
  total_count example_locals
  = length (glob_txt example_world (Shipments.source moving_settings)).
Proof.
  apply (proj1 counters_partition_files moving_settings example_world
               example_locals
               (snd (Shipments.batch_loop moving_settings example_world))).
  vm_compute. reflexivity.
Defined.

(** * Further properties of the pipeline *)

(** ** One iteration, classified *)

Lemma count_level_app (lvl : Level) (a b : list LogRecord) :
  count_level lvl (a ++ b) = count_level lvl a + count_level lvl b.
Proof.
  unfold count_level. now rewrite filter_app, length_app.
Qed.

Lemma all_patterns_match_true (p : Path) (rawtext : string) :
  all_patterns_match p rawtext = true ->
  exists a la b lb c lc d ld,
    findall reference_id_re (name p) = a :: la /\
    findall job_number_re rawtext = b :: lb /\
    findall distribution_order_number_re rawtext = c :: lc /\
    findall airwaybill_re rawtext = d :: ld.
Proof.
  unfold all_patterns_match.
  destruct (findall reference_id_re (name p)) as [|a la];
    [discriminate|].
  destruct (findall job_number_re rawtext) as [|b lb]; [discriminate|].
  destruct (findall distribution_order_number_re rawtext) as [|c lc];
    [discriminate|].
  destruct (findall airwaybill_re rawtext) as [|d ld]; [discriminate|].
  intros _. now exists a, la, b, lb, c, lc, d, ld.
Qed.

Lemma all_patterns_match_false (p : Path) (rawtext : string) :
  all_patterns_match p rawtext = false <->
  some_pattern_unmatched p rawtext.
Proof.
  unfold all_patterns_match, some_pattern_unmatched.
  destruct (findall reference_id_re (name p)) as [|a la];
    [intuition|].
  destruct (findall job_number_re rawtext) as [|b lb]; [intuition|].
  destruct (findall distribution_order_number_re rawtext) as [|c lc];
    [intuition|].
  destruct (findall airwaybill_re rawtext) as [|d ld]; [intuition|].
  split; [discriminate|]. intros [H|[H|[H|H]]]; discriminate.
Qed.

Lemma simple_check (self : Shipments.t) (rawtext : string) :
  Shipments.warn_if_more_than_1Detail self = false \/
  str_in "1Details" rawtext = true ->
  Shipments.warn_if_more_than_1Detail self
  && negb (str_in "1Details" rawtext) = false.
Proof.
  intros [-> | ->]; [reflexivity | now rewrite andb_false_r].
Qed.

(** The disposition of an iteration and the rows it adds are those of
    [triage] and [rows_for]. *)
Lemma iteration_triage (self : Shipments.t) (p : Path) (rawtext : string)
      (l l' : Locals) (d : Disposition) :
  iteration self p rawtext l l' d ->
  d = triage self p rawtext /\
  df l' = df l ++ rows_for self p rawtext.
Proof.
  intros H. unfold rows_for, triage. destruct H as
      [Hs | Hs Ht Hd | [Hs Hsimple] Hnone
       | a la b lb c lc d ld [Hs Hsimple] Ha Hb Hc Hd]; cbn [df].
  - rewrite Hs. now rewrite app_nil_r.
  - rewrite Hs, Ht, Hd. cbn. now rewrite app_nil_r.
  - rewrite Hs, (simple_check self rawtext Hsimple).
    apply all_patterns_match_false in Hnone. rewrite Hnone.
    now rewrite app_nil_r.
  - rewrite Hs, (simple_check self rawtext Hsimple).
    unfold all_patterns_match. rewrite Ha, Hb, Hc, Hd. cbn. auto.
Qed.

(** A move under a toggle logs nothing at warning or info level. *)
Lemma guarded_move_trace (b : bool) (self : Shipments.t) (p d : Path)
      (w : World) :
  exists w' new,
    (if b then Shipments._move_file_safely self p d else ret tt) w
    = (Ok tt, w') /\
    extends w w' (if b then [(p, d)] else []) new /\
    count_level WARNING new = 0 /\
    count_level INFO new = 0.
Proof.
  destruct b.
  - destruct (move_file_safely_returns self p d w) as (w' & E & X).
    exists w'. eexists. split; [exact E|]. split; [exact X|].
    destruct (rename_outcome w p d) as [[| | | |cls]|]; split; reflexivity.
  - exists w, []. split; [reflexivity|]. split; [apply extends_refl|].
    split; reflexivity.
Qed.

(** An iteration on a readable file, with everything it does: the local
    variables, the calls to [os.rename] and the warnings logged. *)
Lemma loop_body_classified (self : Shipments.t) (p : Path) (l : Locals)
      (w : World) (rawtext : string) :
  read_text w p = Ok rawtext ->
  exists l' w' new,
    Shipments.loop_body self p l w = (Ok l', w') /\
    iteration self p rawtext l l' (triage self p rawtext) /\
    extends w w' (calls_for self p rawtext) new /\
    count_level WARNING new
    = (if disposition_eqb (triage self p rawtext) Warning then 1 else 0) /\
    count_level INFO new = 0.
Proof.
  intros Hr. unfold Shipments.loop_body, bind at 1, open_read.
  rewrite Hr. unfold calls_for, triage.
  destruct (str_in (Shipments.process_criteria self) rawtext) eqn:Hs.
  - unfold bind at 1. rewrite check_if_1Details_unfold.
    destruct (Shipments.warn_if_more_than_1Detail self
              && negb (str_in "1Details" rawtext)) eqn:Hc.
    + apply andb_true_iff in Hc as [Ht Hd].
      apply negb_true_iff in Hd. unfold bind.
      unfold Shipments._file_could_not_be_handled.
      match goal with
      | |- context [(if ?t then Shipments._move_file_safely self p ?q
                     else ret tt) ?w1] =>
          destruct (guarded_move_trace t self p q w1)
            as (w' & new & E & X & W & I)
      end.
      rewrite E. do 3 eexists. split; [reflexivity|].
      split; [now apply it_more_than_1Detail|].
      split; [exact (extends_trans _ _ _ _ _ _ _ (extends_log w _) X)|].
      rewrite !count_level_app, W, I. split; reflexivity.
    + assert (Hsimple : in_scope_and_simple self rawtext).
      { split; [exact Hs|].
        destruct (Shipments.warn_if_more_than_1Detail self); [|now left].
        right. cbn in Hc. now apply negb_false_iff in Hc. }
      unfold bind at 1.
      destruct (all_patterns_match p rawtext) eqn:Hm.
      * destruct (all_patterns_match_true p rawtext Hm)
          as (a & la & b & lb & c & lc & d & ld & Ha & Hb & Hc' & Hd).
        rewrite (extract_shipment_info_found self (df l) p rawtext w
                   a la b lb c lc d ld Ha Hb Hc' Hd).
        unfold bind.
        match goal with
        | |- context [(if ?t then Shipments._move_file_safely self p ?q
                       else ret tt) ?w1] =>
            destruct (guarded_move_trace t self p q w1)
              as (w' & new & E & X & W & I)
        end.
        rewrite E. do 3 eexists. split; [reflexivity|].
        split; [eapply it_processed; eassumption|].
        split; [exact (extends_trans _ _ _ _ _ _ _ (extends_log w _) X)|].
        rewrite !count_level_app, W, I. split; reflexivity.
      * pose proof (proj1 (all_patterns_match_false p rawtext) Hm)
          as Hnone.
        rewrite (extract_shipment_info_not_found self (df l) p rawtext w
                   Hnone).
        unfold bind. unfold Shipments._file_could_not_be_handled.
        match goal with
        | |- context [(if ?t then Shipments._move_file_safely self p ?q
                       else ret tt) ?w1] =>
            destruct (guarded_move_trace t self p q w1)
              as (w' & new & E & X & W & I)
        end.
        rewrite E. do 3 eexists. split; [reflexivity|].
        split; [now apply it_unmatched|].
        split; [exact (extends_trans _ _ _ _ _ _ _ (extends_log w _) X)|].
        rewrite !count_level_app, W, I. split; reflexivity.
  - unfold bind.
    match goal with
    | |- context [(if ?t then Shipments._move_file_safely self p ?q
                   else ret tt) ?w1] =>
        destruct (guarded_move_trace t self p q w1)
          as (w' & new & E & X & W & I)
    end.
    rewrite E. do 3 eexists. split; [reflexivity|].
    split; [now apply it_skipped|].
    split; [exact X|]. split; assumption.
Qed.

Lemma iteration_counters (self : Shipments.t) (p : Path)
      (rawtext : string) (l l' : Locals) (d : Disposition) :
  iteration self p rawtext l l' d ->
  total_count l' = total_count l + 1 /\
  processed_count l'
  = processed_count l + (if disposition_eqb d Processed then 1 else 0) /\
  skipped_count l'
  = skipped_count l + (if disposition_eqb d Skipped then 1 else 0) /\
  warnings_count l'
  = warnings_count l + (if disposition_eqb d Warning then 1 else 0).
Proof.
  intros H. destruct H; cbn; lia.
Qed.

Lemma over_listing_cons {A : Type} (read : Path -> Result string)
      (f : Path -> string -> list A) (p : Path) (rawtext : string)
      (files : list Path) :
  read p = Ok rawtext ->
  over_listing read f (p :: files)
  = f p rawtext ++ over_listing read f files.
Proof. intros H. unfold over_listing. cbn. now rewrite H. Qed.

Lemma count_disposition_cons (self : Shipments.t)
      (read : Path -> Result string) (d : Disposition) (p : Path)
      (rawtext : string) (files : list Path) :
  read p = Ok rawtext ->
  count_disposition self read d (p :: files)
  = (if disposition_eqb (triage self p rawtext) d then 1 else 0)
    + count_disposition self read d files.
Proof.
  intros H. unfold count_disposition.
  rewrite (over_listing_cons _ _ p rawtext files H), length_app.
  now destruct (disposition_eqb (triage self p rawtext) d).
Qed.

(** ** The loop, whatever its outcome

    The loop goes through the listing up to its end or up to the first
    file that cannot be read; [done] are the files it went through. *)
Lemma loop_trace (self : Shipments.t) (xs : list Path) :
  forall (l : Locals) (w : World) (res : Result Locals) (w' : World),
    for_each xs (Shipments.loop_body self) l w = (res, w') ->
    exists done rest new,
      xs = done ++ rest /\
      (forall p, In p done -> exists rawtext, read_text w p = Ok rawtext) /\
      extends w w' (over_listing (read_text w) (calls_for self) done) new /\
      count_level INFO new = 0 /\
      count_level WARNING new
      = count_disposition self (read_text w) Warning done /\
      (forall l', res = Ok l' ->
         rest = [] /\
         df l' = df l ++ over_listing (read_text w) (rows_for self) done /\
         total_count l' = total_count l + length done /\
         processed_count l'
         = processed_count l
           + count_disposition self (read_text w) Processed done /\
         skipped_count l'
         = skipped_count l
           + count_disposition self (read_text w) Skipped done /\
         warnings_count l'
         = warnings_count l
           + count_disposition self (read_text w) Warning done) /\
      (forall e, res = Raise e ->
         exists p rest', rest = p :: rest' /\ read_text w p = Raise e).
Proof.
  induction xs as [|x xs IH]; intros l w res w' H.
  - inversion H; subst. exists [], [], [].
    split; [reflexivity|]. split; [intros p []|].
    split; [apply extends_refl|]. split; [reflexivity|].
    split; [reflexivity|]. split; [|discriminate].
    intros l' E. inversion E; subst. cbn.
    rewrite app_nil_r. repeat split; lia.
  - rewrite for_each_cons in H.
    destruct (read_text w x) as [rawtext|e] eqn:Hr.
    + destruct (loop_body_classified self x l w rawtext Hr)
        as (l1 & w1 & new1 & E & It & X1 & W1 & I1).
      rewrite E in H.
      destruct (IH l1 w1 res w' H)
        as (done & rest & new & Hxs & Hread & X & I & W & Hok & Hraise).
      pose proof X1 as ((_ & Hsame & _) & _).
      rewrite Hsame in Hread, X, W, Hok, Hraise.
      exists (x :: done), rest, (new1 ++ new).
      split; [cbn; now rewrite Hxs|].
      split; [intros p [<-|Hp]; eauto|].
      rewrite (over_listing_cons _ _ x rawtext done Hr).
      split; [exact (extends_trans _ _ _ _ _ _ _ X1 X)|].
      rewrite !count_level_app, I1, I, W1, W.
      rewrite (count_disposition_cons self _ Warning x rawtext done Hr).
      split; [reflexivity|]. split; [reflexivity|].
      split; [|exact Hraise].
      intros l' El. destruct (Hok l' El) as (Hrest & Hdf & Ht & Hp & Hs & Hw).
      destruct (iteration_triage self x rawtext l l1 _ It) as [_ Hdf1].
      destruct (iteration_counters self x rawtext l l1 _ It)
        as (T1 & P1 & S1 & W1').
      rewrite (over_listing_cons _ _ x rawtext done Hr).
      rewrite !(count_disposition_cons self _ _ x rawtext done Hr).
      split; [exact Hrest|].
      split; [now rewrite Hdf, Hdf1, app_assoc|].
      cbn [length]. repeat split; lia.
    + rewrite (loop_body_unreadable self x l w e Hr) in H.
      inversion H; subst. exists [], (x :: xs), [].
      split; [reflexivity|]. split; [intros p []|].
      split; [apply extends_refl|]. split; [reflexivity|].
      split; [reflexivity|]. split; [discriminate|].
      intros e' E. inversion E; subst. now exists x, xs.
Qed.

Lemma rows_for_length (self : Shipments.t) (read : Path -> Result string)
      (files : list Path) :
  length (over_listing read (rows_for self) files)
  = count_disposition self read Processed files.
Proof.
  unfold count_disposition, over_listing.
  induction files as [|p files IH]; [reflexivity|].
  cbn [flat_map]. rewrite !length_app, IH. f_equal.
  destruct (read p) as [rawtext|e]; [|reflexivity].
  unfold rows_for. now destruct (triage self p rawtext).
Qed.

Lemma calls_for_no_toggle (self : Shipments.t)
      (read : Path -> Result string) (files : list Path) :
  Shipments.move_processed self = false ->
  Shipments.move_skipped self = false ->
  Shipments.move_undhandled_files_to_warning self = false ->
  over_listing read (calls_for self) files = [].
Proof.
  intros Hp Hs Hw. unfold over_listing.
  induction files as [|p files IH]; [reflexivity|].
  cbn [flat_map]. rewrite IH, app_nil_r.
  destruct (read p) as [rawtext|e]; [|reflexivity].
  unfold calls_for. rewrite Hp, Hs, Hw.
  now destruct (triage self p rawtext).
Qed.

Lemma str_in_empty (s : string) : str_in "" s = true.
Proof. rewrite str_in_eq. now destruct s. Qed.

Lemma count_skipped_empty_marker (self : Shipments.t)
      (read : Path -> Result string) (files : list Path) :
  Shipments.process_criteria self = "" ->
  count_disposition self read Skipped files = 0.
Proof.
  intros Hm. unfold count_disposition, over_listing.
  induction files as [|p files IH]; [reflexivity|].
  cbn [flat_map]. rewrite length_app, IH, Nat.add_0_r.
  destruct (read p) as [rawtext|e]; [|reflexivity].
  unfold triage. rewrite Hm, str_in_empty.
  now destruct (_ && _); [|destruct (all_patterns_match p rawtext)].
Qed.

Lemma batch_loop_unfold (self : Shipments.t) (w : World) :
  Shipments.batch_loop self w
  = for_each (glob_txt w (Shipments.source self))
             (Shipments.loop_body self) (mkLocals [] 0 0 0 0) w.
Proof. reflexivity. Qed.

(** X1. The data frame [extract_information] returns holds, in the order
    of the listing, one row for each listed file that is processed and
    nothing else. *)
Theorem report_follows_listing :
  forall (self : Shipments.t) (w : World) (d : DataFrame),
    report self w = Some d ->
    d = over_listing (read_text w) (rows_for self)
                     (glob_txt w (Shipments.source self)) /\
    length d
    = count_disposition self (read_text w) Processed
                        (glob_txt w (Shipments.source self)).
Proof.
  intros self w d H. unfold report in H.
  rewrite extract_information_unfold in H.
  destruct (for_each _ _ _ w) as [[l|e] w1] eqn:E; cbn in H;
    [|discriminate].
  inversion H; subst d.
  destruct (loop_trace self _ _ _ _ _ E)
    as (done & rest & new & Hxs & _ & _ & _ & _ & Hok & _).
  destruct (Hok l eq_refl) as (-> & Hdf & _).
  rewrite app_nil_r in Hxs. subst done. cbn in Hdf.
  split; [exact Hdf|]. rewrite Hdf. apply rows_for_length.
Qed.

Lemma report_follows_listing_witness :
  [row_first;
   Row.mk "00127" "JOB460" "DO792" "AWB005" log_00127
          ["UNC_processed"; "log_00127_2.txt"]]
  = over_listing (read_text example_world) (rows_for default_settings)
                 (glob_txt example_world
                           (Shipments.source default_settings)) /\
  2 = count_disposition default_settings (read_text example_world)
                        Processed
                        (glob_txt example_world
                                  (Shipments.source default_settings)).
Proof.
  apply (report_follows_listing default_settings example_world
           [row_first;
            Row.mk "00127" "JOB460" "DO792" "AWB005" log_00127
                   ["UNC_processed"; "log_00127_2.txt"]]).
  vm_compute. reflexivity.
Defined.

(** X2. When the loop ends, each counter is the number of listed files
    with its disposition, and the processed counter is the number of
    rows of the data frame. *)
Theorem counters_count_dispositions :
  forall (self : Shipments.t) (w : World) (l : Locals) (w' : World),
    Shipments.batch_loop self w = (Ok l, w') ->
    processed_count l
    = count_disposition self (read_text w) Processed
                        (glob_txt w (Shipments.source self)) /\
    skipped_count l
    = count_disposition self (read_text w) Skipped
                        (glob_txt w (Shipments.source self)) /\
    warnings_count l
    = count_disposition self (read_text w) Warning
                        (glob_txt w (Shipments.source self)) /\
    length (df l) = processed_count l.
Proof.
  intros self w l w' H. rewrite batch_loop_unfold in H.
  destruct (loop_trace self _ _ _ _ _ H)
    as (done & rest & new & Hxs & _ & _ & _ & _ & Hok & _).
  destruct (Hok l eq_refl) as (-> & Hdf & _ & Hp & Hs & Hw).
  rewrite app_nil_r in Hxs. subst done. cbn in Hdf, Hp, Hs, Hw.
  repeat split; try assumption.
  rewrite Hdf, Hp. apply rows_for_length.
Qed.

Lemma counters_count_dispositions_witness :
  processed_count example_locals
  = count_disposition moving_settings (read_text example_world) Processed
      (glob_txt example_world (Shipments.source moving_settings)) /\
  skipped_count example_locals
  = count_disposition moving_settings (read_text example_world) Skipped
      (glob_txt example_world (Shipments.source moving_settings)) /\
  warnings_count example_locals
  = count_disposition moving_settings (read_text example_world) Warning
      (glob_txt example_world (Shipments.source moving_settings)) /\
  length (df example_locals) = processed_count example_locals.
Proof.
  apply (counters_count_dispositions moving_settings example_world
           example_locals
           (snd (Shipments.batch_loop moving_settings example_world))).
  vm_compute. reflexivity.
Defined.

(** X3. Whether [extract_information] returns or raises, the calls to
    [os.rename] it made are, in the order of the listing, those of the
    files it went through: one call per file whose disposition has its
    move toggle on, to the directory of that disposition and under the
    name of the file.  It writes no CSV file, and when it returns it went
    through the whole listing. *)
Theorem renames_follow_dispositions :
  forall (self : Shipments.t) (w : World)
         (res : Result (Shipments.t * DataFrame)) (w' : World),
    Shipments.extract_information self w = (res, w') ->
    exists done rest,
      glob_txt w (Shipments.source self) = done ++ rest /\
      rename_calls w'
      = rename_calls w
        ++ over_listing (read_text w) (calls_for self) done /\
      csv_files w' = csv_files w /\
      (forall r, res = Ok r -> rest = []) /\
      (forall e, res = Raise e ->
         exists p rest', rest = p :: rest' /\ read_text w p = Raise e).
Proof.
  intros self w res w' H. rewrite extract_information_unfold in H.
  destruct (for_each _ _ _ w) as [r1 w1] eqn:E.
  destruct (loop_trace self _ _ _ _ _ E)
    as (done & rest & new & Hxs & _ & (_ & Hcalls & Hcsv & _) & _ & _
        & Hok & Hraise).
  exists done, rest. split; [exact Hxs|].
  destruct r1 as [l|e]; inversion H; subst; cbn.
  - destruct (Hok l eq_refl) as (Hrest & _).
    repeat split; try assumption; [intros; assumption | discriminate].
  - repeat split; try assumption; [discriminate|].
    intros e' He. inversion He; subst e'. exact (Hraise e eq_refl).
Qed.

Lemma renames_follow_dispositions_witness :
  exists done rest,
    glob_txt example_world (Shipments.source moving_settings)
    = done ++ rest /\
    rename_calls
      (snd (Shipments.extract_information moving_settings example_world))
    = rename_calls example_world
      ++ over_listing (read_text example_world)
                      (calls_for moving_settings) done /\
    csv_files
      (snd (Shipments.extract_information moving_settings example_world))
    = csv_files example_world /\
    (forall r,
        fst (Shipments.extract_information moving_settings example_world)
        = Ok r -> rest = []) /\
    (forall e,
        fst (Shipments.extract_information moving_settings example_world)
        = Raise e ->
        exists p rest',
          rest = p :: rest' /\ read_text example_world p = Raise e).
Proof.
  apply (renames_follow_dispositions moving_settings example_world).
  apply surjective_pairing.
Defined.

(** X4. With the three move toggles off, [extract_information] never
    calls [os.rename], whether it returns or raises. *)
Theorem no_toggle_no_rename :
  forall (self : Shipments.t) (w : World)
         (res : Result (Shipments.t * DataFrame)) (w' : World),
    Shipments.move_processed self = false ->
    Shipments.move_skipped self = false ->
    Shipments.move_undhandled_files_to_warning self = false ->
    Shipments.extract_information self w = (res, w') ->
    rename_calls w' = rename_calls w.
Proof.
  intros self w res w' Hp Hs Hw H.
  rewrite extract_information_unfold in H.
  destruct (for_each _ _ _ w) as [r1 w1] eqn:E.
  destruct (loop_trace self _ _ _ _ _ E)
    as (done & rest & new & _ & _ & (_ & Hcalls & _) & _).
  rewrite (calls_for_no_toggle self _ done Hp Hs Hw), app_nil_r in Hcalls.
  destruct r1 as [l|e]; inversion H; subst; exact Hcalls.
Qed.

Lemma no_toggle_no_rename_witness :
  rename_calls
    (snd (Shipments.extract_information quiet_settings example_world))
  = rename_calls example_world.
Proof.
  apply (no_toggle_no_rename quiet_settings example_world
           (fst (Shipments.extract_information quiet_settings
                                               example_world))).
  - reflexivity.
  - reflexivity.
  - reflexivity.
  - apply surjective_pairing.
Defined.

(** X5. When the loop ends, the number of warning-level records it
    logged is the warnings counter: every file with disposition Warning
    has its own warning record and nothing else is logged at that level;
    the loop logs nothing at info level. *)
Theorem warnings_are_logged_once_each :
  forall (self : Shipments.t) (w : World) (l : Locals) (w' : World),
    Shipments.batch_loop self w = (Ok l, w') ->
    exists new,
      log w' = log w ++ new /\
      count_level WARNING new = warnings_count l /\
      count_level INFO new = 0.
Proof.
  intros self w l w' H. rewrite batch_loop_unfold in H.
  destruct (loop_trace self _ _ _ _ _ H)
    as (done & rest & new & _ & _ & (_ & _ & _ & Hlog) & I & W & Hok & _).
  destruct (Hok l eq_refl) as (_ & _ & _ & _ & _ & Hw).
  exists new. split; [exact Hlog|]. split; [|exact I].
  rewrite W, Hw. reflexivity.
Qed.

Lemma warnings_are_logged_once_each_witness :
  exists new,
    log (snd (Shipments.batch_loop moving_settings example_world))
    = log example_world ++ new /\
    count_level WARNING new = warnings_count example_locals /\
    count_level INFO new = 0.
Proof.
  apply (warnings_are_logged_once_each moving_settings example_world
           example_locals
           (snd (Shipments.batch_loop moving_settings example_world))).
  vm_compute. reflexivity.
Defined.

(** X6. With an empty [process_criteria] every text contains the marker:
    when the loop ends, no file has been skipped. *)
Theorem empty_marker_skips_nothing :
  forall (self : Shipments.t) (w : World) (l : Locals) (w' : World),
    Shipments.process_criteria self = "" ->
    Shipments.batch_loop self w = (Ok l, w') ->
    skipped_count l = 0 /\
    total_count l = processed_count l + warnings_count l.
Proof.
  intros self w l w' Hm H. rewrite batch_loop_unfold in H.
  destruct (loop_trace self _ _ _ _ _ H)
    as (done & rest & new & _ & _ & _ & _ & _ & Hok & _).
  destruct (Hok l eq_refl) as (_ & _ & _ & _ & Hs & _).
  rewrite (count_skipped_empty_marker self _ done Hm) in Hs.
  cbn in Hs. split; [exact Hs|].
  destruct (loop_invariant self _ _ _ _ _ H) as (_ & _ & T & S & _).
  cbn in T, S. lia.
Qed.

Lemma empty_marker_skips_nothing_witness :
  skipped_count
    (mkLocals [row_first;
               Row.mk "00124" "JOB457" "DO790" "AWB002" log_00124
                      ["UNC_processed"; "log_00124.txt"];
               Row.mk "00127" "JOB460" "DO792" "AWB005" log_00127
                      ["UNC_processed"; "log_00127_2.txt"]]
              5 3 0 2) = 0 /\
  5 = 3 + 2.
Proof.
  apply (empty_marker_skips_nothing unfiltered_settings example_world
           (mkLocals [row_first;
                      Row.mk "00124" "JOB457" "DO790" "AWB002" log_00124
                             ["UNC_processed"; "log_00124.txt"];
                      Row.mk "00127" "JOB460" "DO792" "AWB005" log_00127
                             ["UNC_processed"; "log_00127_2.txt"]]
                     5 3 0 2)
           (snd (Shipments.batch_loop unfiltered_settings example_world))).
  - reflexivity.
  - vm_compute. reflexivity.
Defined.

(** ** What the patterns need and what they capture *)

Lemma append_nil_r (a : string) : (a ++ "")%string = a.
Proof. induction a as [|c a IH]; cbn; [reflexivity | now rewrite IH]. Qed.

Lemma Substring_inside (sub t pre post : string) :
  Substring sub t -> Substring sub (pre ++ t ++ post).
Proof.
  intros (a & b & ->). exists (pre ++ a)%string, (b ++ post)%string.
  now rewrite !append_assoc.
Qed.

(** A first match is a text of the pattern somewhere in the input. *)
Lemma findall_cons_in_lang (r : regex) (s v : string) (vs : list string) :
  findall r s = v :: vs ->
  exists pre t post : string,
    s = (pre ++ t ++ post)%string /\ in_lang r t.
Proof.
  intros H.
  destruct (findall_cons_leftmost r s v vs H)
    as (n & m & Hn & Hm & _ & _).
  apply match_at_sound in Hm as [Hs L].
  destruct (drop_split n s Hn) as (pre & Hpre & _).
  exists pre, (group0 m), (rest m). split; [|exact L].
  now rewrite <- Hs.
Qed.

Lemma reference_id_text (t : string) :
  in_lang reference_id_re t -> Substring "_" t.
Proof.
  intros (t1 & t2 & -> & -> & _). exists "", t2. reflexivity.
Qed.

Lemma job_number_text (t : string) :
  in_lang job_number_re t -> Substring "Shipment:" t.
Proof.
  intros (t1 & t2 & -> & -> & _). exists "", t2. reflexivity.
Qed.

Lemma distribution_order_number_text (t : string) :
  in_lang distribution_order_number_re t ->
  exists ws w1 w2 : string,
    t = ("Shipment:" ++ ws ++ w1 ++ "-" ++ w2)%string /\
    run_of py_space ws /\ run_of py_word w1 /\ run_of py_word w2.
Proof.
  intros (t1 & t2 & -> & -> & t3 & t4 & -> & Hws & t5 & t6 & -> & Hw1
          & t7 & t8 & -> & -> & Hw2).
  now exists t3, t5, t8.
Qed.

Lemma airwaybill_text (t : string) :
  in_lang airwaybill_re t -> Substring "," t.
Proof.
  intros (t1 & t2 & -> & -> & _). exists "", t2. reflexivity.
Qed.

(** X7. A file is processed only if its name contains an underscore and
    its text contains ["Shipment:"], a hyphen and a comma. *)
Theorem processed_needs_name_and_text :
  forall (self : Shipments.t) (p : Path) (l : Locals) (w : World)
         (rawtext : string) (l' : Locals) (w' : World),
    read_text w p = Ok rawtext ->
    Shipments.loop_body self p l w = (Ok l', w') ->
    disposition l l' = Some Processed ->
    Substring "_" (name p) /\
    Substring "Shipment:" rawtext /\
    Substring "-" rawtext /\
    Substring "," rawtext.
Proof.
  intros self p l w rawtext l' w' Hr H Hd.
  destruct (loop_body_classified self p l w rawtext Hr)
    as (l1 & w1 & new & E & It & _).
  rewrite E in H. inversion H; subst l1 w1.
  rewrite (iteration_disposition self p rawtext l l' _ It) in Hd.
  inversion Hd as [Ht]. unfold triage in Ht.
  destruct (str_in _ rawtext); [|discriminate].
  destruct (_ && _); [discriminate|].
  destruct (all_patterns_match p rawtext) eqn:Hm; [|discriminate].
  destruct (all_patterns_match_true p rawtext Hm)
    as (a & la & b & lb & c & lc & d & ld & Ha & Hb & Hc & Hd').
  apply findall_cons_in_lang in Ha as (pa & ta & qa & -> & La).
  apply findall_cons_in_lang in Hb as (pb & tb & qb & Hb & Lb).
  apply findall_cons_in_lang in Hc as (pc & tc & qc & Hc & Lc).
  apply findall_cons_in_lang in Hd' as (pd & td & qd & Hd' & Ld).
  split; [apply Substring_inside, reference_id_text, La|].
  split; [rewrite Hb; apply Substring_inside, job_number_text, Lb|].
  split; [|rewrite Hd'; apply Substring_inside, airwaybill_text, Ld].
  rewrite Hc. apply Substring_inside.
  destruct (distribution_order_number_text tc Lc)
    as (ws & w1 & w2 & -> & _).
  exists ("Shipment:" ++ ws ++ w1)%string, w2.
  now rewrite !append_assoc.
Qed.

Lemma processed_needs_name_and_text_witness :
  Substring "_" (name log_00123) /\
  Substring "Shipment:" text_00123 /\
  Substring "-" text_00123 /\
  Substring "," text_00123.
Proof.
  apply (processed_needs_name_and_text default_settings log_00123
           (mkLocals [] 0 0 0 0) example_world text_00123
           (mkLocals [row_first] 1 1 0 0)
           (snd (Shipments.loop_body default_settings log_00123
                   (mkLocals [] 0 0 0 0) example_world))).
  - reflexivity.
  - vm_compute. reflexivity.
  - reflexivity.
Defined.



Section CaptureFacts.
Variable A : Type.

(** What the matcher hands over as the capture is the capture it was
    given, for a pattern without a group, or a text the group matched. *)
Lemma rmatch_captures (r : regex) :
  forall (s : string) (g : option string) (k : cont A) (a : A),
    rmatch r s g k = Some a ->
    exists (t s' : string) (g' : option string),
      s = (t ++ s')%string /\ in_lang r t /\ k t s' g' = Some a /\
      ((g' = g /\ sets_group r = false) \/
       exists u, g' = Some u /\ captures r t u).
Proof.
  induction r as [l|p|p|r1 IH1 r2 IH2|r IH]; intros s g k a H; cbn in H.
  - destruct (strip_prefix l s) as [s'|] eqn:E; [|discriminate].
    apply strip_prefix_spec in E. exists l, s', g. cbn.
    split; [exact E|]. split; [reflexivity|]. split; [exact H|]. auto.
  - destruct s as [|c s]; [discriminate|].
    destruct (p c) eqn:Hp; [|discriminate].
    exists (String c ""), s, g. cbn.
    split; [reflexivity|]. split; [eauto|]. split; [exact H|]. auto.
  - destruct s as [|c s]; [discriminate|].
    destruct (p c) eqn:Hp; [|discriminate].
    apply star_sound in H as (t & s' & -> & Ht & Hk).
    exists (String c t), s', g. cbn. rewrite Hp, Ht.
    split; [reflexivity|]. split; [split; [discriminate|reflexivity]|].
    split; [exact Hk|]. auto.
  - apply IH1 in H as (t1 & s1 & g1 & -> & L1 & H & G1).
    apply IH2 in H as (t2 & s2 & g2 & -> & L2 & H & G2).
    exists (t1 ++ t2)%string, s2, g2. rewrite append_assoc.
    split; [reflexivity|]. split; [now exists t1, t2|].
    split; [exact H|]. cbn.
    destruct G2 as [[-> S2] | (u & -> & C2)].
    + destruct G1 as [[-> S1] | (u & -> & C1)].
      * left. now rewrite S1, S2.
      * right. exists u. split; [reflexivity|].
        exists t1, t2. split; [reflexivity|]. left. now split.
    + right. exists u. split; [reflexivity|].
      exists t1, t2. split; [reflexivity|]. right. now split.
  - apply IH in H as (t & s' & g' & -> & L & H & _).
    exists t, s', (Some t). cbn.
    split; [reflexivity|]. split; [exact L|]. split; [exact H|].
    right. exists t. auto.
Qed.
End CaptureFacts.

(** What [findall] reports for a match of a pattern with a group is a
    text the group matched. *)
Lemma match_at_captures (r : regex) (s : string) (m : Match) :
  sets_group r = true ->
  match_at r s = Some m ->
  captures r (group0 m) (reported m).
Proof.
  intros Hg H.
  apply rmatch_captures in H as (t & s' & g' & _ & _ & H & G).
  inversion H; subst m. unfold reported. cbn.
  destruct G as [[_ G] | (u & -> & C)]; [congruence | exact C].
Qed.

(** Every element of [findall] is reported for a match at some offset. *)
Lemma findall_from_In (r : regex) (v : string) (s : string) :
  forall skip,
    In v (findall_from r skip s) ->
    exists n m, match_at r (drop n s) = Some m /\ reported m = v.
Proof.
  induction s as [|c s IH]; intros skip H.
  - destruct skip; cbn in H; [|destruct H].
    destruct (match_at r "") as [m|] eqn:E; [|destruct H].
    destruct H as [<-|[]]. now exists 0, m.
  - destruct skip as [|k]; cbn in H.
    + destruct (match_at r (String c s)) as [m|] eqn:E.
      * destruct H as [<-|H]; [now exists 0, m|].
        destruct (IH _ H) as (n & m' & Hm & Hv). now exists (S n), m'.
      * destruct (IH _ H) as (n & m' & Hm & Hv). now exists (S n), m'.
    + destruct (IH _ H) as (n & m' & Hm & Hv). now exists (S n), m'.
Qed.

Lemma findall_captures (r : regex) (s v : string) :
  sets_group r = true ->
  In v (findall r s) ->
  exists t, captures r t v.
Proof.
  intros Hg H. destruct (findall_from_In r v s 0 H) as (n & m & Hm & <-).
  exists (group0 m). exact (match_at_captures r _ m Hg Hm).
Qed.

Lemma reference_id_captures (t u : string) :
  captures reference_id_re t u -> run_of py_digit u.
Proof.
  intros (t1 & t2 & _ & [[[] _] | [_ [H ->]]]). exact H.
Qed.

Lemma job_number_captures (t u : string) :
  captures job_number_re t u -> run_of py_word u.
Proof.
  intros (t1 & t2 & _ & [[[] _] | [_ H]]).
  destruct H as (t3 & t4 & _ & [[[] _] | [_ [H ->]]]). exact H.
Qed.

Lemma distribution_order_number_captures (t u : string) :
  captures distribution_order_number_re t u -> run_of py_word u.
Proof.
  intros (t1 & t2 & _ & [[[] _] | [_ H]]).
  destruct H as (t3 & t4 & _ & [[[] _] | [_ H]]).
  destruct H as (t5 & t6 & _ & [[[] _] | [_ H]]).
  destruct H as (t7 & t8 & _ & [[[] _] | [_ [H ->]]]). exact H.
Qed.

Lemma airwaybill_captures (t u : string) :
  captures airwaybill_re t u -> run_of py_word u.
Proof.
  intros (t1 & t2 & _ & [[[] _] | [_ H]]).
  destruct H as (t3 & t4 & _ & [[[] _] | [_ H]]).
  destruct H as (t5 & t6 & _ & [[[H ->] _] | [_ []]]). exact H.
Qed.

(** X8. In every row of the data frame [extract_information] returns,
    the reference id is a non-empty run of decimal digits, the job
    number, the distribution order number and the airwaybill are
    non-empty runs of word characters, the path is a listed file and the
    UNC path is [UNC_processed] joined with the name of that file. *)
Theorem report_fields_are_well_formed :
  forall (self : Shipments.t) (w : World) (d : DataFrame),
    report self w = Some d ->
    forall row, In row d ->
      run_of py_digit (Row.reference_id row) /\
      run_of py_word (Row.job_number row) /\
      run_of py_word (Row.distribution_order_number row) /\
      run_of py_word (Row.airwaybill row) /\
      In (Row.path row) (glob_txt w (Shipments.source self)) /\
      Row.unc_path row
      = joinpath (Shipments.UNC_processed self) (name (Row.path row)).
Proof.
  intros self w d Hrep row Hin. unfold report in Hrep.
  destruct (Shipments.extract_information self w) as [[[self' d']|e] w']
    eqn:E; cbn in Hrep; [|discriminate].
  inversion Hrep; subst d'.
  destruct (report_rows self w w' self' d E row Hin)
    as (p & t & a & la & b & lb & c & lc & x & lx
        & Hp & _ & _ & Ha & Hb & Hc & Hx & ->).
  cbn.
  assert (Fa : In a (findall reference_id_re (name p)))
    by (rewrite Ha; now left).
  assert (Fb : In b (findall job_number_re t)) by (rewrite Hb; now left).
  assert (Fc : In c (findall distribution_order_number_re t))
    by (rewrite Hc; now left).
  assert (Fx : In x (findall airwaybill_re t)) by (rewrite Hx; now left).
  apply findall_captures in Fa as [ta Ca]; [|reflexivity].
  apply findall_captures in Fb as [tb Cb]; [|reflexivity].
  apply findall_captures in Fc as [tc Cc]; [|reflexivity].
  apply findall_captures in Fx as [tx Cx]; [|reflexivity].
  split; [exact (reference_id_captures ta a Ca)|].
  split; [exact (job_number_captures tb b Cb)|].
  split; [exact (distribution_order_number_captures tc c Cc)|].
  split; [exact (airwaybill_captures tx x Cx)|].
  split; [exact Hp | reflexivity].
Qed.

Lemma report_fields_are_well_formed_witness :
  run_of py_digit (Row.reference_id row_first) /\
  run_of py_word (Row.job_number row_first) /\
  run_of py_word (Row.distribution_order_number row_first) /\
  run_of py_word (Row.airwaybill row_first) /\
  In (Row.path row_first)
     (glob_txt example_world (Shipments.source default_settings)) /\
  Row.unc_path row_first
  = joinpath (Shipments.UNC_processed default_settings)
             (name (Row.path row_first)).
Proof.
  apply (report_fields_are_well_formed default_settings example_world
           [row_first;
            Row.mk "00127" "JOB460" "DO792" "AWB005" log_00127
                   ["UNC_processed"; "log_00127_2.txt"]]).
  - vm_compute. reflexivity.
  - left. reflexivity.
Defined.

(** ** [Shipment.extract] and [extract_shipment_info] as a whole *)

(** X10. [extract] assigns the attributes in the order reference id,
    job number, distribution order number, airwaybill, each the first
    element its pattern finds (the reference id in the file name, the
    others in the text), and stops at the first pattern without a match:
    an attribute is assigned exactly when its pattern and every pattern
    before it has a match, and keeps what it held otherwise.  [extract]
    returns when all four patterns have a match and raises [IndexError]
    otherwise; the file path, the text, the file name and the patterns
    are never changed.  On a new [Shipment] the attributes after the
    first pattern without a match are therefore not assigned. *)
Theorem extract_assigns_in_order :
  forall (self : Shipment.t),
  exists (res : Result unit) (sh : Shipment.t),
    Shipment.extract self = (res, sh) /\
    let a := findall (Shipment.reference_id_pattern self)
                     (Shipment.filename self) in
    let b := findall (Shipment.job_number_pattern self)
                     (Shipment.rawtext self) in
    let c := findall (Shipment.distribution_order_number_p self)
                     (Shipment.rawtext self) in
    let d := findall (Shipment.airwaybill_pattern self)
                     (Shipment.rawtext self) in
    Shipment.reference_id sh
    = assigned true a (Shipment.reference_id self) /\
    Shipment.job_number sh
    = assigned (found a) b (Shipment.job_number self) /\
    Shipment.distribution_order_number sh
    = assigned (found a && found b) c
               (Shipment.distribution_order_number self) /\
    Shipment.airwaybill sh
    = assigned (found a && found b && found c) d
               (Shipment.airwaybill self) /\
    res = (if found a && found b && found c && found d
           then Ok tt else Raise IndexError) /\
    same_input sh self /\
    Shipment.filepath sh = Shipment.filepath self /\
    (forall filepath rawtext,
        self = Shipment.init filepath rawtext ->
        (found a = false -> Shipment.reference_id sh = None) /\
        (found a && found b = false -> Shipment.job_number sh = None) /\
        (found a && found b && found c = false ->
         Shipment.distribution_order_number sh = None) /\
        (found a && found b && found c && found d = false ->
         Shipment.airwaybill sh = None)).
Proof.
  intros self. rewrite extract_unfold. cbn zeta.
  destruct (findall (Shipment.reference_id_pattern self)
                    (Shipment.filename self)) as [|a la];
    [|destruct (findall (Shipment.job_number_pattern self)
                        (Shipment.rawtext self)) as [|b lb];
      [|destruct (findall (Shipment.distribution_order_number_p self)
                          (Shipment.rawtext self)) as [|c lc];
        [|destruct (findall (Shipment.airwaybill_pattern self)
                            (Shipment.rawtext self)) as [|d ld]]]];
    do 2 eexists; (split; [reflexivity|]); cbn; (repeat split);
    try (intros; subst; cbn; first [reflexivity | discriminate]).
Qed.

Lemma extract_assigns_in_order_witness :
  exists sh,
    Shipment.extract (Shipment.init log_00126 text_00126)
    = (Raise IndexError, sh) /\
    Shipment.reference_id sh = Some "00126" /\
    Shipment.job_number sh = Some "JOB459" /\
    Shipment.distribution_order_number sh = None /\
    Shipment.airwaybill sh = None.
Proof.
  pose proof (extract_assigns_in_order (Shipment.init log_00126 text_00126))
    as (res & sh & E & H).
  cbv zeta in H. destruct H as (Ha & Hb & Hc & Hd & Hres & _).
  exists sh. rewrite Hres in E.
  split; [exact E|]. split; [exact Ha|]. split; [exact Hb|].
  split; [exact Hc | exact Hd].
Defined.

(** X11. [extract_shipment_info] never raises, calls [os.rename] never
    and writes no file; it answers [True] exactly when all four patterns
    match, and then returns the data frame with one more row, for the
    file it was given; otherwise it returns the data frame as it got it. *)
Theorem extract_shipment_info_contract :
  forall (self : Shipments.t) (df0 : DataFrame) (p : Path)
         (rawtext : string) (w : World),
  exists d' w' new,
    Shipments.extract_shipment_info self df0 p rawtext w
    = (Ok (d', all_patterns_match p rawtext), w') /\
    extends w w' [] new /\
    d' = df0 ++ (if all_patterns_match p rawtext
                 then [shipment_row self p
                         (hd "" (findall reference_id_re (name p)))
                         (hd "" (findall job_number_re rawtext))
                         (hd "" (findall distribution_order_number_re
                                         rawtext))
                         (hd "" (findall airwaybill_re rawtext))]
                 else []).
Proof.
  intros self df0 p rawtext w.
  destruct (all_patterns_match p rawtext) eqn:Hm.
  - destruct (all_patterns_match_true p rawtext Hm)
      as (a & la & b & lb & c & lc & d & ld & Ha & Hb & Hc & Hd).
    rewrite (extract_shipment_info_found self df0 p rawtext w
               a la b lb c lc d ld Ha Hb Hc Hd).
    do 3 eexists. split; [reflexivity|]. split; [apply extends_log|].
    now rewrite Ha, Hb, Hc, Hd.
  - pose proof (proj1 (all_patterns_match_false p rawtext) Hm) as Hnone.
    rewrite (extract_shipment_info_not_found self df0 p rawtext w Hnone).
    do 3 eexists. split; [reflexivity|]. split; [apply extends_log|].
    now rewrite app_nil_r.
Qed.

(** ** The export *)

Lemma drop_duplicates_seen_id (d : DataFrame) :
  forall seen,
    (forall r, In r d -> ~ In (subset r) seen) ->
    NoDup (map subset d) ->
    drop_duplicates_seen seen d = d.
Proof.
  induction d as [|r d IH]; intros seen Hseen Hnd; [reflexivity|].
  cbn. inversion Hnd as [|k ks Hk Hnd']; subst.
  destruct (existsb (subset_eqb (subset r)) seen) eqn:E.
  - apply seen_In in E. exfalso. apply (Hseen r); [now left | exact E].
  - f_equal. apply IH; [|exact Hnd'].
    intros x Hx [Heq|Hin].
    + apply Hk. rewrite Heq. now apply in_map.
    + apply (Hseen x); [now right | exact Hin].
Qed.

Lemma drop_duplicates_seen_subsequence (d : DataFrame) :
  forall seen, subsequence (drop_duplicates_seen seen d) d.
Proof.
  induction d as [|r d IH]; intros seen; cbn; [constructor|].
  destruct (existsb (subset_eqb (subset r)) seen);
    constructor; apply IH.
Qed.

Lemma subsequence_length {A : Type} (u d : list A) :
  subsequence u d -> length u <= length d.
Proof. induction 1; cbn; lia. Qed.

(** X12. [export_dataframe] writes at most one file, to the parent
    directory under the time stamp and the output file name; the table
    in it keeps the rows of the data frame in their order of arrival: it
    is the data frame with some rows left out, and never longer.  The
    file is written exactly when it can be; otherwise the export raises
    what [to_csv] raises. *)
Theorem export_keeps_arrival_order :
  forall (self : Shipments.t) (now : string) (w : World) (d : DataFrame),
    Shipments.self_df self = Some d ->
    exists res w' written,
      Shipments.export_dataframe self now w = (res, w') /\
      csv_files w' = csv_files w ++ written /\
      rename_calls w' = rename_calls w /\
      length written <= 1 /\
      (forall f u, In (f, u) written ->
                   f = joinpath (Shipments.parent self)
                                (now ++ "_" ++ Shipments.outputfilename self)
                   /\ subsequence u d /\ length u <= length d) /\
      (to_csv_outcome w
         (joinpath (Shipments.parent self)
                   (now ++ "_" ++ Shipments.outputfilename self)) = None ->
       length written = 1 /\ exists self', res = Ok self') /\
      (forall e,
          to_csv_outcome w
            (joinpath (Shipments.parent self)
                      (now ++ "_" ++ Shipments.outputfilename self))
          = Some e ->
          written = [] /\ res = Raise e).
Proof.
  intros self now w d Hd.
  rewrite (export_dataframe_unfold self now w d Hd).
  pose proof (drop_duplicates_seen_subsequence d []) as S.
  destruct (to_csv_outcome w _) as [e|].
  - exists (Raise e). eexists. exists [].
    split; [reflexivity|]. cbn. rewrite app_nil_r.
    repeat split; try reflexivity; try lia; try discriminate;
      try (intros f u []); try congruence.
  - eexists. eexists. eexists.
    split; [reflexivity|]. cbn. split; [reflexivity|].
    split; [reflexivity|]. split; [cbn; lia|]. split; [|split].
    + intros f u [H|[]]. inversion H; subst.
      split; [reflexivity|].
      split; [exact S | exact (subsequence_length _ _ S)].
    + intros _. split; [reflexivity | eexists; reflexivity].
    + discriminate.
Qed.

Lemma export_keeps_arrival_order_witness :
  (exists res w' written,
      Shipments.export_dataframe
        (Shipments.set_self_df default_settings
           [row_first; row_half; row_again; row_other])
        "2026_Nov_03_10_15" example_world
      = (res, w') /\
      csv_files w' = csv_files example_world ++ written /\
      rename_calls w' = rename_calls example_world /\
      length written = 1 /\
      (forall f u,
          In (f, u) written ->
          f = ["/"; "data"; "2026_Nov_03_10_15_extracted_data.csv"] /\
          subsequence u [row_first; row_half; row_again; row_other] /\
          length u <= 4) /\
      exists self', res = Ok self') /\
  (exists res w' written,
      Shipments.export_dataframe
        (Shipments.set_self_df default_settings
           [row_first; row_half; row_again; row_other])
        "2026_Nov_03_10_15" no_csv_world
      = (res, w') /\
      csv_files w' = csv_files no_csv_world ++ written /\
      written = [] /\
      res = Raise FileNotFoundError).
Proof.
  split.
  - destruct (export_keeps_arrival_order
                (Shipments.set_self_df default_settings
                   [row_first; row_half; row_again; row_other])
                "2026_Nov_03_10_15" example_world
                [row_first; row_half; row_again; row_other] eq_refl)
      as (res & w' & written & E & Hcsv & Hren & _ & Hall & Hok & _).
    destruct (Hok eq_refl) as [Hlen Hres].
    exists res, w', written.
    repeat (split; [assumption|]). exact Hres.
  - destruct (export_keeps_arrival_order
                (Shipments.set_self_df default_settings
                   [row_first; row_half; row_again; row_other])
                "2026_Nov_03_10_15" no_csv_world
                [row_first; row_half; row_again; row_other] eq_refl)
      as (res & w' & written & E & Hcsv & _ & _ & _ & _ & Hfail).
    destruct (Hfail FileNotFoundError eq_refl) as [Hnil Hres].
    exists res, w', written.
    repeat (split; [assumption|]). exact Hres.
Defined.

(** X13. A data frame in which no pair (distribution order number,
    airwaybill) occurs twice is exported as it is: when the file can be
    written, the table written is the data frame itself, every row in its
    place.  The table of any export is such a data frame, so dropping
    duplicates a second time changes nothing. *)
Theorem export_of_distinct_pairs_is_identity :
  forall (self : Shipments.t) (now : string) (w : World) (d : DataFrame),
    Shipments.self_df self = Some d ->
    NoDup (map (fun r => (Row.distribution_order_number r,
                          Row.airwaybill r)) d) ->
    to_csv_outcome w
      (joinpath (Shipments.parent self)
                (now ++ "_" ++ Shipments.outputfilename self)) = None ->
    exists self' w',
      Shipments.export_dataframe self now w = (Ok self', w') /\
      Shipments.unique_df self' = Some d /\
      csv_files w'
      = csv_files w
        ++ [(joinpath (Shipments.parent self)
                      (now ++ "_" ++ Shipments.outputfilename self), d)] /\
      forall d0, drop_duplicates (drop_duplicates d0) = drop_duplicates d0.
Proof.
  intros self now w d Hd Hnd Hout.
  assert (Id : forall x, NoDup (map subset x) -> drop_duplicates x = x).
  { intros x Hx. apply drop_duplicates_seen_id; [|exact Hx].
    intros r _ []. }
  rewrite (export_dataframe_unfold self now w d Hd), Hout.
  do 2 eexists. split; [reflexivity|]. cbn.
  rewrite (Id d Hnd).
  split; [reflexivity|]. split; [reflexivity|].
  intros d0. apply Id. apply drop_duplicates_seen_NoDup.
Qed.

Lemma export_of_distinct_pairs_is_identity_witness :
  exists self' w',
    Shipments.export_dataframe
      (Shipments.set_self_df default_settings
         [row_first; row_half; row_other])
      "2026_Nov_03_10_15" example_world = (Ok self', w') /\
    Shipments.unique_df self' = Some [row_first; row_half; row_other] /\
    csv_files w'
    = csv_files example_world
      ++ [(joinpath (Shipments.parent default_settings)
                    ("2026_Nov_03_10_15" ++ "_"
                     ++ Shipments.outputfilename default_settings),
           [row_first; row_half; row_other])] /\
    forall d0, drop_duplicates (drop_duplicates d0) = drop_duplicates d0.
Proof.
  apply (export_of_distinct_pairs_is_identity
           (Shipments.set_self_df default_settings
              [row_first; row_half; row_other])
           "2026_Nov_03_10_15" example_world
           [row_first; row_half; row_other]).
  - reflexivity.
  - repeat constructor; cbn; intuition discriminate.
  - reflexivity.
Defined.

(** X14. [export_dataframe] leaves [self.df] as it is: after an export
    that wrote its file, a second export finds the same data frame and
    computes the same table; it writes that table to a second file when
    that file can be written, and raises what [to_csv] raises, leaving
    the first file alone, when it cannot. *)
Theorem export_twice_same_table :
  forall (self : Shipments.t) (now1 now2 : string) (w : World)
         (d : DataFrame),
    Shipments.self_df self = Some d ->
    to_csv_outcome w
      (joinpath (Shipments.parent self)
                (now1 ++ "_" ++ Shipments.outputfilename self)) = None ->
    exists self1 w1 u,
      Shipments.export_dataframe self now1 w = (Ok self1, w1) /\
      Shipments.self_df self1 = Some d /\
      Shipments.unique_df self1 = Some u /\
      csv_files w1
      = csv_files w
        ++ [(joinpath (Shipments.parent self)
                      (now1 ++ "_" ++ Shipments.outputfilename self), u)] /\
      (to_csv_outcome w
         (joinpath (Shipments.parent self)
                   (now2 ++ "_" ++ Shipments.outputfilename self)) = None ->
       exists self2 w2,
         Shipments.export_dataframe self1 now2 w1 = (Ok self2, w2) /\
         Shipments.self_df self2 = Some d /\
         Shipments.unique_df self2 = Some u /\
         csv_files w2
         = csv_files w
           ++ [(joinpath (Shipments.parent self)
                         (now1 ++ "_" ++ Shipments.outputfilename self), u);
               (joinpath (Shipments.parent self)
                         (now2 ++ "_" ++ Shipments.outputfilename self), u)])
      /\
      (forall e,
          to_csv_outcome w
            (joinpath (Shipments.parent self)
                      (now2 ++ "_" ++ Shipments.outputfilename self))
          = Some e ->
          exists w2,
            Shipments.export_dataframe self1 now2 w1 = (Raise e, w2) /\
            csv_files w2 = csv_files w1).
Proof.
  intros self now1 now2 w d Hd Hout1.
  rewrite (export_dataframe_unfold self now1 w d Hd), Hout1.
  do 3 eexists. split; [reflexivity|].
  assert (Hd1 : Shipments.self_df
                  (Shipments.set_unique_df self (drop_duplicates d))
                = Some d) by exact Hd.
  split; [exact Hd1|]. split; [reflexivity|]. split; [reflexivity|].
  split.
  - intros Hout2.
    rewrite (export_dataframe_unfold _ now2 _ d Hd1).
    cbn [to_csv_outcome set_csv_files set_log Shipments.parent
         Shipments.outputfilename Shipments.set_unique_df].
    rewrite Hout2.
    do 2 eexists. split; [reflexivity|]. cbn.
    rewrite <- app_assoc. repeat split; assumption.
  - intros e Hout2.
    rewrite (export_dataframe_unfold _ now2 _ d Hd1).
    cbn [to_csv_outcome set_csv_files set_log Shipments.parent
         Shipments.outputfilename Shipments.set_unique_df].
    rewrite Hout2.
    eexists. split; reflexivity.
Qed.

Lemma export_twice_same_table_witness :
  exists self1 w1 u,
    Shipments.export_dataframe
      (Shipments.set_self_df default_settings
         [row_first; row_half; row_again; row_other])
      "2026_Nov_03_10_15" example_world = (Ok self1, w1) /\
    Shipments.self_df self1
    = Some [row_first; row_half; row_again; row_other] /\
    Shipments.unique_df self1 = Some u /\
    csv_files w1
    = csv_files example_world
      ++ [(joinpath ["/"; "data"]
                    ("2026_Nov_03_10_15" ++ "_" ++ "extracted_data.csv"), u)]
    /\
    exists self2 w2,
      Shipments.export_dataframe self1 "2026_Nov_03_10_16" w1
      = (Ok self2, w2) /\
      Shipments.self_df self2
      = Some [row_first; row_half; row_again; row_other] /\
      Shipments.unique_df self2 = Some u /\
      csv_files w2
      = csv_files example_world
        ++ [(joinpath ["/"; "data"]
                      ("2026_Nov_03_10_15" ++ "_" ++ "extracted_data.csv"),
             u);
            (joinpath ["/"; "data"]
                      ("2026_Nov_03_10_16" ++ "_" ++ "extracted_data.csv"),
             u)].
Proof.
  destruct (export_twice_same_table
              (Shipments.set_self_df default_settings
                 [row_first; row_half; row_again; row_other])
              "2026_Nov_03_10_15" "2026_Nov_03_10_16" example_world
              [row_first; row_half; row_again; row_other]
              eq_refl eq_refl)
    as (self1 & w1 & u & E1 & Hdf & Hu & Hcsv & Hok & _).
  exists self1, w1, u.
  repeat (split; [assumption|]). exact (Hok eq_refl).
Defined.

(** ** The run: extraction, then export *)

Lemma first_unreadable_unique (read : Path -> Result string)
      (pre : list Path) :
  forall (p : Path) (post done : list Path) (p' : Path)
         (rest' : list Path) (e e' : Exception),
    pre ++ p :: post = done ++ p' :: rest' ->
    (forall q, In q pre -> exists t, read q = Ok t) ->
    read p = Raise e ->
    (forall q, In q done -> exists t, read q = Ok t) ->
    read p' = Raise e' ->
    pre = done.
Proof.
  induction pre as [|a pre IH]; intros p post done p' rest' e e'
                                       H Hpre Hp Hdone Hp'.
  - destruct done as [|x done]; [reflexivity|].
    cbn in H. inversion H; subst x.
    destruct (Hdone p (or_introl eq_refl)) as [t Ht]. congruence.
  - destruct done as [|x done]; cbn in H; inversion H; subst.
    + destruct (Hpre p' (or_introl eq_refl)) as [t Ht]. congruence.
    + f_equal. eapply IH; try eassumption.
      * intros q Hq. apply Hpre. now right.
      * intros q Hq. apply Hdone. now right.
Qed.

(** The extraction when every listed file can be read: it returns the
    rows of the processed files, has renamed the files according to their
    dispositions and has written no file. *)
Lemma extraction_returns (setup : Shipments.t) (w : World) :
  (forall p, In p (glob_txt w (Shipments.source setup)) ->
             exists rawtext, read_text w p = Ok rawtext) ->
  exists w1,
    Shipments.extract_information setup w
    = (Ok (Shipments.set_self_df
             setup
             (over_listing (read_text w) (rows_for setup)
                           (glob_txt w (Shipments.source setup))),
           over_listing (read_text w) (rows_for setup)
                        (glob_txt w (Shipments.source setup))),
       w1) /\
    same_env w w1 /\
    csv_files w1 = csv_files w /\
    rename_calls w1
    = rename_calls w
      ++ over_listing (read_text w) (calls_for setup)
                      (glob_txt w (Shipments.source setup)).
Proof.
  intros Hread.
  rewrite extract_information_unfold.
  destruct (loop_returns setup _ (mkLocals [] 0 0 0 0) w Hread)
    as (l & w1 & E).
  rewrite E.
  destruct (loop_trace setup _ _ _ _ _ E)
    as (done & rest & new & Hxs & _ & (Henv & Hcalls & Hcsv & _) & _ & _
        & Hok & _).
  destruct (Hok l eq_refl) as (-> & Hdf & _).
  rewrite app_nil_r in Hxs. subst done. cbn in Hdf.
  eexists. split; [rewrite Hdf; reflexivity|].
  split; [exact Henv|]. split; [exact Hcsv | exact Hcalls].
Qed.

(** X15. When every listed file can be read, the run goes through the
    whole listing and reaches the export.  When the output file can be
    written, the run returns and writes exactly one CSV file, in the
    parent directory, named by the time stamp and the configured file
    name; the table in it is the rows of the processed files, in listing
    order, without the later rows of a repeated pair (distribution order
    number, airwaybill).  When the output file cannot be written, the run
    raises what [to_csv] raises and writes no file, although [os.rename]
    has been called by then for every listed file whose disposition has
    its move toggle on. *)
Theorem run_writes_one_table :
  forall (setup : Shipments.t) (now : string) (w : World),
    (forall p, In p (glob_txt w (Shipments.source setup)) ->
               exists rawtext, read_text w p = Ok rawtext) ->
    (to_csv_outcome w
       (joinpath (Shipments.parent setup)
                 (now ++ "_" ++ Shipments.outputfilename setup)) = None ->
     exists self' w' table,
       run_pipeline setup now w = (Ok self', w') /\
       Shipments.self_df self'
       = Some (over_listing (read_text w) (rows_for setup)
                            (glob_txt w (Shipments.source setup))) /\
       Shipments.unique_df self' = Some table /\
       (forall r,
           In r table <->
           first_occurrence
             (over_listing (read_text w) (rows_for setup)
                           (glob_txt w (Shipments.source setup))) r) /\
       subsequence table
                   (over_listing (read_text w) (rows_for setup)
                                 (glob_txt w (Shipments.source setup))) /\
       csv_files w'
       = csv_files w
         ++ [(joinpath (Shipments.parent setup)
                       (now ++ "_" ++ Shipments.outputfilename setup),
              table)]) /\
    (forall e,
        to_csv_outcome w
          (joinpath (Shipments.parent setup)
                    (now ++ "_" ++ Shipments.outputfilename setup))
        = Some e ->
        exists w',
          run_pipeline setup now w = (Raise e, w') /\
          csv_files w' = csv_files w /\
          rename_calls w'
          = rename_calls w
            ++ over_listing (read_text w) (calls_for setup)
                            (glob_txt w (Shipments.source setup))).
Proof.
  intros setup now w Hread.
  destruct (extraction_returns setup w Hread)
    as (w1 & E & (_ & _ & _ & Hout) & Hcsv & Hcalls).
  unfold run_pipeline, bind. rewrite E. cbn [fst].
  rewrite (export_dataframe_unfold
             (Shipments.set_self_df setup _) now w1 _ eq_refl).
  cbn [Shipments.parent Shipments.outputfilename Shipments.set_self_df].
  rewrite Hout. split.
  - intros Hnone. rewrite Hnone.
    do 3 eexists. split; [reflexivity|]. cbn.
    split; [reflexivity|]. split; [reflexivity|].
    split; [|split].
    + intros r. unfold drop_duplicates. rewrite drop_duplicates_seen_In.
      split; [intros [_ H]; exact H | intros H; split; [intros []|exact H]].
    + apply drop_duplicates_seen_subsequence.
    + now rewrite Hcsv.
  - intros e Hsome. rewrite Hsome.
    eexists. split; [reflexivity|]. cbn. split; assumption.
Qed.

Lemma run_writes_one_table_witness :
  (exists self' w' table,
      run_pipeline default_settings "2026_Nov_03_10_15" example_world
      = (Ok self', w') /\
      Shipments.self_df self'
      = Some (over_listing (read_text example_world)
                           (rows_for default_settings)
                           (glob_txt example_world
                                     (Shipments.source default_settings))) /\
      Shipments.unique_df self' = Some table /\
      (forall r,
          In r table <->
          first_occurrence
            (over_listing (read_text example_world)
                          (rows_for default_settings)
                          (glob_txt example_world
                                    (Shipments.source default_settings))) r)
      /\
      subsequence table
                  (over_listing (read_text example_world)
                                (rows_for default_settings)
                                (glob_txt example_world
                                          (Shipments.source default_settings)))
      /\
      csv_files w'
      = csv_files example_world
        ++ [(joinpath (Shipments.parent default_settings)
                      ("2026_Nov_03_10_15" ++ "_"
                       ++ Shipments.outputfilename default_settings),
             table)]) /\
  (exists w',
      run_pipeline moving_settings "2026_Nov_03_10_15" no_csv_world
      = (Raise FileNotFoundError, w') /\
      csv_files w' = csv_files no_csv_world /\
      rename_calls w'
      = rename_calls no_csv_world
        ++ over_listing (read_text no_csv_world) (calls_for moving_settings)
                        (glob_txt no_csv_world
                                  (Shipments.source moving_settings))).
Proof.
  split.
  - apply (proj1 (run_writes_one_table default_settings "2026_Nov_03_10_15"
                    example_world
                    ltac:(intros p Hp; cbn in Hp;
                          repeat (destruct Hp as [<-|Hp];
                                  [eexists; reflexivity|]);
                          destruct Hp))).
    reflexivity.
  - apply (proj2 (run_writes_one_table moving_settings "2026_Nov_03_10_15"
                    no_csv_world
                    ltac:(intros p Hp; cbn in Hp;
                          repeat (destruct Hp as [<-|Hp];
                                  [eexists; reflexivity|]);
                          destruct Hp))
                 FileNotFoundError).
    reflexivity.
Defined.

(** X16. A listed file that cannot be read stops the run before the
    export: the run raises the exception of the read, no CSV file is
    written, and the files listed before it have been renamed already
    according to their dispositions. *)
Theorem unreadable_file_stops_run_before_export :
  forall (setup : Shipments.t) (now : string) (w : World)
         (pre : list Path) (p : Path) (post : list Path) (e : Exception),
    glob_txt w (Shipments.source setup) = pre ++ p :: post ->
    (forall q, In q pre -> exists rawtext, read_text w q = Ok rawtext) ->
    read_text w p = Raise e ->
    exists w',
      run_pipeline setup now w = (Raise e, w') /\
      csv_files w' = csv_files w /\
      rename_calls w'
      = rename_calls w ++ over_listing (read_text w) (calls_for setup) pre.
Proof.
  intros setup now w pre p post e Hglob Hpre Hp.
  unfold run_pipeline, bind. rewrite extract_information_unfold, Hglob.
  destruct (loop_aborts setup pre p post (mkLocals [] 0 0 0 0) w e
              Hpre Hp) as (w' & E).
  rewrite E. exists w'. split; [reflexivity|].
  destruct (loop_trace setup _ _ _ _ _ E)
    as (done & rest & new & Hxs & Hdone & (_ & Hcalls & Hcsv & _) & _ & _
        & _ & Hraise).
  destruct (Hraise e eq_refl) as (p' & rest' & -> & Hp').
  rewrite (first_unreadable_unique (read_text w) pre p post done p' rest'
             e e Hxs Hpre Hp Hdone Hp').
  split; assumption.
Qed.

Lemma unreadable_file_stops_run_before_export_witness :
  exists w',
    run_pipeline moving_settings "2026_Nov_03_10_15" late_fault_world
    = (Raise PermissionError, w') /\
    csv_files w' = csv_files late_fault_world /\
    rename_calls w'
    = rename_calls late_fault_world
      ++ over_listing (read_text late_fault_world)
                      (calls_for moving_settings) [log_00123].
Proof.
  apply (unreadable_file_stops_run_before_export moving_settings
           "2026_Nov_03_10_15" late_fault_world [log_00123] log_00124
           [log_00127] PermissionError).
  - reflexivity.
  - intros q [<-|[]]. eexists. reflexivity.
  - reflexivity.
Defined.

(** * The construction of [Settings] and [Shipments] *)

Ltac unfold_machine :=
  unfold in_world, basicConfig, os_path_exists, os_mkdir,
    logging_debug, logging_info, logging_warning, logging_error, logging,
    bind, ret, raise, get, put, lift, try_except in *.

Lemma path_eqb_eq (p q : Path) : path_eqb p q = true <-> p = q.
Proof.
  revert q; induction p as [|a p IH]; intros [|b q]; cbn;
    try (split; [discriminate | discriminate]); [tauto|].
  rewrite andb_true_iff, String.eqb_eq, IH.
  split; [intros [-> ->]; reflexivity | intros H; now inversion H].
Qed.

Lemma path_eqb_refl (p : Path) : path_eqb p p = true.
Proof. now apply path_eqb_eq. Qed.

Lemma same_platform_refl (m : Machine) : same_platform m m.
Proof. repeat split. Qed.

Lemma same_platform_trans (m1 m2 m3 : Machine) :
  same_platform m1 m2 -> same_platform m2 m3 -> same_platform m1 m3.
Proof.
  intros (A1 & A2 & A3 & A4 & A5 & A6 & A7)
         (B1 & B2 & B3 & B4 & B5 & B6 & B7).
  repeat split; congruence.
Qed.

Lemma setup_step_refl (m : Machine) : setup_step m m [] [].
Proof.
  split; [apply same_platform_refl|]. split; [reflexivity|].
  apply extends_refl.
Qed.

Lemma setup_step_trans (m1 m2 m3 : Machine) c1 c2 n1 n2 :
  setup_step m1 m2 c1 n1 -> setup_step m2 m3 c2 n2 ->
  setup_step m1 m3 (c1 ++ c2) (n1 ++ n2).
Proof.
  intros (P1 & E1 & X1) (P2 & E2 & X2).
  split; [eapply same_platform_trans; eassumption|].
  split; [|exact (extends_trans _ _ _ _ _ _ _ X1 X2)].
  intros q. rewrite E2, E1, existsb_app.
  destruct (existsb (path_eqb q) c1), (existsb (path_eqb q) c2);
    reflexivity.
Qed.

(** Logging on the machine adds the record and nothing else. *)
Lemma in_world_logging (lvl : Level) (msg : string) (a : list Arg)
      (m : Machine) :
  in_world (logging lvl msg a) m
  = (Ok tt, set_world m (set_log (world m)
                                 (log (world m) ++ [mkLog lvl msg a]))) /\
  setup_step m (set_world m (set_log (world m)
                                     (log (world m) ++ [mkLog lvl msg a])))
             [] [mkLog lvl msg a].
Proof.
  split; [reflexivity|].
  split; [repeat split|]. split; [reflexivity|].
  apply extends_log.
Qed.

(** [_format_logging] written out. *)
Lemma format_logging_run (LOGGING DEBUG : bool) (filename : string)
      (m : Machine) :
  Settings._format_logging LOGGING DEBUG filename m =
  match basic_config m with
  | Some _ => (Ok tt, m)
  | None =>
      match open_log_outcome m filename with
      | Some e => (Raise e, m)
      | None =>
          (Ok tt,
           set_basic_config
             (set_existing
                m (fun q => path_eqb q (parse_path m filename)
                            || existing m q))
             (Some (level_for LOGGING DEBUG, filename)))
      end
  end.
Proof.
  unfold Settings._format_logging, level_for, basicConfig.
  destruct LOGGING, DEBUG; reflexivity.
Qed.

(** [_safe_create_dir] written out. *)
Lemma safe_create_dir_run (d : Path) (m : Machine) :
  Settings._safe_create_dir d m =
  if existing m d then (Ok d, m)
  else match mkdir_outcome m d with
       | Some e => (Raise e, m)
       | None =>
           (Ok d,
            set_world
              (set_existing m (fun q => path_eqb q d || existing m q))
              (set_log (world m)
                       (log (world m)
                        ++ [mkLog WARNING "New Directory created \n{}"
                                  [APath d]])))
       end.
Proof.
  unfold Settings._safe_create_dir. unfold_machine.
  destruct (existing m d); cbn; [reflexivity|].
  destruct (mkdir_outcome m d); reflexivity.
Qed.

(** X17. [_safe_create_dir] creates the directory only when it is
    missing and never removes one; when it returns, the directory exists
    and a second call changes nothing; it raises exactly when the
    directory is missing and [os.mkdir] raises, and then nothing has
    changed; it logs one warning when it creates and nothing otherwise. *)
Theorem safe_create_dir_contract :
  forall (d : Path) (m : Machine) (res : Result Path) (m' : Machine),
    Settings._safe_create_dir d m = (res, m') ->
    (forall q, existing m q = true -> existing m' q = true) /\
    (existing m d = true -> res = Ok d /\ m' = m) /\
    (res = Ok d ->
     existing m' d = true /\
     Settings._safe_create_dir d m' = (Ok d, m')) /\
    (forall e, res = Raise e <->
               existing m d = false /\ mkdir_outcome m d = Some e) /\
    (forall e, res = Raise e -> m' = m) /\
    (exists new,
        log (world m') = log (world m) ++ new /\
        count_level WARNING new
        = (if existing m d then 0
           else match mkdir_outcome m d with
                | None => 1
                | Some _ => 0
                end)).
Proof.
  intros d m res m' H. rewrite safe_create_dir_run in H.
  destruct (existing m d) eqn:Hex.
  - inversion H; subst.
    split; [|split; [|split; [|split; [|split]]]].
    + auto.
    + auto.
    + intros _. split; [exact Hex|].
      now rewrite safe_create_dir_run, Hex.
    + intros e. split; [discriminate | intros [? _]; discriminate].
    + discriminate.
    + exists []. now rewrite app_nil_r.
  - destruct (mkdir_outcome m d) as [e|] eqn:Hmk; inversion H; subst.
    + split; [|split; [|split; [|split; [|split]]]].
      * auto.
      * discriminate.
      * discriminate.
      * intros e'. split; [intros E; now inversion E|].
        intros [_ E]. now inversion E.
      * reflexivity.
      * exists []. now rewrite app_nil_r.
    + split; [|split; [|split; [|split; [|split]]]].
      * intros q Hq. cbn. rewrite Hq. apply orb_true_r.
      * discriminate.
      * intros _. split; [cbn; now rewrite path_eqb_refl|].
        rewrite safe_create_dir_run. cbn. now rewrite path_eqb_refl.
      * intros e. split; [discriminate | intros [_ E]; discriminate].
      * discriminate.
      * eexists. split; reflexivity.
Qed.

Lemma safe_create_dir_contract_witness :
  (forall q,
      existing (example_machine (Ok example_json) true) q = true ->
      existing (snd (Settings._safe_create_dir
                       ["processed"]
                       (example_machine (Ok example_json) true))) q = true) /\
  existing (snd (Settings._safe_create_dir
                   ["processed"]
                   (example_machine (Ok example_json) true)))
           ["processed"] = true.
Proof.
  pose proof (safe_create_dir_contract ["processed"]
                (example_machine (Ok example_json) true)
                (Ok ["processed"])
                (snd (Settings._safe_create_dir
                        ["processed"]
                        (example_machine (Ok example_json) true)))
                eq_refl) as (Hmono & _ & Hok & _).
  split; [exact Hmono | exact (proj1 (Hok eq_refl))].
Defined.

Lemma creation_refl (m : Machine) : creation m m [] [].
Proof.
  split; [apply setup_step_refl|].
  split; [reflexivity|]. split; [reflexivity|]. split; [reflexivity|].
  intros d [].
Qed.

Lemma creation_trans (m1 m2 m3 : Machine) c1 c2 n1 n2 :
  creation m1 m2 c1 n1 -> creation m2 m3 c2 n2 ->
  creation m1 m3 (c1 ++ c2) (n1 ++ n2).
Proof.
  intros (S1 & B1 & W1 & E1 & F1) (S2 & B2 & W2 & E2 & F2).
  split; [exact (setup_step_trans _ _ _ _ _ _ _ S1 S2)|].
  split; [congruence|].
  rewrite !count_level_app, length_app, W1, W2, E1, E2.
  split; [reflexivity|]. split; [reflexivity|].
  intros d Hd. apply in_app_or in Hd as [Hd|Hd]; [now apply F1|].
  destruct (F2 d Hd) as [Hex Hmk].
  destruct S1 as ((_ & _ & _ & _ & _ & Hmkdir & _) & Hexist & _).
  rewrite Hexist in Hex. apply orb_false_iff in Hex as [_ Hex].
  split; [exact Hex | now rewrite <- Hmkdir].
Qed.

Lemma creation_existing (m m' : Machine) c n (q : Path) :
  creation m m' c n -> existing m q = true -> existing m' q = true.
Proof.
  intros ((_ & Hex & _) & _) H. rewrite Hex, H. apply orb_true_r.
Qed.

(** Logging on the machine, as a [creation]. *)
Lemma creation_log (m : Machine) (new : list LogRecord) :
  count_level WARNING new = 0 ->
  count_level ERROR new = 0 ->
  creation m (set_world m (set_log (world m) (log (world m) ++ new)))
           [] new.
Proof.
  intros W E.
  split; [|split; [reflexivity|split; [exact W|split; [exact E|]]]].
  - split; [repeat split|]. split; [reflexivity | apply extends_log].
  - intros d [].
Qed.

Lemma safe_create_dir_step (d : Path) (m : Machine) (v : Path)
      (m' : Machine) :
  Settings._safe_create_dir d m = (Ok v, m') ->
  exists c n,
    creation m m' c n /\ existing m' d = true /\
    (forall x, In x c -> x = d).
Proof.
  intros H. rewrite safe_create_dir_run in H.
  destruct (existing m d) eqn:Hex.
  - injection H as Hv Hm. subst v m'. exists [], [].
    split; [apply creation_refl|]. split; [exact Hex | intros x []].
  - destruct (mkdir_outcome m d) eqn:Hmk; [discriminate|].
    injection H as Hv Hm. subst v m'.
    exists [d], [mkLog WARNING "New Directory created \n{}" [APath d]].
    split; [|split].
    + split; [|split; [reflexivity|split; [reflexivity|split;
                                                       [reflexivity|]]]].
      * split; [repeat split|]. split; [|apply extends_log].
        intros q. cbn. now rewrite orb_false_r.
      * intros x [<-|[]]. now split.
    + cbn. now rewrite path_eqb_refl.
    + intros x [<-|[]]. reflexivity.
Qed.

Lemma get_settings_run (f : string) (m : Machine) :
  Settings.get_settings f m =
  match load_json m f with
  | Ok settings => (Ok settings, m)
  | Raise _ =>
      match Settings._format_logging true true "Error.txt" m with
      | (Ok _, m1) =>
          (Raise (OtherError "Exception"),
           set_world m1
             (set_log (world m1)
                (log (world m1)
                 ++ [mkLog ERROR "{settingspath} has not been found"
                           [AStr f]])))
      | (Raise e, m1) => (Raise e, m1)
      end
  end.
Proof.
  unfold Settings.get_settings, try_except, bind at 1, get, lift.
  destruct (load_json m f) as [settings|e0]; [reflexivity|].
  unfold bind at 1.
  destruct (Settings._format_logging true true "Error.txt" m)
    as [[[]|e] m1]; reflexivity.
Qed.

Lemma check_parent_run (p : Path) (m : Machine) :
  Settings._check_parent_dir_is_dir p m =
  if is_dir m p then (Ok tt, m)
  else (Raise (OtherError "Exception"),
        set_world m
          (set_log (world m)
             (log (world m)
              ++ [mkLog ERROR "Parent is not a directory or not defined"
                        []]))).
Proof.
  unfold Settings._check_parent_dir_is_dir, bind at 1, get.
  destruct (is_dir m p); reflexivity.
Qed.

(** What [_format_logging] leaves behind when it returns: the log file
    on the disk when it configured the logger, and nothing else. *)
Lemma format_logging_step (LOGGING DEBUG : bool) (filename : string)
      (m m1 : Machine) (u : unit) :
  Settings._format_logging LOGGING DEBUG filename m = (Ok u, m1) ->
  setup_step m m1 (opened_log m filename) [] /\
  world m1 = world m /\
  (basic_config m = None ->
   open_log_outcome m filename = None /\
   basic_config m1 = Some (level_for LOGGING DEBUG, filename)).
Proof.
  intros H. rewrite format_logging_run in H. unfold opened_log.
  destruct (basic_config m) as [c|] eqn:Hc.
  - inversion H; subst. split; [apply setup_step_refl|].
    split; [reflexivity | discriminate].
  - destruct (open_log_outcome m filename) eqn:Ho; inversion H; subst.
    split; [|split; [reflexivity|auto]].
    split; [repeat split|]. split; [|apply extends_refl].
    intros q. cbn. now rewrite orb_false_r.
Qed.

(** What a construction of [Settings] that returns went through. *)
Lemma init_inversion (f : string) (m : Machine) (s : Settings.t)
      (m' : Machine) :
  Settings.init f m = (Ok s, m') ->
  exists settings m1 created new,
    load_json m f = Ok settings /\
    s = attrs m settings /\
    Settings._format_logging (Settings.LOGGING s) (Settings.DEBUG s)
                             (Settings.log_file s) m = (Ok tt, m1) /\
    is_dir m (Settings.parent s) = true /\
    creation m1 m' created new /\
    (forall d, In d (work_dirs s) -> existing m' d = true) /\
    (forall d, In d created -> In d (work_dirs s)).
Proof.
  intros H. unfold Settings.init in H.
  unfold bind at 1 in H. rewrite get_settings_run in H.
  destruct (load_json m f) as [settings|e] eqn:Hload.
  2: { destruct (Settings._format_logging true true "Error.txt" m)
         as [[[]|e'] m1]; discriminate. }
  unfold bind at 1 in H.
  destruct (Settings._format_logging _ _ _ m) as [[[]|e] m1] eqn:Efmt;
    [|discriminate].
  destruct (format_logging_step _ _ _ _ _ _ Efmt)
    as (((_ & Hparse & Habs & _ & Hisdir & _) & _) & _).
  unfold bind at 1 in H. unfold get at 1 in H.
  unfold bind at 1 in H. rewrite check_parent_run in H.
  rewrite Hparse, Habs, Hisdir in H.
  destruct (is_dir m _) eqn:Hdir; [|discriminate].
  unfold bind at 1 in H.
  destruct (Settings._safe_create_dir _ m1) as [[v1|e] m2] eqn:E1;
    [|discriminate].
  unfold bind at 1 in H.
  destruct (Settings._safe_create_dir _ m2) as [[v2|e] m3] eqn:E2;
    [|discriminate].
  unfold bind at 1 in H.
  destruct (Settings._safe_create_dir _ m3) as [[v3|e] m4] eqn:E3;
    [|discriminate].
  unfold bind at 1 in H.
  destruct (Settings._safe_create_dir _ m4) as [[v4|e] m5] eqn:E4;
    [|discriminate].
  destruct (safe_create_dir_step _ _ _ _ E1) as (c1 & n1 & C1 & X1 & I1).
  destruct (safe_create_dir_step _ _ _ _ E2) as (c2 & n2 & C2 & X2 & I2).
  destruct (safe_create_dir_step _ _ _ _ E3) as (c3 & n3 & C3 & X3 & I3).
  destruct (safe_create_dir_step _ _ _ _ E4) as (c4 & n4 & C4 & X4 & I4).
  unfold bind at 1 in H.
  match type of H with
  | context [in_world ?c m5] =>
      assert (Hlog : exists n5,
                 in_world c m5
                 = (Ok tt, set_world m5
                             (set_log (world m5) (log (world m5) ++ n5))) /\
                 count_level WARNING n5 = 0 /\ count_level ERROR n5 = 0)
  end.
  { eexists. split; [|split].
    - unfold_machine. cbn. rewrite <- !app_assoc. reflexivity.
    - reflexivity.
    - reflexivity. }
  destruct Hlog as (n5 & Hlog & W5 & R5). rewrite Hlog in H.
  unfold ret in H. injection H as Hs Hm'.
  pose proof (creation_log m5 n5 W5 R5) as C5. rewrite Hm' in C5.
  pose proof (creation_trans _ _ _ _ _ _ _
                (creation_trans _ _ _ _ _ _ _
                   (creation_trans _ _ _ _ _ _ _
                      (creation_trans _ _ _ _ _ _ _ C1 C2) C3) C4) C5)
    as C.
  exists settings, m1, ((((c1 ++ c2) ++ c3) ++ c4) ++ []),
    ((((n1 ++ n2) ++ n3) ++ n4) ++ n5).
  split; [reflexivity|].
  assert (Hattrs : s = attrs m settings) by (now subst s).
  split; [exact Hattrs|].
  split; [subst s; exact Efmt|].
  split; [subst s; exact Hdir|].
  split; [exact C|].
  split.
  - intros d Hd. subst s. cbn in Hd.
    pose proof (creation_trans _ _ _ _ _ _ _ C4 C5) as C45.
    pose proof (creation_trans _ _ _ _ _ _ _ C3 C45) as C35.
    pose proof (creation_trans _ _ _ _ _ _ _ C2 C35) as C25.
    destruct Hd as [<-|[<-|[<-|[<-|[]]]]].
    + exact (creation_existing _ _ _ _ _ C25 X1).
    + exact (creation_existing _ _ _ _ _ C35 X2).
    + exact (creation_existing _ _ _ _ _ C45 X3).
    + exact (creation_existing _ _ _ _ _ C5 X4).
  - intros d Hd. subst s. cbn.
    rewrite app_nil_r in Hd.
    apply in_app_or in Hd as [Hd|Hd];
      [apply in_app_or in Hd as [Hd|Hd];
       [apply in_app_or in Hd as [Hd|Hd]|]|].
    + left. symmetry. exact (I1 d Hd).
    + right. left. symmetry. exact (I2 d Hd).
    + right. right. left. symmetry. exact (I3 d Hd).
    + right. right. right. left. symmetry. exact (I4 d Hd).
Qed.

Lemma attrs_platform (m m' : Machine) (settings : Json.t) :
  same_platform m m' -> attrs m' settings = attrs m settings.
Proof.
  intros (_ & Hp & Ha & _). unfold attrs. now rewrite Hp, Ha.
Qed.

Lemma safe_create_dir_returns (d : Path) (m : Machine) :
  existing m d = true \/ mkdir_outcome m d = None ->
  exists m', Settings._safe_create_dir d m = (Ok d, m').
Proof.
  intros H. rewrite safe_create_dir_run.
  destruct (existing m d); [eauto|].
  destruct H as [H|H]; [discriminate|]. rewrite H. eauto.
Qed.

Lemma creation_can_create (m m' : Machine) c n (d : Path) :
  creation m m' c n ->
  existing m d = true \/ mkdir_outcome m d = None ->
  existing m' d = true \/ mkdir_outcome m' d = None.
Proof.
  intros C [H|H].
  - left. exact (creation_existing _ _ _ _ _ C H).
  - right. destruct C as (((_ & _ & _ & _ & _ & Hmk & _) & _) & _).
    now rewrite Hmk.
Qed.

(** The construction of [Settings] returns when the settings load, the
    log file opens, the parent is a directory and each working directory
    exists or can be created. *)
Lemma init_runs (f : string) (m : Machine) (settings : Json.t) :
  load_json m f = Ok settings ->
  basic_config m = None ->
  open_log_outcome m (Settings.log_file (attrs m settings)) = None ->
  is_dir m (Settings.parent (attrs m settings)) = true ->
  (forall d, In d (work_dirs (attrs m settings)) ->
             existing m d = true \/ mkdir_outcome m d = None) ->
  exists m', Settings.init f m = (Ok (attrs m settings), m').
Proof.
  intros Hload Hcfg Hopen Hdir Hdirs.
  unfold Settings.init.
  unfold bind at 1. rewrite get_settings_run, Hload.
  unfold bind at 1.
  destruct (Settings._format_logging
              (dict_get (Json.LOGGING
                           (dict_get (Json.log_config settings)
                                     Json.no_log_config)) true)
              (dict_get (Json.DEBUG
                           (dict_get (Json.log_config settings)
                                     Json.no_log_config)) true)
              (dict_get (Json.log_file
                           (dict_get (Json.log_config settings)
                                     Json.no_log_config)) "Log.txt") m)
    as [[[]|e] m1] eqn:Efmt.
  2: { rewrite format_logging_run, Hcfg in Efmt. cbn in Hopen.
       rewrite Hopen in Efmt. discriminate. }
  destruct (format_logging_step _ _ _ _ _ _ Efmt) as (S01 & _ & _).
  pose proof S01 as ((_ & Hparse & Habs & _ & Hisdir & Hmk & _) & Hex1 & _).
  unfold bind at 1. unfold get at 1.
  unfold bind at 1. rewrite check_parent_run.
  rewrite Hparse, Habs, Hisdir. cbn in Hdir. rewrite Hdir.
  assert (D1 : forall d, In d (work_dirs (attrs m settings)) ->
                         existing m1 d = true \/ mkdir_outcome m1 d = None)
    by (intros d Hd; destruct (Hdirs d Hd) as [Hd1|Hd1];
        [left; rewrite Hex1, Hd1; apply orb_true_r
        |right; now rewrite Hmk]).
  cbn in D1.
  unfold bind at 1.
  destruct (safe_create_dir_returns _ m1 (D1 _ (or_introl eq_refl)))
    as (m2 & E1).
  rewrite E1.
  destruct (safe_create_dir_step _ _ _ _ E1) as (c1 & n1 & C1 & _).
  unfold bind at 1.
  destruct (safe_create_dir_returns _ m2
              (creation_can_create _ _ _ _ _ C1
                 (D1 _ (or_intror (or_introl eq_refl)))))
    as (m3 & E2).
  rewrite E2.
  destruct (safe_create_dir_step _ _ _ _ E2) as (c2 & n2 & C2 & _).
  pose proof (creation_trans _ _ _ _ _ _ _ C1 C2) as C12.
  unfold bind at 1.
  destruct (safe_create_dir_returns _ m3
              (creation_can_create _ _ _ _ _ C12
                 (D1 _ (or_intror (or_intror (or_introl eq_refl))))))
    as (m4 & E3).
  rewrite E3.
  destruct (safe_create_dir_step _ _ _ _ E3) as (c3 & n3 & C3 & _).
  pose proof (creation_trans _ _ _ _ _ _ _ C12 C3) as C13.
  unfold bind at 1.
  destruct (safe_create_dir_returns _ m4
              (creation_can_create _ _ _ _ _ C13
                 (D1 _ (or_intror (or_intror (or_intror
                                                (or_introl eq_refl)))))))
    as (m5 & E4).
  rewrite E4.
  unfold bind at 1.
  match goal with
  | |- context [in_world ?c m5] =>
      assert (Hlog : exists w5, in_world c m5 = (Ok tt, set_world m5 w5))
        by (eexists; unfold_machine; cbn; reflexivity)
  end.
  destruct Hlog as (w5 & Hlog). rewrite Hlog.
  eexists. reflexivity.
Qed.

(** X18. When [settings.json] cannot be loaded, for whatever reason, the
    construction of [Shipments] raises.  The logger is configured at
    debug level on [Error.txt], which is opened for appending and so
    exists from then on; when it opens, the one record logged is the
    error "... has not been found" and the exception is [Exception]; no
    directory is created and no file renamed or written; nothing else on
    the disk changes.  When [Error.txt] cannot be opened, what
    [basicConfig] raises leaves the construction instead, nothing is
    logged and nothing has changed. *)
Theorem settings_not_loaded_stops_construction :
  forall (f : string) (m : Machine) (e : Exception),
    load_json m f = Raise e ->
    basic_config m = None ->
    (open_log_outcome m "Error.txt" = None ->
     exists m',
       Shipments_init f m = (Raise (OtherError "Exception"), m') /\
       basic_config m' = Some (DEBUG, "Error.txt") /\
       log (world m')
       = log (world m)
         ++ [mkLog ERROR "{settingspath} has not been found" [AStr f]] /\
       (forall q,
           existing m' q
           = path_eqb q (parse_path m "Error.txt") || existing m q) /\
       rename_calls (world m') = rename_calls (world m) /\
       csv_files (world m') = csv_files (world m)) /\
    (forall e',
        open_log_outcome m "Error.txt" = Some e' ->
        Shipments_init f m = (Raise e', m)).
Proof.
  intros f m e Hload Hcfg.
  split; [intros Hopen | intros e' Hopen];
    unfold Shipments_init, bind at 1, Settings.init, bind at 1;
    rewrite get_settings_run, Hload, format_logging_run, Hcfg, Hopen.
  - eexists. split; [reflexivity|]. cbn. repeat split.
  - reflexivity.
Qed.

Lemma settings_not_loaded_stops_construction_witness :
  (exists m',
      Shipments_init "settings.json"
                     (example_machine (Raise FileNotFoundError) true)
      = (Raise (OtherError "Exception"), m') /\
      basic_config m' = Some (DEBUG, "Error.txt") /\
      log (world m')
      = log (world (example_machine (Raise FileNotFoundError) true))
        ++ [mkLog ERROR "{settingspath} has not been found"
                  [AStr "settings.json"]] /\
      (forall q,
          existing m' q
          = path_eqb q ["Error.txt"]
            || existing (example_machine (Raise FileNotFoundError) true) q) /\
      rename_calls (world m')
      = rename_calls (world (example_machine (Raise FileNotFoundError) true))
      /\
      csv_files (world m')
      = csv_files (world (example_machine (Raise FileNotFoundError) true))) /\
  Shipments_init "settings.json"
                 (read_only_machine (Raise FileNotFoundError))
  = (Raise PermissionError, read_only_machine (Raise FileNotFoundError)).
Proof.
  split.
  - apply (proj1 (settings_not_loaded_stops_construction
                    "settings.json"
                    (example_machine (Raise FileNotFoundError) true)
                    FileNotFoundError eq_refl eq_refl)).
    reflexivity.
  - apply (proj2 (settings_not_loaded_stops_construction
                    "settings.json"
                    (read_only_machine (Raise FileNotFoundError))
                    FileNotFoundError eq_refl eq_refl)).
    reflexivity.
Defined.

(** X19. When the parent path is not a directory, the construction of
    [Shipments] raises [Exception] after logging the error, before any
    directory is created: the one thing new on the disk is the log file,
    which [basicConfig] has opened for appending by then. *)
Theorem parent_not_a_directory_stops_construction :
  forall (f : string) (m : Machine) (settings : Json.t),
    load_json m f = Ok settings ->
    basic_config m = None ->
    open_log_outcome m (Settings.log_file (attrs m settings)) = None ->
    is_dir m (Settings.parent (attrs m settings)) = false ->
    exists m',
      Shipments_init f m = (Raise (OtherError "Exception"), m') /\
      log (world m')
      = log (world m)
        ++ [mkLog ERROR "Parent is not a directory or not defined" []] /\
      (forall q,
          existing m' q
          = path_eqb q (parse_path m (Settings.log_file (attrs m settings)))
            || existing m q) /\
      rename_calls (world m') = rename_calls (world m) /\
      csv_files (world m') = csv_files (world m).
Proof.
  intros f m settings Hload Hcfg Hopen Hdir.
  unfold Shipments_init, bind at 1, Settings.init, bind at 1.
  rewrite get_settings_run, Hload. unfold bind at 1.
  rewrite format_logging_run, Hcfg. cbn in Hopen. rewrite Hopen.
  unfold bind at 1, get at 1. unfold bind at 1.
  rewrite check_parent_run. cbn in Hdir. cbn [is_dir set_basic_config
    set_existing parse_path absolute]. rewrite Hdir.
  eexists. split; [reflexivity|]. cbn. repeat split.
Qed.

Lemma parent_not_a_directory_stops_construction_witness :
  exists m',
    Shipments_init "settings.json"
                   (example_machine (Ok example_json) false)
    = (Raise (OtherError "Exception"), m') /\
    log (world m')
    = log (world (example_machine (Ok example_json) false))
      ++ [mkLog ERROR "Parent is not a directory or not defined" []] /\
    (forall q,
        existing m' q
        = path_eqb q ["Log.txt"]
          || existing (example_machine (Ok example_json) false) q) /\
    rename_calls (world m')
    = rename_calls (world (example_machine (Ok example_json) false)) /\
    csv_files (world m')
    = csv_files (world (example_machine (Ok example_json) false)).
Proof.
  apply (parent_not_a_directory_stops_construction "settings.json"
           (example_machine (Ok example_json) false) example_json).
  - reflexivity.
  - reflexivity.
  - reflexivity.
  - reflexivity.
Defined.



(** X21. The construction of [Settings] is idempotent: run again in a
    new process on the machine it left, it returns the same attributes,
    creates no directory and logs no warning. *)
Theorem settings_construction_is_idempotent :
  forall (f : string) (m : Machine) (s : Settings.t) (m' : Machine),
    basic_config m = None ->
    Settings.init f m = (Ok s, m') ->
    exists m'' new,
      Settings.init f (restart m') = (Ok s, m'') /\
      (forall q, existing m'' q = existing m' q) /\
      log (world m'') = log (world m') ++ new /\
      count_level WARNING new = 0.
Proof.
  intros f m s m' Hcfg H.
  destruct (init_inversion f m s m' H)
    as (settings & m1 & created & new & Hload & Hs & Efmt & Hdir & C
        & Hall & _).
  destruct (format_logging_step _ _ _ _ _ _ Efmt)
    as ((P01 & _) & _ & Hopen).
  destruct (Hopen Hcfg) as [Hopen' _].
  pose proof C as ((P1 & _) & _).
  pose proof (same_platform_trans _ _ _ P01 P1) as P.
  assert (Pr : same_platform m (restart m')).
  { destruct P as (A1 & A2 & A3 & A4 & A5 & A6 & A7).
    repeat split; assumption. }
  pose proof (attrs_platform _ _ settings Pr) as Hattrs.
  destruct Pr as (Pl & _ & _ & _ & Pd & Pm & Po).
  destruct (init_runs f (restart m') settings) as (m'' & E).
  - now rewrite Pl.
  - reflexivity.
  - rewrite Hattrs, Po, <- Hs. exact Hopen'.
  - rewrite Hattrs, Pd, <- Hs. exact Hdir.
  - intros d Hd. left. rewrite Hattrs, <- Hs in Hd. exact (Hall d Hd).
  - rewrite Hattrs, <- Hs in E.
    destruct (init_inversion f (restart m') s m'' E)
      as (settings2 & m2 & created2 & new2 & _ & _ & Efmt2 & _ & C2
          & _ & Hsub2).
    destruct (format_logging_step _ _ _ _ _ _ Efmt2)
      as ((_ & Hex2 & _) & Hw2 & _).
    destruct C2 as ((_ & Hexist & (_ & _ & _ & Hlog)) & _ & W & _ & F).
    assert (Hnone : created2 = []).
    { destruct created2 as [|d ds]; [reflexivity|].
      destruct (F d (or_introl eq_refl)) as [Hf _].
      rewrite Hex2 in Hf. cbn [restart set_basic_config existing] in Hf.
      rewrite (Hall d (Hsub2 d (or_introl eq_refl))) in Hf.
      rewrite orb_true_r in Hf. discriminate. }
    assert (Hlogfile : existing m' (parse_path m' (Settings.log_file s))
                       = true).
    { destruct P as (_ & Hp & _). rewrite Hp.
      destruct C as ((_ & Hex' & _) & _). rewrite Hex'.
      destruct (format_logging_step _ _ _ _ _ _ Efmt)
        as ((_ & Hex1 & _) & _).
      rewrite Hex1. unfold opened_log. rewrite Hcfg. cbn.
      rewrite path_eqb_refl. cbn. apply orb_true_r. }
    subst created2. exists m'', new2.
    split; [exact E|]. split; [|split].
    + intros q. rewrite Hexist, Hex2. cbn.
      destruct (path_eqb q (parse_path m' (Settings.log_file s))) eqn:Eq;
        [|reflexivity].
      apply path_eqb_eq in Eq. subst q. cbn. now rewrite Hlogfile.
    + rewrite Hlog, Hw2. reflexivity.
    + exact W.
Qed.

Lemma settings_construction_is_idempotent_witness :
  exists m' m'' new,
    Settings.init "settings.json" (example_machine (Ok example_json) true)
    = (Ok (attrs (example_machine (Ok example_json) true) example_json),
       m') /\
    Settings.init "settings.json" (restart m')
    = (Ok (attrs (example_machine (Ok example_json) true) example_json),
       m'') /\
    (forall q, existing m'' q = existing m' q) /\
    log (world m'') = log (world m') ++ new /\
    count_level WARNING new = 0.
Proof.
  destruct (init_runs "settings.json"
              (example_machine (Ok example_json) true) example_json
              eq_refl eq_refl eq_refl eq_refl) as (m' & E).
  - intros d _. right. reflexivity.
  - destruct (settings_construction_is_idempotent
                "settings.json" (example_machine (Ok example_json) true)
                _ m' eq_refl E)
      as (m'' & new & H).
    exists m', m'', new. split; [exact E | exact H].
Defined.

(** X22. Whatever the two flags, the level [_format_logging] sets lets
    warnings and errors through: [LOGGING] off does not switch logging
    off, it drops info and debug records; debug records pass only with
    both flags on, info records exactly with [LOGGING] on. *)
Theorem format_logging_keeps_warnings :
  forall (LOGGING DEBUG : bool) (filename : string) (m m' : Machine),
    basic_config m = None ->
    Settings._format_logging LOGGING DEBUG filename m = (Ok tt, m') ->
    exists lvl,
      basic_config m' = Some (lvl, filename) /\
      is_enabled_for lvl ERROR = true /\
      is_enabled_for lvl WARNING = true /\
      is_enabled_for lvl INFO = LOGGING /\
      is_enabled_for lvl logging_DEBUG = LOGGING && DEBUG.
Proof.
  intros LOGGING DEBUG filename m m' Hcfg H.
  destruct (format_logging_step _ _ _ _ _ _ H) as (_ & _ & Hset).
  destruct (Hset Hcfg) as [_ Hc].
  exists (level_for LOGGING DEBUG). split; [exact Hc|].
  destruct LOGGING, DEBUG; repeat split.
Qed.

Lemma format_logging_keeps_warnings_witness :
  exists lvl,
    basic_config
      (snd (Settings._format_logging
              false true "Log.txt"
              (example_machine (Ok example_json) true)))
    = Some (lvl, "Log.txt") /\
    is_enabled_for lvl ERROR = true /\
    is_enabled_for lvl WARNING = true /\
    is_enabled_for lvl INFO = false /\
    is_enabled_for lvl logging_DEBUG = false && true.
Proof.
  apply (format_logging_keeps_warnings
           false true "Log.txt" (example_machine (Ok example_json) true)).
  - reflexivity.
  - reflexivity.
Defined.

(** ** The whole run *)

Lemma run_pipeline_returns (setup : Shipments.t) (now : string)
      (w : World) :
  (forall p, In p (glob_txt w (Shipments.source setup)) ->
             exists rawtext, read_text w p = Ok rawtext) ->
  to_csv_outcome w
    (joinpath (Shipments.parent setup)
              (now ++ "_" ++ Shipments.outputfilename setup)) = None ->
  exists self' w' d,
    run_pipeline setup now w = (Ok self', w') /\
    Shipments.unique_df self' = Some (drop_duplicates d) /\
    csv_files w'
    = csv_files w
      ++ [(joinpath (Shipments.parent setup)
                    (now ++ "_" ++ Shipments.outputfilename setup),
           drop_duplicates d)].
Proof.
  intros Hread Hnone.
  destruct (extraction_returns setup w Hread)
    as (w1 & E & (_ & _ & _ & Hout) & Hcsv & _).
  unfold run_pipeline, bind. rewrite E. cbn [fst].
  rewrite (export_dataframe_unfold
             (Shipments.set_self_df setup _) now w1 _ eq_refl).
  cbn [Shipments.parent Shipments.outputfilename Shipments.set_self_df].
  rewrite Hout, Hnone.
  do 3 eexists. split; [reflexivity|]. cbn.
  rewrite Hcsv. split; reflexivity.
Qed.

Lemma run_pipeline_raises (setup : Shipments.t) (now : string)
      (w : World) (e : Exception) :
  (forall p, In p (glob_txt w (Shipments.source setup)) ->
             exists rawtext, read_text w p = Ok rawtext) ->
  to_csv_outcome w
    (joinpath (Shipments.parent setup)
              (now ++ "_" ++ Shipments.outputfilename setup)) = Some e ->
  exists w',
    run_pipeline setup now w = (Raise e, w') /\
    csv_files w' = csv_files w.
Proof.
  intros Hread Hsome.
  destruct (extraction_returns setup w Hread)
    as (w1 & E & (_ & _ & _ & Hout) & Hcsv & _).
  unfold run_pipeline, bind. rewrite E. cbn [fst].
  rewrite (export_dataframe_unfold
             (Shipments.set_self_df setup _) now w1 _ eq_refl).
  cbn [Shipments.parent Shipments.outputfilename Shipments.set_self_df].
  rewrite Hout, Hsome.
  eexists. split; [reflexivity|]. exact Hcsv.
Qed.

Lemma shipments_init_of_settings (f : string) (m : Machine)
      (s : Settings.t) (m' : Machine) :
  Settings.init f m = (Ok s, m') ->
  exists setup,
    Shipments_init f m = (Ok setup, m') /\
    Shipments.source setup = Settings.source s /\
    Shipments.parent setup = Settings.parent s /\
    Shipments.outputfilename setup = Settings.outputfilename s.
Proof.
  intros H. unfold Shipments_init, bind. rewrite H.
  eexists. split; [reflexivity|]. cbn. auto.
Qed.

(** X23. The run as a whole.  When [settings.json] loads, the log file
    opens, the parent is a directory, each working directory exists or
    can be created and every listed file can be read, the run reaches the
    export with the four working directories in place.  When the output
    file can be written the run returns, and exactly one CSV file has
    been written, in the parent directory, named by the time stamp and
    the output file name of the settings, holding a table in which no
    pair (distribution order number, airwaybill) occurs twice.  When the
    output file cannot be written, the run raises what [to_csv] raises
    and no CSV file has been written. *)
Theorem run_returns_with_one_report :
  forall (now : string) (m : Machine) (settings : Json.t),
    load_json m "settings.json" = Ok settings ->
    basic_config m = None ->
    open_log_outcome m (Settings.log_file (attrs m settings)) = None ->
    is_dir m (Settings.parent (attrs m settings)) = true ->
    (forall d, In d (work_dirs (attrs m settings)) ->
               existing m d = true \/ mkdir_outcome m d = None) ->
    (forall p,
        In p (glob_txt (world m) (Settings.source (attrs m settings))) ->
        exists rawtext, read_text (world m) p = Ok rawtext) ->
    (to_csv_outcome (world m)
       (joinpath (Settings.parent (attrs m settings))
                 (now ++ "_"
                  ++ Settings.outputfilename (attrs m settings))) = None ->
     exists self' m' table,
       run now m = (Ok self', m') /\
       (forall d, In d (work_dirs (attrs m settings)) ->
                  existing m' d = true) /\
       Shipments.unique_df self' = Some table /\
       NoDup (map (fun r => (Row.distribution_order_number r,
                             Row.airwaybill r)) table) /\
       csv_files (world m')
       = csv_files (world m)
         ++ [(joinpath (Settings.parent (attrs m settings))
                       (now ++ "_"
                        ++ Settings.outputfilename (attrs m settings)),
              table)]) /\
    (forall e,
        to_csv_outcome (world m)
          (joinpath (Settings.parent (attrs m settings))
                    (now ++ "_"
                     ++ Settings.outputfilename (attrs m settings)))
        = Some e ->
        exists m',
          run now m = (Raise e, m') /\
          (forall d, In d (work_dirs (attrs m settings)) ->
                     existing m' d = true) /\
          csv_files (world m') = csv_files (world m)).
Proof.
  intros now m settings Hload Hcfg Hopen Hdir Hdirs Hread.
  destruct (init_runs "settings.json" m settings Hload Hcfg Hopen Hdir
              Hdirs) as (m1 & E).
  destruct (init_inversion _ _ _ _ E)
    as (settings' & m0 & created & new & _ & _ & Efmt & _ & C & Hall & _).
  destruct (format_logging_step _ _ _ _ _ _ Efmt) as (_ & Hw0 & _).
  destruct C as ((_ & _ & ((Hglob & Hrd & _ & Hout) & _ & Hcsv & _)) & _).
  rewrite Hw0 in Hglob, Hrd, Hout, Hcsv.
  destruct (shipments_init_of_settings _ _ _ _ E)
    as (setup & Einit & Hsrc & Hpar & Hname).
  assert (Hread1 : forall p,
             In p (glob_txt (world m1) (Shipments.source setup)) ->
             exists rawtext, read_text (world m1) p = Ok rawtext).
  { intros p Hp. rewrite Hglob, Hrd, Hsrc in *. now apply Hread. }
  split.
  - intros Hnone.
    destruct (run_pipeline_returns setup now (world m1) Hread1)
      as (self' & w' & d & Erun & Hu & Hfiles).
    { rewrite Hout, Hpar, Hname. exact Hnone. }
    exists self', (set_world m1 w'), (drop_duplicates d).
    split.
    + unfold run, bind. rewrite Einit. unfold in_world. now rewrite Erun.
    + split; [exact Hall|]. split; [exact Hu|].
      split; [exact (drop_duplicates_seen_NoDup d [])|].
      cbn. rewrite Hfiles, Hcsv, Hpar, Hname. reflexivity.
  - intros e Hsome.
    destruct (run_pipeline_raises setup now (world m1) e Hread1)
      as (w' & Erun & Hfiles).
    { rewrite Hout, Hpar, Hname. exact Hsome. }
    exists (set_world m1 w').
    split.
    + unfold run, bind. rewrite Einit. unfold in_world. now rewrite Erun.
    + split; [exact Hall|]. cbn. now rewrite Hfiles, Hcsv.
Qed.

Lemma run_returns_with_one_report_witness :
  (exists self' m' table,
      run "2026_Nov_03_10_15" (example_machine (Ok example_json) true)
      = (Ok self', m') /\
      (forall d,
          In d (work_dirs (attrs (example_machine (Ok example_json) true)
                                 example_json)) ->
          existing m' d = true) /\
      Shipments.unique_df self' = Some table /\
      NoDup (map (fun r => (Row.distribution_order_number r,
                            Row.airwaybill r)) table) /\
      csv_files (world m')
      = csv_files (world (example_machine (Ok example_json) true))
        ++ [(["/"; "data"; "2026_Nov_03_10_15_report.csv"], table)]) /\
  (exists m',
      run "2026_Nov_03_10_15" (no_csv_machine (Ok example_json))
      = (Raise FileNotFoundError, m') /\
      (forall d,
          In d (work_dirs (attrs (no_csv_machine (Ok example_json))
                                 example_json)) ->
          existing m' d = true) /\
      csv_files (world m')
      = csv_files (world (no_csv_machine (Ok example_json)))).
Proof.
  assert (Hread : forall p,
             In p (glob_txt example_world ["source"]) ->
             exists rawtext, read_text example_world p = Ok rawtext).
  { intros p Hp. cbn in Hp.
    repeat (destruct Hp as [<-|Hp]; [eexists; reflexivity|]).
    destruct Hp. }
  split.
  - apply (proj1 (run_returns_with_one_report
                    "2026_Nov_03_10_15"
                    (example_machine (Ok example_json) true) example_json
                    eq_refl eq_refl eq_refl eq_refl
                    (fun d _ => or_intror eq_refl) Hread)).
    reflexivity.
  - apply (proj2 (run_returns_with_one_report
                    "2026_Nov_03_10_15"
                    (no_csv_machine (Ok example_json)) example_json
                    eq_refl eq_refl eq_refl eq_refl
                    (fun d _ => or_intror eq_refl) Hread)
                 FileNotFoundError).
    reflexivity.
Defined.
